(* ===== verification/_CoqProject ===== *)
-Q . S2P
Prelude.v
PyLib.v
Partition.v
Storage.v
Naming.v
Splitter.v
Printer.v
Discovery.v
Main.v
