(* ===== verification/Prelude.v ===== *)
(** * A verification development for c-stpl, the PDF splitter and printer

    The program (src/) is a command-line tool in four Python modules:
    - [src/pdf_splitter.py], class [PDFSplitter]: loads a PDF, validates the
      pages-per-split parameter, computes the page ranges of the parts and
      writes one PDF per range ([split_pdf], [extract_page_range]);
    - [src/file_manager.py], class [FileManager]: checks the input, creates
      the output directory, makes the output names [<stem>_part_NNN.pdf]
      ([generate_output_filenames]), the same page ranges
      ([get_split_ranges]) and renames the names that already exist
      ([handle_filename_conflicts]);
    - [src/printer_manager.py], class [PrinterManager]: one print job per
      file and per platform ([print_file], [print_multiple_files]), and the
      queries [list_printers], [get_default_printer], [check_printer_status];
    - [src/main.py]: the command line [main()], which chains the three:
      check and load the input, check the parameter, name, ask before going
      on when a name exists, rename, split, print.

    The library, one file per part, in dependency order (the file stem
    comes first in every name; the Module inside is the class):
    - [Prelude] (this file): the exceptions [PyExc] (an [OSError] with its
      errno and text), [str(e)] ([py_str_exc], with the class [ExcText] for
      the texts the model does not build), the result type [pyres] (a value
      or a raised exception) with its bind notation in [py_scope], the
      state-and-exception monad [pyst S A = S -> pyres A * S] with its
      notation in [pyst_scope], what a computation makes visible in order
      ([out_event]: a [print] line or a progress-callback call), and the
      hint database [s2p] and tactics shared by every file;
    - [PyLib]: the Python builtins the code calls, written out: [range]
      (CPython's length formula, [ValueError] on a zero step), indexing with
      negative indices and [IndexError], [//] and [%], [str] of an int and
      the ["03d"] format with their decimal round trip and the number of
      digits of [str(n)], the [".2f"] format of a size in megabytes (ties
      to even, as Python rounds), [str] of a [bool], [split] on a character
      and on blanks, [join], [strip], [lower], [startswith], [in], a [dict]
      as its list of items in insertion order, and floats: [float(n)],
      [a / b] on integers and the [".1f"] format, on Rocq's primitive IEEE
      754 doubles, the format rounding the exact binary value with ties to
      even as CPython does;
    - [Partition] (Module [Partition]): [validate_split_parameters],
      [calculate_split_info] and [_get_page_ranges]; the page-range plan of
      the spec as an inductive predicate and the refinement theorem that
      the code computes exactly it;
    - [Storage]: pathlib's [stem], [suffix], [name] and [str] of a path;
      the filesystem as a finite map from paths to files (a PDF is its list
      of pages), with the other entries (directories) and the paths whose
      [open] and [unlink] raise [PermissionError]; writing a PDF, [unlink]
      (with the [OSError] and its text that CPython raises); the
      interface [FiniteStore] the name resolver needs from storage;
    - [Naming] (Module [FileManager]): the class's state, [validate_input],
      [create_output_directory] and [cleanup_temp_files] with the lines they
      print, [get_file_size_mb], the names, and the renaming loop as a
      [Fixpoint] with fuel [1 + number of existing entries]; the fuel is
      proved enough on every storage (the probed names are pairwise
      distinct, so at most that many exist) and only a bound, the names
      confirmed for the parts are pairwise distinct (the number [NNN] is
      read back from a name) and of the shape
      [output_dir/<base>_part_NNN[_j].pdf], the width of the number is three
      digits up to part 999 only, and the cleanup removes exactly the
      removable listed files;
    - [Splitter] (Module [PDFSplitter]): loading, [get_pdf_info], the split
      loop in the [pyst] monad over the files and the events it makes
      visible (the callback calls and its ["Created: ..."] and error lines),
      [extract_page_range] and [preview_split], each with what it prints;
      the round trip (the parts read back and concatenated are the
      document), the events of a split, the stop at the first failure, the
      equivalence of the preview with the split it announces, and a frame
      lemma for any preorder every write respects (a split writes only to
      its output files);
    - [Printer] (Module [PrinterManager]): the operating system as the
      class [PrintOS] (whether [win32] imports, the outcome of
      [subprocess.run] and of the win32 calls), every call appended to a
      log with the events made visible; [print_file] with its three back
      ends and [print_multiple_files] (the callback calls and the line of
      each outcome); the commands run, their order, and the [lpr] command
      line's round trip;
    - [Discovery] (Module [Discovery]): [list_printers],
      [get_default_printer], [check_printer_status], the errors they print,
      and the parsing of the output of [lpstat] and PowerShell;
    - [Main] (Module [Main]): [print_progress], [main()] block by block on
      a [world] (the files, the log of calls, the lines of standard input,
      and standard output: every [print] of [main], the prompts, the lines
      of the callees, and for their callback calls the lines of
      [print_progress], which [render_events] composes in order),
      [print_available_printers] and the [__main__] handler ([run]); a
      relation [R] preserved by every step ([preserves]) is proved once for
      the whole of [main] by the tactic [solve_preserves]; the end-to-end
      theorems: no run changes a file that exists when it starts and no
      run changes a file outside the output directory, a run that passes the checks
      creates fresh files that read back to the document and prints exactly
      the lines of the loading, the split and the summary, with [--print]
      exactly these files are printed in order, each gets its result line
      and the summary reports how many jobs succeeded, when a run stops,
      with which exit code and which lines of output, the preview, and the
      parsing of [--print-options].

    Every operation is an executable Rocq function; each theorem with a
    hypothesis has a witness that evaluates the code on a concrete input by
    [reflexivity] or [vm_compute].

    Python integers are [Z] (unbounded, as in Python); page counts read from
    a document ([len(reader.pages)]) are [nat] and enter the arithmetic with
    [Z.of_nat].  An exception is a value of [PyExc]; a [try/except] block is
    a [match] on [pyres].  The only fuel is that of the renaming loop, proved
    enough ([FileManager.resolve_conflict_total]); the loop stops after at
    most [1 + number of existing entries] tests and any larger fuel gives the
    same name ([FileManager.resolve_conflict_terminates]), so the fuel is only
    a bound.  Every other loop is a structural recursion on the list it
    iterates over.

    Floats: [print_progress] computes [(current / total) * 100] with
    [PrimFloat.div] and [PrimFloat.mul], which are IEEE binary64 as
    CPython's [float]; [int / int] converts both integers first, which is
    CPython's correctly rounded quotient for integers below [2^53] (counts
    of parts and files always are).  The texts of exceptions are CPython's
    for the [OSError]s of the filesystem and the messages the model builds;
    for the others (pypdf's [PdfReadError], [IndexError], ...) [str(e)] is
    the input [ExcText]; the witnesses use [sample_exc_text], CPython's
    texts where they are fixed.

    Not modelled: the bytes of a PDF (pypdf is a library the code only calls:
    a document is its list of pages and whether it is encrypted, and
    [stat().st_size] and the metadata are parameters of [Main]); argparse
    ([Main.Args] is its result, and [parser.error] its [SystemExit 2]); the
    directory tree (creating the output directory is a parameter of
    [Main]); [KeyboardInterrupt] and the traceback [__main__] prints after
    an unexpected error (standard error is not modelled); and the operating
    system's commands themselves, whose outcomes are the [PrintOS]
    interface. *)

From stdpp Require Export base list gmap strings.
From Stdlib Require Export ZArith Lia Ascii.

(** ** Python exceptions and results *)

(** The exceptions the modelled code raises or catches. *)
Inductive PyExc :=
  | ValueError
  | IndexError
  | ZeroDivisionError
  | OSError (errno : Z) (text : string)  (** [str(e)] is [text] *)
  | PdfReadError
  | CalledProcessError
  | ImportError
  | EOFError                  (** [input()] at the end of standard input *)
  | SystemExit (code : Z)     (** [sys.exit] and [parser.error] *)
  | OtherError (msg : string).

#[export] Instance PyExc_eq_dec : EqDecision PyExc.
Proof. solve_decision. Defined.

(** A Python computation that returns a value or raises. *)
Inductive pyres (A : Type) : Type :=
  | POk (a : A)
  | PErr (e : PyExc).
Arguments POk {A} a.
Arguments PErr {A} e.

Definition py_bind {A B} (c : pyres A) (k : A -> pyres B) : pyres B :=
  match c with
  | POk a => k a
  | PErr e => PErr e
  end.

Declare Scope py_scope.
Delimit Scope py_scope with py.
Notation "x <- c ;; k" := (py_bind c (fun x => k))
  (at level 100, c at next level, right associativity) : py_scope.

Definition py_ok {A} (c : pyres A) : bool :=
  match c with POk _ => true | PErr _ => false end.

Lemma py_bind_ok {A B} (a : A) (k : A -> pyres B) : py_bind (POk a) k = k a.
Proof. reflexivity. Qed.

Lemma py_bind_err {A B} e (k : A -> pyres B) : py_bind (PErr e) k = PErr e.
Proof. reflexivity. Qed.

Lemma py_bind_POk_inv {A B} (c : pyres A) (k : A -> pyres B) b :
  py_bind c k = POk b -> exists a, c = POk a /\ k a = POk b.
Proof. destruct c; simpl; [eauto | discriminate]. Qed.

(** [for x in l: ys.append(f(x))]: the first exception aborts the loop. *)
Fixpoint py_mapM {A B} (f : A -> pyres B) (l : list A) : pyres (list B) :=
  match l with
  | [] => POk []
  | x :: l' => (y <- f x ;; ys <- py_mapM f l' ;; POk (y :: ys))%py
  end.

Lemma py_mapM_ok {A B} (f : A -> pyres B) (g : A -> B) (l : list A) :
  (forall x, x ∈ l -> f x = POk (g x)) -> py_mapM f l = POk (map g l).
Proof.
  induction l as [|x l IH]; intros Hf; simpl; [done|].
  rewrite Hf by set_solver. simpl. rewrite IH by set_solver. done.
Qed.

(** ** Python computations with state *)

(** A statement sequence that changes a state and may raise: on an
    exception the state reached so far is kept, as Python keeps the side
    effects done before the [raise]. *)
Definition pyst (S A : Type) : Type := S -> pyres A * S.

Definition st_ret {S A} (a : A) : pyst S A := fun s => (POk a, s).

Definition st_lift {S A} (r : pyres A) : pyst S A := fun s => (r, s).

Definition st_bind {S A B} (c : pyst S A) (k : A -> pyst S B) : pyst S B :=
  fun s => match c s with
           | (POk a, s') => k a s'
           | (PErr e, s') => (PErr e, s')
           end.

Declare Scope pyst_scope.
Delimit Scope pyst_scope with pyst.
Notation "x <- c ;; k" := (st_bind c (fun x => k))
  (at level 100, c at next level, right associativity) : pyst_scope.

Lemma st_bind_ok {S A B} (c : pyst S A) (k : A -> pyst S B) s a s' :
  c s = (POk a, s') -> st_bind c k s = k a s'.
Proof. intros H. unfold st_bind. by rewrite H. Qed.

Lemma st_bind_ret {S A B} (a : A) (k : A -> pyst S B) s : st_bind (st_ret a) k s = k a s.
Proof. done. Qed.

Lemma st_bind_err {S A B} (c : pyst S A) (k : A -> pyst S B) s e s' :
  c s = (PErr e, s') -> st_bind c k s = (PErr e, s').
Proof. intros H. unfold st_bind. by rewrite H. Qed.

(** ** Standard output and callbacks *)

(** What a computation makes visible, in order: a line it prints with
    [print], or a call [progress_callback(current, total, message)], whose
    effect is the caller's ([main] passes [print_progress], which prints). *)
Inductive out_event :=
  | Printed (line : string)
  | Progress (current total : nat) (message : string).

#[export] Instance out_event_eq_dec : EqDecision out_event.
Proof. solve_decision. Defined.

(** The lines of [print] calls, in order. *)
Definition printed_lines (evs : list out_event) : list string :=
  omap (fun ev => match ev with Printed l => Some l | Progress _ _ _ => None end) evs.

(** [str(e)]: the text of an exception in an f-string.  The model keeps
    which exception is raised; its text is the runtime's, pypdf's or the
    operating system's (an errno and a path), so it is an input of the
    model, except for the exceptions the model raises with their text. *)
Class ExcText := exc_str : PyExc -> string.

Definition py_str_exc `{ExcText} (e : PyExc) : string :=
  match e with OtherError m | OSError _ m => m | _ => exc_str e end.

(** The texts of the concrete runs: CPython's, where it has one fixed text
    for the sites the model raises the exception at. *)
Definition sample_exc_text : ExcText := fun e =>
  match e with
  | IndexError => "list index out of range"
  | ZeroDivisionError => "integer division or modulo by zero"
  | EOFError => "EOF when reading a line"
  | PdfReadError => "EOF marker not found"
  | ValueError => "range() arg 3 must not be zero"
  | _ => ""
  end%string.

(** ** Integer helpers *)

(** Page counts: the naturals, embedded in Python's integers. *)
Lemma Z_of_nat_nonneg (n : nat) : (0 <= Z.of_nat n)%Z.
Proof. lia. Qed.

(** ** Lists *)

Lemma map_seq_shift {A} (f : nat -> A) (k n : nat) :
  map f (seq (S k) n) = map (fun i => f (S i)) (seq k n).
Proof. rewrite <- seq_shift, map_map. reflexivity. Qed.

(** ** Automation *)

Create HintDb s2p discriminated.
Create Rewrite HintDb s2p.
#[export] Hint Rewrite @py_bind_ok @py_bind_err : s2p.
#[export] Hint Resolve Z_of_nat_nonneg : s2p.

(** [py_simp] evaluates the binds of a Python computation whose first
    steps are known. *)
Ltac py_simp := repeat (autorewrite with s2p in *; simpl in * ).

(** [case_py c] splits on the outcome of the Python computation [c]. *)
Ltac case_py c := let E := fresh "E" in destruct c eqn:E; simpl in *.
