(* ===== verification/PyLib.v ===== *)
(** * PyLib: the Python builtins the code calls

    [range(start, stop, step)] as CPython computes it (its length formula and
    the item [start + i*step]), list indexing [l[i]] with negative indices,
    [str] of an integer, the ["0<w>d"] format used for part numbers, floor
    division and modulo, the string methods [split] (on a character and on
    blanks), [strip], [lower], [startswith] and [in], [dict] assignment
    in insertion order, and floats ([float(n)], [a / b] on integers, the
    [".{p}f"] format) on Rocq's primitive IEEE doubles.  These are library
    semantics, not code of the repository; the lemmas here are what the
    components use about them:
    the range length is the ceiling of the span over the step, a formatted
    number parses back to itself, and splitting joined text gives its
    pieces back. *)

From S2P Require Import Prelude.
From Stdlib Require Import DecimalString DecimalNat Floats.

Local Open Scope Z_scope.

(** ** [range] *)

(** CPython's [compute_range_length]. *)
Definition py_range_len (start stop step : Z) : Z :=
  let '(lo, hi, st) :=
    if 0 <? step then (start, stop, step) else (stop, start, - step) in
  if hi <=? lo then 0 else (hi - lo - 1) / st + 1.

(** [range(start, stop, step)]: a zero step raises [ValueError]. *)
Definition py_range (start stop step : Z) : pyres (list Z) :=
  if step =? 0 then PErr ValueError
  else POk (map (fun k : nat => start + Z.of_nat k * step)
                (seq 0 (Z.to_nat (py_range_len start stop step)))).

Lemma py_range_len_empty start stop step :
  0 < step -> stop <= start -> py_range_len start stop step = 0.
Proof.
  intros Hs Hle. unfold py_range_len.
  destruct (Z.ltb_spec 0 step); [|lia].
  destruct (Z.leb_spec stop start); lia.
Qed.

(** The last item of a nonempty range with a positive step is below [stop],
    and one more step would reach it. *)
Lemma py_range_len_bounds start stop step :
  0 < step -> start < stop ->
  let m := py_range_len start stop step in
  0 < m /\ start + (m - 1) * step < stop /\ stop <= start + m * step.
Proof.
  intros Hs Hlt. unfold py_range_len.
  destruct (Z.ltb_spec 0 step); [|lia].
  destruct (Z.leb_spec stop start); [lia|].
  pose proof (Z.div_mod (stop - start - 1) step ltac:(lia)) as Hdm.
  pose proof (Z.mod_pos_bound (stop - start - 1) step ltac:(lia)) as Hr.
  pose proof (Z.div_pos (stop - start - 1) step ltac:(lia) ltac:(lia)).
  nia.
Qed.

(** The length is the ceiling of [(stop - start) / step]. *)
Lemma py_range_len_ceil start stop step :
  0 < step -> start < stop ->
  py_range_len start stop step = (stop - start + step - 1) / step.
Proof.
  intros Hs Hlt. unfold py_range_len.
  destruct (Z.ltb_spec 0 step); [|lia].
  destruct (Z.leb_spec stop start); [lia|].
  replace (stop - start + step - 1) with (stop - start - 1 + 1 * step) by lia.
  rewrite Z.div_add by lia. lia.
Qed.

Lemma py_range_pos start stop step :
  0 < step ->
  py_range start stop step =
  POk (map (fun k : nat => start + Z.of_nat k * step)
           (seq 0 (Z.to_nat (py_range_len start stop step)))).
Proof. intros Hs. unfold py_range. destruct (Z.eqb_spec step 0); [lia|done]. Qed.

(** [list(range(s, s + n))]: [n] consecutive integers from [s]. *)
Fixpoint span_from (s : Z) (n : nat) : list Z :=
  match n with O => [] | S n => s :: span_from (s + 1) n end.

Lemma length_span_from s n : length (span_from s n) = n.
Proof. revert s; induction n; simpl; auto. Qed.

Lemma span_from_add s n m :
  span_from s (n + m) = span_from s n ++ span_from (s + Z.of_nat n) m.
Proof.
  revert s; induction n as [|n IH]; intros s; simpl.
  - by rewrite Z.add_0_r.
  - rewrite IH. do 3 f_equal. lia.
Qed.

Lemma span_from_seq s n :
  span_from s n = map (fun k : nat => s + Z.of_nat k) (seq 0 n).
Proof.
  revert s; induction n as [|n IH]; intros s; simpl; [done|].
  rewrite IH, map_seq_shift. f_equal; [lia|]. apply map_ext. intros. lia.
Qed.

Lemma map_seq_span_from a k n :
  map (fun i : nat => a + Z.of_nat i * 1) (seq k n) = span_from (a + Z.of_nat k) n.
Proof.
  revert k; induction n as [|n IH]; intros k; simpl; [done|].
  rewrite IH. f_equal; [lia|]. f_equal. lia.
Qed.

Lemma py_range_step1 a b :
  py_range a b 1 = POk (span_from a (Z.to_nat (b - a))).
Proof.
  rewrite py_range_pos by lia. f_equal.
  assert (Hl : Z.to_nat (py_range_len a b 1) = Z.to_nat (b - a)).
  { unfold py_range_len. simpl. destruct (Z.leb_spec b a); [lia|].
    rewrite Z.div_1_r. lia. }
  rewrite Hl, map_seq_span_from. f_equal. lia.
Qed.

(** ** Indexing: [l[i]] *)

(** A negative index counts from the end; out of range raises. *)
Definition py_getitem {A} (l : list A) (i : Z) : pyres A :=
  let n := Z.of_nat (length l) in
  let j := if i <? 0 then i + n else i in
  if (0 <=? j) && (j <? n) then
    match l !! Z.to_nat j with Some x => POk x | None => PErr IndexError end
  else PErr IndexError.

Lemma py_getitem_nat {A} (l : list A) (i : nat) :
  py_getitem l (Z.of_nat i) =
  match l !! i with Some x => POk x | None => PErr IndexError end.
Proof.
  unfold py_getitem.
  destruct (Z.ltb_spec (Z.of_nat i) 0); [lia|].
  destruct (Z.leb_spec 0 (Z.of_nat i)); [|lia]. simpl.
  rewrite Nat2Z.id.
  destruct (Z.ltb_spec (Z.of_nat i) (Z.of_nat (length l))).
  - reflexivity.
  - rewrite lookup_ge_None_2 by lia. reflexivity.
Qed.

(** Reading [l[a]], [l[a+1]], ..., [l[a+n-1]] in a loop gives a slice. *)
Lemma py_mapM_getitem_span {A} (l : list A) (a n : nat) :
  (a + n <= length l)%nat ->
  py_mapM (py_getitem l) (span_from (Z.of_nat a) n) = POk (take n (drop a l)).
Proof.
  revert a; induction n as [|n IH]; intros a Hn; simpl; [by rewrite take_0|].
  rewrite py_getitem_nat.
  destruct (l !! a) as [x|] eqn:E; [|apply lookup_ge_None in E; lia]. simpl.
  replace (Z.of_nat a + 1) with (Z.of_nat (S a)) by lia.
  rewrite IH by lia. simpl. by rewrite (drop_S l x a E).
Qed.

(** ** Integer arithmetic: [//] and [%] *)

(** Python's [//] and [%] round towards minus infinity, as [Z.div] and
    [Z.modulo] do; a zero divisor raises. *)
Definition py_floordiv (a b : Z) : pyres Z :=
  if (b =? 0)%Z then PErr ZeroDivisionError else POk (a / b).

Definition py_mod (a b : Z) : pyres Z :=
  if (b =? 0)%Z then PErr ZeroDivisionError else POk (a mod b).

(** ** [str] and the ["0<w>d"] format *)

Local Open Scope string_scope.

(** [str(n)] of a natural number: its decimal digits, no leading zero. *)
Definition py_str_nat (n : nat) : string :=
  NilEmpty.string_of_uint (Nat.to_uint n).

(** [str(z)] of a Python integer. *)
Definition py_str_int (z : Z) : string :=
  if (z <? 0)%Z then "-" ++ py_str_nat (Z.to_nat (- z))
  else py_str_nat (Z.to_nat z).

Lemma py_str_int_nat n : py_str_int (Z.of_nat n) = py_str_nat n.
Proof. unfold py_str_int. destruct (Z.ltb_spec (Z.of_nat n) 0); [lia|]. by rewrite Nat2Z.id. Qed.

Fixpoint zeros (k : nat) : string :=
  match k with O => "" | S k => String "0"%char (zeros k) end.

(** [f"{z:0<w>d}"]: the digits of [|z|], left-padded with ['0'] to the
    width [w], the sign (if any) counting in the width. *)
Definition py_format_0d (w : nat) (z : Z) : string :=
  if (z <? 0)%Z then
    let s := py_str_nat (Z.to_nat (- z)) in
    "-" ++ zeros (w - 1 - String.length s) ++ s
  else
    let s := py_str_nat (Z.to_nat z) in
    zeros (w - String.length s) ++ s.

(** [int(s)] on a string of decimal digits (leading zeros allowed). *)
Definition py_int_of_digits (s : string) : option nat :=
  option_map Nat.of_uint (NilEmpty.uint_of_string s).

Definition is_digit (c : ascii) : bool :=
  Ascii.leb "0"%char c && Ascii.leb c "9"%char.

Fixpoint all_digits (s : string) : bool :=
  match s with
  | EmptyString => true
  | String c s => is_digit c && all_digits s
  end.

Lemma zeros_string_of_uint k u :
  zeros k ++ NilEmpty.string_of_uint u =
  NilEmpty.string_of_uint (Nat.iter k Decimal.D0 u).
Proof.
  induction k as [|k IH]; [done|].
  change (String "0"%char (zeros k ++ NilEmpty.string_of_uint u) =
          String "0"%char (NilEmpty.string_of_uint (Nat.iter k Decimal.D0 u))).
  by rewrite IH.
Qed.

Lemma of_uint_D0_iter k u :
  Nat.of_uint (Nat.iter k Decimal.D0 u) = Nat.of_uint u.
Proof.
  induction k as [|k IH]; [done|].
  rewrite <- Unsigned.of_uint_norm. simpl.
  change (Decimal.unorm (Nat.iter k Decimal.D0 u)) with
    (Decimal.unorm (Decimal.D0 (Nat.iter k Decimal.D0 u))).
  by rewrite Unsigned.of_uint_norm, <- IH.
Qed.

Lemma all_digits_string_of_uint u :
  all_digits (NilEmpty.string_of_uint u) = true.
Proof. induction u; simpl; rewrite ?IHu; reflexivity. Qed.

Lemma all_digits_zeros k : all_digits (zeros k) = true.
Proof. induction k; simpl; auto. Qed.

Lemma all_digits_app s t :
  all_digits (s ++ t) = all_digits s && all_digits t.
Proof.
  induction s as [|c s IH]; [done|].
  change (String c s ++ t) with (String c (s ++ t)). simpl.
  by rewrite IH, andb_assoc.
Qed.

(** Round trip: [int(str(n)) == n]. *)
Lemma py_int_of_digits_str n : py_int_of_digits (py_str_nat n) = Some n.
Proof.
  unfold py_int_of_digits, py_str_nat. rewrite NilEmpty.usu. simpl.
  by rewrite Unsigned.of_to.
Qed.

(** Round trip: [int(f"{n:0<w>d}") == n] for [n >= 0], whatever the width. *)
Lemma py_int_of_digits_format w n :
  py_int_of_digits (py_format_0d w (Z.of_nat n)) = Some n.
Proof.
  unfold py_format_0d. destruct (Z.ltb_spec (Z.of_nat n) 0); [lia|].
  rewrite Nat2Z.id. unfold py_str_nat. rewrite zeros_string_of_uint.
  unfold py_int_of_digits. rewrite NilEmpty.usu. simpl.
  by rewrite of_uint_D0_iter, Unsigned.of_to.
Qed.

Lemma all_digits_format w n : all_digits (py_format_0d w (Z.of_nat n)) = true.
Proof.
  unfold py_format_0d. destruct (Z.ltb_spec (Z.of_nat n) 0); [lia|].
  rewrite all_digits_app, all_digits_zeros. apply all_digits_string_of_uint.
Qed.

Lemma all_digits_str n : all_digits (py_str_nat n) = true.
Proof. apply all_digits_string_of_uint. Qed.

(** ** Strings *)

(** stdpp makes [String.append] [simpl never]; these are its equations. *)
Lemma string_app_nil_l s : "" +:+ s = s.
Proof. reflexivity. Qed.

Lemma string_app_cons c s t : String c s +:+ t = String c (s +:+ t).
Proof. reflexivity. Qed.

#[export] Hint Rewrite string_app_nil_l string_app_cons : s2p.

Lemma string_length_app s t :
  String.length (s +:+ t) = (String.length s + String.length t)%nat.
Proof. induction s as [|c s IH]; [done|]. rewrite string_app_cons. simpl. lia. Qed.

Lemma string_app_assoc s t u : s +:+ (t +:+ u) = (s +:+ t) +:+ u.
Proof. induction s as [|c s IH]; [done|]. rewrite !string_app_cons. by rewrite IH. Qed.

Lemma string_app_nil_r s : s +:+ "" = s.
Proof. induction s as [|c s IH]; [done|]. rewrite string_app_cons. by rewrite IH. Qed.

Lemma string_app_inv_l s t u : s +:+ t = s +:+ u -> t = u.
Proof.
  induction s as [|c s IH]; [done|]. rewrite !string_app_cons. intros [= H]. auto.
Qed.

Lemma string_app_inv_r s t u : t +:+ s = u +:+ s -> t = u.
Proof.
  revert u; induction t as [|c t IH]; intros [|c' u] H;
    rewrite ?string_app_cons, ?string_app_nil_l in H; try done.
  - apply (f_equal String.length) in H. simpl in H.
    rewrite string_length_app in H. lia.
  - apply (f_equal String.length) in H. simpl in H.
    rewrite string_length_app in H. lia.
  - injection H as -> H. f_equal. auto.
Qed.

(** ** How many digits [str(n)] has *)

Lemma length_string_of_uint u :
  String.length (NilEmpty.string_of_uint u) = Decimal.nb_digits u.
Proof. induction u; simpl; auto. Qed.

Lemma of_uint_acc_bound d acc :
  (Nat.of_uint_acc d acc < S acc * 10 ^ Decimal.nb_digits d)%nat.
Proof.
  revert acc; induction d; intros acc; simpl;
    rewrite ?Nat.tail_mul_spec in *; try lia;
    match goal with IH : forall acc, _ |- (Nat.of_uint_acc _ ?a < _)%nat =>
      specialize (IH a) end; nia.
Qed.

(** A number has fewer digits than [10] to the length of its [str]. *)
Lemma py_str_nat_bound n : (n < 10 ^ String.length (py_str_nat n))%nat.
Proof.
  unfold py_str_nat. rewrite length_string_of_uint.
  rewrite <- (Unsigned.of_to n) at 1. unfold Nat.of_uint.
  pose proof (of_uint_acc_bound (Nat.to_uint n) 0). lia.
Qed.

(** The numbers below [1000] have at most three digits (checked on each). *)
Lemma py_str_nat_small n : (n < 1000)%nat -> (String.length (py_str_nat n) <= 3)%nat.
Proof.
  intros Hn.
  assert (Hall : forallb (fun k => Nat.leb (String.length (py_str_nat k)) 3)
                         (seq 0 1000) = true) by (vm_compute; reflexivity).
  rewrite forallb_forall in Hall. apply Nat.leb_le, Hall, in_seq. lia.
Qed.

Lemma zeros_length k : String.length (zeros k) = k.
Proof. induction k; simpl; auto. Qed.

(** [f"{n:0<w>d}"] has [max(w, len(str(n)))] characters. *)
Lemma py_format_0d_length w n :
  String.length (py_format_0d w (Z.of_nat n)) = Nat.max w (String.length (py_str_nat n)).
Proof.
  unfold py_format_0d. destruct (Z.ltb_spec (Z.of_nat n) 0); [lia|].
  rewrite Nat2Z.id, string_length_app, zeros_length. lia.
Qed.

(** The first character of a string is not a digit (or there is none). *)
Definition no_digit_head (s : string) : bool :=
  match s with EmptyString => true | String c _ => negb (is_digit c) end.

(** A run of digits followed by a non-digit is split uniquely. *)
Lemma digits_app_inv x y u v :
  all_digits x = true -> all_digits y = true ->
  no_digit_head u = true -> no_digit_head v = true ->
  x +:+ u = y +:+ v -> x = y /\ u = v.
Proof.
  revert y; induction x as [|c x IH]; intros [|c' y] Hx Hy Hu Hv H;
    rewrite ?string_app_cons, ?string_app_nil_l in H; simpl in *; try done.
  - subst u. simpl in Hu. apply andb_prop in Hy as [Hy _].
    by rewrite Hy in Hu.
  - subst v. simpl in Hv. apply andb_prop in Hx as [Hx _].
    by rewrite Hx in Hv.
  - apply andb_prop in Hx as [_ Hx]. apply andb_prop in Hy as [_ Hy].
    injection H as -> H. destruct (IH y Hx Hy Hu Hv H) as [-> ->]. done.
Qed.

Lemma py_format_0d_inj w n m :
  py_format_0d w (Z.of_nat n) = py_format_0d w (Z.of_nat m) -> n = m.
Proof.
  intros H. apply (f_equal py_int_of_digits) in H.
  rewrite !py_int_of_digits_format in H. congruence.
Qed.

Lemma py_str_nat_inj n m : py_str_nat n = py_str_nat m -> n = m.
Proof.
  intros H. apply (f_equal py_int_of_digits) in H.
  rewrite !py_int_of_digits_str in H. congruence.
Qed.

#[export] Hint Resolve all_digits_format all_digits_str : s2p.

(** [c in s]. *)
Fixpoint str_has (c : ascii) (s : string) : bool :=
  match s with
  | EmptyString => false
  | String c' s' => Ascii.eqb c' c || str_has c s'
  end.

(** [s.partition(c)] when [c in s]: the text before the first [c] and
    the text after it. *)
Fixpoint split_first (c : ascii) (s : string) : option (string * string) :=
  match s with
  | EmptyString => None
  | String c' s' =>
      if Ascii.eqb c' c then Some ("", s')
      else match split_first c s' with
           | Some (a, b) => Some (String c' a, b)
           | None => None
           end
  end.

Lemma split_first_app c a b :
  str_has c a = false -> split_first c (a +:+ String c b) = Some (a, b).
Proof.
  induction a as [|c' a IH]; simpl; intros Ha.
  - by rewrite Ascii.eqb_refl.
  - apply orb_false_iff in Ha as [Hc Ha]. rewrite ?string_app_cons. simpl.
    by rewrite Hc, IH.
Qed.

(** ** Splitting and stripping *)

(** The pieces of [s.split(c)]: the text before the first [c], and the
    pieces after it. *)
Fixpoint py_split_aux (c : ascii) (s : string) : string * list string :=
  match s with
  | EmptyString => ("", [])
  | String c' s' =>
      let '(w, ws) := py_split_aux c s' in
      if Ascii.eqb c' c then ("", w :: ws) else (String c' w, ws)
  end.

(** [s.split(c)] for a one-character separator [c]. *)
Definition py_split (c : ascii) (s : string) : list string :=
  let '(w, ws) := py_split_aux c s in w :: ws.

(** [c.join([w] + ws)]. *)
Fixpoint py_join (c : ascii) (w : string) (ws : list string) : string :=
  match ws with
  | [] => w
  | w' :: ws' => w +:+ String c (py_join c w' ws')
  end.

Lemma py_join_nonempty c w ws : w <> "" -> py_join c w ws <> "".
Proof.
  intros Hw. destruct ws as [|w' ws]; simpl; [done|]. intros E.
  apply (f_equal String.length) in E. rewrite string_length_app in E.
  simpl in E. lia.
Qed.

Lemma py_split_aux_app c w s :
  str_has c w = false ->
  py_split_aux c (w +:+ s) =
  let '(x, xs) := py_split_aux c s in (w +:+ x, xs).
Proof.
  induction w as [|c' w IH]; intros Hw; simpl.
  - rewrite string_app_nil_l. destruct (py_split_aux c s). by rewrite string_app_nil_l.
  - cbn [str_has] in Hw. apply orb_false_iff in Hw as [Hc Hw].
    rewrite ?string_app_cons. simpl.
    rewrite IH by done. destruct (py_split_aux c s). by rewrite Hc.
Qed.

(** Splitting a joined list gives the list back. *)
Lemma py_split_join c w ws :
  Forall (fun x => str_has c x = false) (w :: ws) ->
  py_split c (py_join c w ws) = w :: ws.
Proof.
  unfold py_split. revert w; induction ws as [|w' ws IH]; intros w Hall;
    apply Forall_cons in Hall as [Hw Hall]; simpl.
  - rewrite <- (string_app_nil_r w) at 1. rewrite py_split_aux_app by done.
    simpl. by rewrite string_app_nil_r.
  - rewrite py_split_aux_app by done. simpl.
    specialize (IH w' Hall). destruct (py_split_aux c (py_join c w' ws)).
    rewrite Ascii.eqb_refl. injection IH as -> ->. by rewrite string_app_nil_r.
Qed.

(** Text made of lines each ended by [c]: ["".join(l + c for l in ls)]. *)
Fixpoint py_lines (c : ascii) (ls : list string) : string :=
  match ls with
  | [] => ""
  | l :: ls' => l +:+ String c (py_lines c ls')
  end.

(** Splitting such text gives its lines and a last empty piece. *)
Lemma py_split_lines c ls :
  Forall (fun l => str_has c l = false) ls ->
  py_split c (py_lines c ls) = (ls ++ [""])%list.
Proof.
  unfold py_split. intros Hall.
  assert (Haux : py_split_aux c (py_lines c ls) =
                 match (ls ++ [""])%list with x :: xs => (x, xs) | [] => ("", []) end).
  { induction Hall as [|l ls Hl Hall IH]; [done|]. simpl.
    rewrite py_split_aux_app by done. simpl. rewrite IH, Ascii.eqb_refl.
    destruct ls; simpl; by rewrite string_app_nil_r. }
  rewrite Haux. by destruct ls.
Qed.

(** [str.isspace] on one ASCII character: tab, line feed, vertical tab,
    form feed, carriage return, the four separators [\x1c]-[\x1f] and
    space. *)
Definition is_space (c : ascii) : bool :=
  let n := nat_of_ascii c in
  (Nat.leb 9 n && Nat.leb n 13) || (Nat.leb 28 n && Nat.leb n 32).

Fixpoint has_space (s : string) : bool :=
  match s with
  | EmptyString => false
  | String c s' => is_space c || has_space s'
  end.

Fixpoint all_space (s : string) : bool :=
  match s with
  | EmptyString => true
  | String c s' => is_space c && all_space s'
  end.

(** [s.lstrip()]. *)
Fixpoint py_lstrip (s : string) : string :=
  match s with
  | EmptyString => EmptyString
  | String c s' => if is_space c then py_lstrip s' else s
  end.

(** [s.rstrip()]. *)
Fixpoint py_rstrip (s : string) : string :=
  match s with
  | EmptyString => EmptyString
  | String c s' =>
      let r := py_rstrip s' in
      if String.eqb r "" && is_space c then "" else String c r
  end.

(** [s.strip()]. *)
Definition py_strip (s : string) : string := py_rstrip (py_lstrip s).

Lemma py_rstrip_no_space s : has_space s = false -> py_rstrip s = s.
Proof.
  induction s as [|c s IH]; simpl; [done|].
  intros [Hc Hs]%orb_false_iff. rewrite IH, Hc by done. by rewrite andb_false_r.
Qed.

Lemma py_strip_no_space s : has_space s = false -> py_strip s = s.
Proof.
  intros Hs. unfold py_strip. rewrite <- (py_rstrip_no_space s Hs) at 2.
  f_equal. destruct s as [|c s]; simpl in *; [done|].
  apply orb_false_iff in Hs as [-> _]. done.
Qed.

Lemma py_rstrip_blank b : all_space b = true -> py_rstrip b = "".
Proof.
  induction b as [|c b IH]; simpl; [done|].
  intros [Hc Hb]%andb_true_iff. by rewrite IH, Hc.
Qed.

Lemma py_lstrip_blank b : all_space b = true -> py_lstrip b = "".
Proof.
  induction b as [|c b IH]; simpl; [done|].
  intros [Hc Hb]%andb_true_iff. rewrite Hc. by apply IH.
Qed.

(** [(s + pad).strip() == s] for a word [s] and trailing blanks [pad]
    (a ["\r"] before the ["\n"] of a line, for instance). *)
Lemma py_strip_pad s pad :
  has_space s = false -> all_space pad = true -> py_strip (s +:+ pad) = s.
Proof.
  intros Hs Hp. unfold py_strip.
  assert (Hr : forall t, has_space t = false -> py_rstrip (t +:+ pad) = t).
  { clear Hs. induction t as [|c t IH]; intros Hs.
    - by rewrite string_app_nil_l, py_rstrip_blank.
    - cbn [has_space] in Hs. apply orb_false_iff in Hs as [Hc Hs].
      rewrite ?string_app_cons. simpl. rewrite IH, Hc by done.
      by rewrite andb_false_r. }
  destruct s as [|c s].
  - by rewrite string_app_nil_l, py_lstrip_blank.
  - cbn [has_space] in Hs. pose proof Hs as Hs'.
    apply orb_false_iff in Hs' as [Hc _].
    rewrite ?string_app_cons. simpl. rewrite Hc.
    rewrite <- string_app_cons. by apply Hr.
Qed.

(** The words of [s.split()]: the word being read and the words after it. *)
Fixpoint py_split_ws_aux (s : string) : string * list string :=
  match s with
  | EmptyString => ("", [])
  | String c s' =>
      let '(w, ws) := py_split_ws_aux s' in
      if is_space c then ("", if String.eqb w "" then ws else w :: ws)
      else (String c w, ws)
  end.

(** [s.split()]: the maximal runs of non-space characters. *)
Definition py_split_ws (s : string) : list string :=
  let '(w, ws) := py_split_ws_aux s in if String.eqb w "" then ws else w :: ws.

Lemma py_split_ws_word w c s :
  w <> "" -> has_space w = false -> is_space c = true ->
  py_split_ws (w +:+ String c s) = w :: py_split_ws s.
Proof.
  intros Hne Hw Hc. unfold py_split_ws.
  assert (Haux : forall w, has_space w = false ->
            py_split_ws_aux (w +:+ String c s) = (w, py_split_ws s)).
  { clear Hne Hw. induction w0 as [|c' w0 IH]; intros Hw; simpl.
    - rewrite Hc. unfold py_split_ws. by destruct (py_split_ws_aux s).
    - apply orb_false_iff in Hw as [Hc' Hw]. rewrite ?string_app_cons. simpl.
      rewrite IH, Hc' by done. done. }
  rewrite Haux by done. by destruct w.
Qed.

Lemma str_has_app c s t : str_has c (s +:+ t) = str_has c s || str_has c t.
Proof.
  induction s as [|c' s IH]; [done|]. rewrite string_app_cons. simpl.
  rewrite IH. apply orb_assoc.
Qed.

(** A string without blanks has no blank character [c] in it. *)
Lemma str_has_no_space c s :
  is_space c = true -> has_space s = false -> str_has c s = false.
Proof.
  intros Hc. induction s as [|c' s IH]; simpl; [done|].
  intros [Hc' Hs]%orb_false_iff. rewrite IH by done.
  destruct (Ascii.eqb_spec c' c) as [->|]; [congruence|done].
Qed.

(** [(" " + s).strip() == s] for a string without blanks. *)
Lemma py_strip_lead_space s :
  has_space s = false -> py_strip (String " "%char s) = s.
Proof. intros Hs. apply (py_strip_no_space s Hs). Qed.

Lemma py_split_ws_aux_blank b :
  all_space b = true -> py_split_ws_aux b = ("", []).
Proof.
  induction b as [|c b IH]; simpl; [done|].
  intros [Hc Hb]%andb_true_iff. rewrite IH, Hc by done. done.
Qed.

(** [(w + " " + b).split() == [w]] when [b] is blank. *)
Lemma py_split_ws_word_blank w b :
  w <> "" -> has_space w = false ->
  all_space b = true ->
  py_split_ws (w +:+ String " "%char b) = [w].
Proof.
  intros Hne Hw Hb. rewrite py_split_ws_word by done.
  unfold py_split_ws. by rewrite py_split_ws_aux_blank.
Qed.

(** [s.startswith(p)]. *)
Definition py_startswith (s p : string) : bool := String.prefix p s.

Lemma py_startswith_app p s : py_startswith (p +:+ s) p = true.
Proof.
  unfold py_startswith. induction p as [|c p IH]; simpl; [by destruct s|].
  rewrite ?string_app_cons. simpl. destruct (ascii_dec c c); [done|congruence].
Qed.

(** [p in s] for strings. *)
Fixpoint py_contains (p s : string) : bool :=
  String.prefix p s ||
  match s with EmptyString => false | String _ s' => py_contains p s' end.

Lemma py_contains_prefix p s : py_contains p (p +:+ s) = true.
Proof.
  pose proof (py_startswith_app p s) as Hp. unfold py_startswith in Hp.
  revert Hp. destruct (p +:+ s); simpl; by intros ->.
Qed.

(** ** [str.lower] *)

Definition ascii_lower (c : ascii) : ascii :=
  if Ascii.leb "A"%char c && Ascii.leb c "Z"%char
  then ascii_of_nat (nat_of_ascii c + 32) else c.

(** [s.lower()] on ASCII text. *)
Fixpoint py_lower (s : string) : string :=
  match s with
  | EmptyString => EmptyString
  | String c s' => String (ascii_lower c) (py_lower s')
  end.

(** ** Dictionaries *)

(** A Python [dict] as the list of its items in insertion order. *)
Definition py_dict (K V : Type) : Type := list (K * V).

(** [d[k] = v]: an existing key keeps its position and takes the new value;
    a new key goes last. *)
Fixpoint py_dict_set {K V} `{EqDecision K} (d : py_dict K V) (k : K) (v : V)
    : py_dict K V :=
  match d with
  | [] => [(k, v)]
  | (k', v') :: d' =>
      if decide (k = k') then (k', v) :: d' else (k', v') :: py_dict_set d' k v
  end.

Lemma py_dict_set_new {K V} `{EqDecision K} (d : py_dict K V) k v :
  k ∉ d.*1 -> py_dict_set d k v = (d ++ [(k, v)])%list.
Proof.
  induction d as [|[k' v'] d IH]; intros Hk; simpl; [done|].
  rewrite decide_False by set_solver. rewrite IH by set_solver. done.
Qed.

Lemma py_dict_set_keys {K V} `{EqDecision K} (d : py_dict K V) k v :
  (py_dict_set d k v).*1 = if decide (k ∈ d.*1) then d.*1 else (d.*1 ++ [k])%list.
Proof.
  induction d as [|[k' v'] d IH]; simpl; [done|].
  destruct (decide (k = k')) as [->|Hne].
  - rewrite decide_True by set_solver. done.
  - change (((k', v') :: py_dict_set d k v).*1) with (k' :: (py_dict_set d k v).*1).
    change (((k', v') :: d).*1) with (k' :: d.*1).
    rewrite IH. destruct (decide (k ∈ d.*1)).
    + rewrite decide_True by set_solver. done.
    + rewrite decide_False by set_solver. done.
Qed.

(** [d.get(k, default)]: the value of the first item with key [k]. *)
Definition py_dict_get {K V} `{EqDecision K} (d : py_dict K V) (k : K) (default : V) : V :=
  match list_find (fun kv => kv.1 = k) d with
  | Some (_, (_, v)) => v
  | None => default
  end.

(** ** Formatting for [print] *)

(** A line break inside a printed string, [\n]. *)
Definition nl : string := String "010"%char EmptyString.

(** [str(b)] of a [bool]. *)
Definition py_str_bool (b : bool) : string := if b then "True" else "False".

(** [sep.join(ws)] with a separator of any length. *)
Definition py_join_str (sep : string) (ws : list string) : string :=
  match ws with
  | [] => EmptyString
  | w :: ws' => foldl (fun acc x => acc +:+ sep +:+ x) w ws'
  end.

(** [n / d] rounded to an integer, a tie to the even integer, for [d > 0]. *)
Definition Z_div_round_even (n d : Z) : Z :=
  let q0 := (n / d)%Z in
  let r := (n mod d)%Z in
  if (d <? 2 * r)%Z then (q0 + 1)%Z
  else if ((2 * r =? d)%Z && Z.odd q0)%bool then (q0 + 1)%Z else q0.

(** [f"{n / d:.2f}"] for [n >= 0] and a power of two [d > 0], where the
    quotient is exact in binary: rounded to two decimals, a tie to the even
    last digit, as Python's correctly rounded formatting does. *)
Definition py_format_2f_frac (n d : Z) : string :=
  let q := Z_div_round_even (n * 100)%Z d in
  py_str_int (q / 100)%Z +:+ "." +:+ py_format_0d 2 (q mod 100)%Z.

(** ** Floats *)

(** A Python [float] is an IEEE 754 binary64 number, Rocq's primitive
    [float].  [float(z)] rounds the integer to the nearest double. *)
Definition py_float_of_int (z : Z) : float :=
  FloatOps.SF2Prim (SpecFloat.binary_normalize FloatOps.prec FloatOps.emax z 0 false).

(** [a / b] on integers: [ZeroDivisionError] for [b = 0], else the
    quotient of the two doubles, correctly rounded.  CPython rounds the
    exact quotient once; both integers below [2^53] in absolute value
    convert exactly, and then the two agree. *)
Definition py_int_truediv (a b : Z) : pyres float :=
  if (b =? 0)%Z then PErr ZeroDivisionError
  else POk (PrimFloat.div (py_float_of_int a) (py_float_of_int b)).

(** [f"{x:.{p}f}"] for [p > 0]: the exact binary value of [x], which is
    [m * 2^e], rounded to [p] decimals with ties to even (CPython formats
    floats correctly rounded), its sign kept, also on a negative zero. *)
Definition py_format_f (p : nat) (x : float) : string :=
  let scale := (10 ^ Z.of_nat p)%Z in
  let fixed (neg : bool) (q : Z) :=
    (if neg then "-" else "") +:+ py_str_int (q / scale)%Z +:+ "."
    +:+ py_format_0d p (q mod scale)%Z in
  match FloatOps.Prim2SF x with
  | SpecFloat.S754_zero neg => fixed neg 0
  | SpecFloat.S754_finite neg m e =>
      fixed neg (if (0 <=? e)%Z then (Z.pos m * 2 ^ e * scale)%Z
                 else Z_div_round_even (Z.pos m * scale)%Z (2 ^ (- e))%Z)
  | SpecFloat.S754_infinity neg => if neg then "-inf" else "inf"
  | SpecFloat.S754_nan => "nan"
  end.
