(* ===== verification/Partition.v ===== *)
(** * Partition: the page ranges of a split (src/pdf_splitter.py)

    [PDFSplitter.validate_split_parameters], [PDFSplitter.calculate_split_info]
    and [PDFSplitter._get_page_ranges], with [self.total_pages] passed as an
    argument.  The abstract specification is [plan_from]: the page-range plan
    of spec section 3 (contiguous, from page 1 to the last page, every part
    but the last of exactly [pages_per_split] pages), as an inductive
    predicate.  The refinement theorem says that for a positive parameter the
    code computes a plan, and that the plan is unique, so the code computes
    exactly it. *)

From S2P Require Import Prelude PyLib.

Local Open Scope Z_scope.

Module Partition.

(** ** The code *)

(** [validate_split_parameters(self, pages_per_split)]. *)
Definition validate_split_parameters (total_pages : nat) (pages_per_split : Z)
    : bool * string :=
  if pages_per_split <=? 0 then
    (false, "Pages per split must be greater than 0"%string)
  else if Z.of_nat total_pages <=? pages_per_split then
    (false, ("Pages per split (" +:+ py_str_int pages_per_split
             +:+ ") should be less than total pages ("
             +:+ py_str_nat total_pages +:+ ")")%string)
  else (true, ""%string).

(** [_get_page_ranges(self, pages_per_split)]: one range per start of
    [range(0, self.total_pages, pages_per_split)], 1-indexed, inclusive. *)
Definition _get_page_ranges (total_pages : nat) (pages_per_split : Z)
    : pyres (list (Z * Z)) :=
  (starts <- py_range 0 (Z.of_nat total_pages) pages_per_split ;;
   POk (map (fun start =>
               let end_ := Z.min (start + pages_per_split - 1)
                                 (Z.of_nat total_pages - 1) in
               (start + 1, end_ + 1)) starts))%py.

(** The dictionary returned by [calculate_split_info]. *)
Record split_info := mk_split_info {
  si_total_pages : nat;
  si_pages_per_split : Z;
  si_num_splits : Z;
  si_last_split_pages : Z;
  si_ranges : list (Z * Z)
}.

(** [calculate_split_info(self, pages_per_split)]. *)
Definition calculate_split_info (total_pages : nat) (pages_per_split : Z)
    : pyres split_info :=
  (num_splits <- py_floordiv (Z.of_nat total_pages + pages_per_split - 1)
                             pages_per_split ;;
   last0 <- py_mod (Z.of_nat total_pages) pages_per_split ;;
   let last_split_pages := if last0 =? 0 then pages_per_split else last0 in
   ranges <- _get_page_ranges total_pages pages_per_split ;;
   POk (mk_split_info total_pages pages_per_split num_splits
                      last_split_pages ranges))%py.

(** ** The specification: a page-range plan *)

(** The pages of an inclusive range [(s, e)]. *)
Definition range_pages (r : Z * Z) : list Z :=
  span_from r.1 (Z.to_nat (r.2 - r.1 + 1)).

(** [plan_from cap total s rs]: [rs] splits the pages [s..total] into
    consecutive ranges of [cap] pages, the last one of 1 to [cap] pages. *)
Inductive plan_from (cap total : Z) : Z -> list (Z * Z) -> Prop :=
  | plan_last s :
      s <= total <= s + cap - 1 -> plan_from cap total s [(s, total)]
  | plan_full s rs :
      s + cap - 1 < total -> plan_from cap total (s + cap) rs ->
      plan_from cap total s ((s, s + cap - 1) :: rs).

(** The plan of a document: from page 1. *)
Definition partition_plan (total : nat) (cap : Z) (rs : list (Z * Z)) : Prop :=
  plan_from cap (Z.of_nat total) 1 rs.

(** ** Lemmas on plans *)

Section Plans.
Context (cap total : Z) (Hcap : 0 < cap).

Lemma plan_from_pages s rs :
  plan_from cap total s rs ->
  flat_map range_pages rs = span_from s (Z.to_nat (total - s + 1)).
Proof using Hcap.
  induction 1 as [s Hs | s rs Hs Hp IH]; simpl.
  - by rewrite app_nil_r.
  - rewrite IH. unfold range_pages. simpl.
    replace (Z.to_nat (total - s + 1))
      with (Z.to_nat (s + cap - 1 - s + 1) + Z.to_nat (total - (s + cap) + 1))%nat
      by lia.
    rewrite span_from_add. do 2 f_equal. lia.
Qed.

Lemma plan_from_length s rs :
  plan_from cap total s rs ->
  Z.of_nat (length rs) = (total - s + cap) / cap.
Proof using Hcap.
  induction 1 as [s Hs | s rs Hs Hp IH]; simpl length.
  - change (Z.of_nat 1) with 1. apply Z.div_unique with (r := total - s); lia.
  - rewrite Nat2Z.inj_succ, IH.
    replace (total - s + cap) with ((total - (s + cap) + cap) + 1 * cap) by lia.
    rewrite Z.div_add by lia. lia.
Qed.

Lemma plan_from_unique s rs1 rs2 :
  plan_from cap total s rs1 -> plan_from cap total s rs2 -> rs1 = rs2.
Proof using Hcap.
  intros H1. revert rs2.
  induction H1 as [s Hs | s rs Hs Hp IH]; intros rs2 H2;
    inversion H2; subst; try lia; f_equal; auto.
Qed.

(** Every range of a plan has [cap] pages, except the last, which has
    between 1 and [cap]. *)
Lemma plan_from_sizes s rs :
  plan_from cap total s rs ->
  Forall (fun r => r.2 - r.1 + 1 = cap) (removelast rs) /\
  (forall r, last rs = Some r -> 1 <= r.2 - r.1 + 1 <= cap).
Proof using Hcap.
  induction 1 as [s Hs | s rs Hs Hp [IHf IHl]]; simpl.
  - split; [constructor|]. intros r [= <-]. simpl. lia.
  - destruct rs as [|r' rs']; [inversion Hp|].
    split; [constructor; [simpl; lia | exact IHf]|].
    exact IHl.
Qed.
(** Every range of a plan from page [s >= 1] lies within [1..total]. *)
Lemma plan_from_bounds s rs :
  plan_from cap total s rs -> 1 <= s ->
  Forall (fun r => 1 <= r.1 <= r.2 /\ r.2 <= total) rs.
Proof using Hcap.
  induction 1 as [s Hs | s rs Hs Hp IH]; intros H1.
  - constructor; [simpl; lia | constructor].
  - constructor; [simpl; lia | apply IH; lia].
Qed.
End Plans.

(** ** The code computes the plan *)

(** The [k]-th range computed by [_get_page_ranges]. *)
Definition kth_range (total : nat) (cap : Z) (start : Z) : Z * Z :=
  (start + 1, Z.min (start + cap - 1) (Z.of_nat total - 1) + 1).

Lemma get_page_ranges_pos total cap :
  0 < cap ->
  _get_page_ranges total cap =
  POk (map (fun k : nat => kth_range total cap (Z.of_nat k * cap))
           (seq 0 (Z.to_nat (py_range_len 0 (Z.of_nat total) cap)))).
Proof.
  intros Hcap. unfold _get_page_ranges. rewrite py_range_pos by lia.
  simpl. f_equal. rewrite map_map. apply map_ext. intros k. reflexivity.
Qed.

Lemma map_kth_range_plan total cap n k0 :
  0 < cap -> (0 < n)%nat ->
  Z.of_nat (k0 + n - 1) * cap < Z.of_nat total <= Z.of_nat (k0 + n) * cap ->
  plan_from cap (Z.of_nat total) (Z.of_nat k0 * cap + 1)
    (map (fun k : nat => kth_range total cap (Z.of_nat k * cap)) (seq k0 n)).
Proof.
  intros Hcap. revert k0. induction n as [|n IH]; intros k0 Hn Hb; [lia|].
  destruct n as [|n].
  - simpl. unfold kth_range. rewrite Z.min_r by lia.
    replace (Z.of_nat total - 1 + 1) with (Z.of_nat total) by lia.
    constructor. nia.
  - simpl seq. rewrite map_cons. unfold kth_range at 1. rewrite Z.min_l by nia.
    replace (Z.of_nat k0 * cap + cap - 1 + 1)
      with (Z.of_nat k0 * cap + 1 + cap - 1) by lia.
    constructor; [nia|].
    replace (Z.of_nat k0 * cap + 1 + cap) with (Z.of_nat (S k0) * cap + 1)
      by lia.
    apply IH; lia.
Qed.

Lemma get_page_ranges_is_plan total cap :
  0 < cap -> (0 < total)%nat ->
  exists rs, _get_page_ranges total cap = POk rs /\ partition_plan total cap rs.
Proof.
  intros Hcap Htot. rewrite get_page_ranges_pos by done. eexists; split; [done|].
  pose proof (py_range_len_bounds 0 (Z.of_nat total) cap Hcap ltac:(lia))
    as (Hm & Hlo & Hhi).
  unfold partition_plan. replace 1 with (Z.of_nat 0 * cap + 1) by lia.
  apply map_kth_range_plan; lia.
Qed.

Lemma get_page_ranges_empty_doc cap :
  0 < cap -> _get_page_ranges 0 cap = POk [].
Proof.
  intros Hcap. rewrite get_page_ranges_pos by done.
  by rewrite py_range_len_empty by lia.
Qed.

(** The number of ranges is the number of parts [ceil(total / cap)]. *)
Lemma get_page_ranges_length total cap rs :
  0 < cap -> _get_page_ranges total cap = POk rs ->
  Z.of_nat (length rs) = (Z.of_nat total + cap - 1) / cap.
Proof.
  intros Hcap Hr. destruct total as [|t].
  - rewrite get_page_ranges_empty_doc in Hr by done. injection Hr as <-.
    simpl. rewrite Z.div_small; lia.
  - destruct (get_page_ranges_is_plan (S t) cap) as (rs' & Hr' & Hp); [lia..|].
    rewrite Hr in Hr'. injection Hr' as <-.
    rewrite (plan_from_length _ _ Hcap _ _ Hp). f_equal. lia.
Qed.

(** The size of the last range is [total mod cap], or [cap] when [cap]
    divides [total]. *)
Lemma get_page_ranges_last total cap rs :
  0 < cap -> (0 < total)%nat -> _get_page_ranges total cap = POk rs ->
  exists r, last rs = Some r /\
    r.2 - r.1 + 1 = (if Z.of_nat total mod cap =? 0 then cap
                     else Z.of_nat total mod cap).
Proof.
  intros Hcap Htot Hr. rewrite get_page_ranges_pos in Hr by done.
  injection Hr as <-.
  pose proof (py_range_len_bounds 0 (Z.of_nat total) cap Hcap ltac:(lia))
    as (Hm & Hlo & Hhi).
  set (m := py_range_len 0 (Z.of_nat total) cap) in *.
  replace (Z.to_nat m) with (S (Z.to_nat (m - 1))) by lia.
  rewrite seq_S, map_app. simpl. rewrite last_snoc.
  eexists; split; [done|]. unfold kth_range. simpl.
  rewrite Z2Nat.id by lia. rewrite Z.min_r by lia.
  set (d := Z.of_nat total - (m - 1) * cap).
  replace (Z.of_nat total) with (d + (m - 1) * cap) by lia.
  rewrite Z.mod_add by lia.
  destruct (Z.eq_dec d cap) as [->|Hd].
  - rewrite Z.mod_same by lia. simpl. lia.
  - rewrite Z.mod_small by lia.
    destruct (Z.eqb_spec d 0); lia.
Qed.

(** ** Properties *)

(** C4 (refinement). For a positive [pages_per_split] and a nonempty
    document, [_get_page_ranges] returns exactly the page-range plans of the
    spec: it returns [rs] if and only if [rs] is a plan (contiguous ranges
    from page 1 to the last page, all of [pages_per_split] pages but the
    last, which has 1 to [pages_per_split]). *)
Theorem get_page_ranges_plan_iff total cap rs :
  0 < cap -> (0 < total)%nat ->
  _get_page_ranges total cap = POk rs <-> partition_plan total cap rs.
Proof.
  intros Hcap Htot.
  destruct (get_page_ranges_is_plan total cap Hcap Htot) as (rs' & Hr & Hp).
  rewrite Hr. split.
  - by intros [= <-].
  - intros Hp'. f_equal. exact (plan_from_unique _ _ Hcap _ _ _ Hp Hp').
Qed.

Example get_page_ranges_plan_iff_witness :
  (0 < 8 /\ (0 < 20)%nat) /\
  (_get_page_ranges 20 8 = POk [(1, 8); (9, 16); (17, 20)] <->
   partition_plan 20 8 [(1, 8); (9, 16); (17, 20)]).
Proof. split; [split; lia | apply get_page_ranges_plan_iff; lia]. Defined.

(** For a positive [pages_per_split], the ranges of
    [_get_page_ranges], read as page lists in order, are exactly the pages
    [1, 2, ..., total_pages]: every page is in one range, once, in order. *)
Theorem get_page_ranges_cover total cap :
  0 < cap ->
  exists rs, _get_page_ranges total cap = POk rs /\
             flat_map range_pages rs = span_from 1 total.
Proof.
  intros Hcap. destruct total as [|t].
  - exists []. split; [by apply get_page_ranges_empty_doc | done].
  - destruct (get_page_ranges_is_plan (S t) cap) as (rs & Hr & Hp); [lia..|].
    exists rs. split; [done|].
    rewrite (plan_from_pages _ _ Hcap _ _ Hp). f_equal. lia.
Qed.

Example get_page_ranges_cover_witness :
  0 < 3 /\ exists rs, _get_page_ranges 9 3 = POk rs /\
                      flat_map range_pages rs = span_from 1 9.
Proof. split; [lia | apply get_page_ranges_cover; lia]. Defined.

(** [calculate_split_info] for a positive [pages_per_split]: the division
    and the remainder cannot raise. *)
Lemma calculate_split_info_ok total cap rs :
  0 < cap -> _get_page_ranges total cap = POk rs ->
  calculate_split_info total cap =
  POk (mk_split_info total cap ((Z.of_nat total + cap - 1) / cap)
         (if Z.of_nat total mod cap =? 0 then cap else Z.of_nat total mod cap) rs).
Proof.
  intros Hcap Hr. unfold calculate_split_info, py_floordiv, py_mod.
  destruct (Z.eqb_spec cap 0); [lia|]. simpl. by rewrite Hr.
Qed.

(** [calculate_split_info] is consistent with its own
    ranges: for a positive [pages_per_split] and a nonempty document,
    ['num_splits'] is the number of ranges and ['last_split_pages'] the size
    of the last one. *)
Theorem calculate_split_info_consistent total cap :
  0 < cap -> (0 < total)%nat ->
  exists si, calculate_split_info total cap = POk si /\
    si_num_splits si = Z.of_nat (length (si_ranges si)) /\
    exists r, last (si_ranges si) = Some r /\
              r.2 - r.1 + 1 = si_last_split_pages si.
Proof.
  intros Hcap Htot.
  destruct (get_page_ranges_is_plan total cap Hcap Htot) as (rs & Hr & _).
  rewrite (calculate_split_info_ok total cap rs Hcap Hr).
  eexists; split; [done|]. simpl. split.
  - by rewrite (get_page_ranges_length total cap rs Hcap Hr).
  - exact (get_page_ranges_last total cap rs Hcap Htot Hr).
Qed.

Example calculate_split_info_consistent_witness :
  (0 < 8 /\ (0 < 20)%nat) /\
  exists si, calculate_split_info 20 8 = POk si /\
    si_num_splits si = Z.of_nat (length (si_ranges si)) /\
    exists r, last (si_ranges si) = Some r /\
              r.2 - r.1 + 1 = si_last_split_pages si.
Proof. split; [split; lia | apply calculate_split_info_consistent; lia]. Defined.

(** [validate_split_parameters] accepts [pages_per_split]
    exactly when [0 < pages_per_split < total_pages], and then with an empty
    message. *)
Theorem validate_split_parameters_iff total cap :
  validate_split_parameters total cap = (true, ""%string) <->
  0 < cap < Z.of_nat total.
Proof.
  unfold validate_split_parameters.
  destruct (Z.leb_spec cap 0); [split; [discriminate | lia]|].
  destruct (Z.leb_spec (Z.of_nat total) cap); [split; [discriminate | lia]|].
  split; [lia | done].
Qed.

(** A parameter accepted by [validate_split_parameters] gives
    at least two parts: the tool never "splits" into a single file. *)
Theorem validated_split_has_two_parts total cap :
  (validate_split_parameters total cap).1 = true ->
  exists rs, _get_page_ranges total cap = POk rs /\ (2 <= length rs)%nat.
Proof.
  intros Hv.
  assert (Hc : 0 < cap < Z.of_nat total).
  { apply validate_split_parameters_iff.
    unfold validate_split_parameters in *.
    destruct (Z.leb_spec cap 0), (Z.leb_spec (Z.of_nat total) cap);
      simpl in *; congruence. }
  destruct (get_page_ranges_is_plan total cap) as (rs & Hr & Hp); [lia..|].
  exists rs. split; [done|].
  pose proof (get_page_ranges_length total cap rs ltac:(lia) Hr) as Hl.
  assert (2 <= (Z.of_nat total + cap - 1) / cap).
  { apply Z.div_le_lower_bound; lia. }
  lia.
Qed.

Example validated_split_has_two_parts_witness :
  (validate_split_parameters 9 3).1 = true /\
  exists rs, _get_page_ranges 9 3 = POk rs /\ (2 <= length rs)%nat.
Proof. split; [reflexivity | apply validated_split_has_two_parts; reflexivity]. Defined.

(** C40 (error). Without the validation, [pages_per_split = 0] makes
    [range] raise [ValueError] in [_get_page_ranges] and the floor division
    raise [ZeroDivisionError] in [calculate_split_info]; a negative value
    raises nothing and gives no range at all. *)
Theorem get_page_ranges_bad_parameter total cap :
  _get_page_ranges total 0 = PErr ValueError /\
  calculate_split_info total 0 = PErr ZeroDivisionError /\
  (cap < 0 -> _get_page_ranges total cap = POk []).
Proof.
  split; [done|]. split; [done|]. intros Hneg.
  unfold _get_page_ranges, py_range, py_range_len.
  destruct (Z.eqb_spec cap 0); [lia|].
  destruct (Z.ltb_spec 0 cap); [lia|].
  destruct (Z.leb_spec 0 (Z.of_nat total)); [done|lia].
Qed.

Example get_page_ranges_bad_parameter_witness :
  -2 < 0 /\ _get_page_ranges 20 (-2) = POk [].
Proof. split; [lia | apply (get_page_ranges_bad_parameter 20 (-2)); lia]. Defined.

(** The scenarios of spec section 8. *)
Example get_page_ranges_20_8 :
  _get_page_ranges 20 8 = POk [(1, 8); (9, 16); (17, 20)].
Proof. reflexivity. Qed.

Example get_page_ranges_9_3 :
  _get_page_ranges 9 3 = POk [(1, 3); (4, 6); (7, 9)].
Proof. reflexivity. Qed.

End Partition.
