(* ===== verification/Storage.v ===== *)
(** * Storage: paths and the filesystem the program reads and writes

    A path is a parent directory and a final component, as pathlib's
    [output_dir / filename] builds them; [path_stem] and [path_suffix] are
    pathlib's [PurePath.stem] and [PurePath.suffix] (the last ['.'] of the
    name, when it is neither the first nor the last character).

    The filesystem is a finite map from paths to files (a PDF is its list of
    pages) with the set of other entries ([exists()] is also true of a
    directory) and the set of paths the process may not change: there
    [open(p, 'wb')] and [unlink] raise [PermissionError]; an [OSError] carries
    its errno and the text CPython prints for it.
    [FiniteStore] is the interface the name resolver needs from
    storage: an existence test whose true answers lie in
    a finite list; the filesystem is one instance. *)

From S2P Require Import Prelude PyLib.

Local Open Scope string_scope.

(** ** Paths *)

Record path := mk_path { path_parent : string; path_name : string }.

#[export] Instance path_eq_dec : EqDecision path.
Proof. solve_decision. Defined.

#[export] Instance path_countable : Countable path.
Proof.
  apply (inj_countable' (fun p => (path_parent p, path_name p))
                        (fun '(d, n) => mk_path d n)).
  by intros [].
Defined.

(** Index of the last ['.'] of a string, scanning from position [i]. *)
Fixpoint rfind_dot (s : string) (i : nat) (acc : option nat) : option nat :=
  match s with
  | EmptyString => acc
  | String c s' =>
      rfind_dot s' (S i) (if Ascii.eqb c "."%char then Some i else acc)
  end.

(** [i] when the name has a suffix starting at [i]. *)
Definition suffix_start (name : string) : option nat :=
  match rfind_dot name 0 None with
  | Some i => if (0 <? i)%nat && (i <? String.length name - 1)%nat
              then Some i else None
  | None => None
  end.

(** [PurePath.suffix]. *)
Definition path_suffix (p : path) : string :=
  match suffix_start (path_name p) with
  | Some i => String.substring i (String.length (path_name p) - i) (path_name p)
  | None => ""
  end.

(** [PurePath.stem]. *)
Definition path_stem (p : path) : string :=
  match suffix_start (path_name p) with
  | Some i => String.substring 0 i (path_name p)
  | None => path_name p
  end.

(** [PurePath.with_name] applied to the parent: [p.parent / name]. *)
Definition sibling (p : path) (name : string) : path :=
  mk_path (path_parent p) name.

(** [str(p)] ([/] as the separator; a [.] or empty parent is dropped, as
    pathlib does). *)
Definition path_str (p : path) : string :=
  if String.eqb (path_parent p) "" || String.eqb (path_parent p) "."
  then path_name p
  else path_parent p +:+ "/" +:+ path_name p.

(** [str] tells apart two paths of the same directory. *)
Lemma path_str_inj_parent p q :
  path_parent p = path_parent q -> path_str p = path_str q -> p = q.
Proof.
  destruct p as [d n], q as [d' n']; simpl. intros <-. unfold path_str. simpl.
  destruct (String.eqb d "" || String.eqb d "."); [by intros ->|].
  intros Heq. apply string_app_inv_l, string_app_inv_l in Heq. by subst.
Qed.

(** [pathlib.Path(s).name] of the text of a path: its last [/]-separated
    part (the texts here never end with [/]). *)
Definition str_path_name (s : string) : string :=
  default "" (last (py_split "/"%char s)).

(** ** Lemmas on names *)

Lemma rfind_dot_app s t i acc :
  rfind_dot (s +:+ t) i acc =
  rfind_dot t (i + String.length s) (rfind_dot s i acc).
Proof.
  revert i acc; induction s as [|c s IH]; intros i acc; simpl.
  - by rewrite Nat.add_0_r.
  - rewrite IH. f_equal. lia.
Qed.

Lemma rfind_dot_no_dot s i acc :
  str_has "."%char s = false -> rfind_dot s i acc = acc.
Proof.
  revert i acc; induction s as [|c s IH]; intros i acc; simpl; [done|].
  intros [Hc Hs]%orb_false_iff. rewrite Hc. by apply IH.
Qed.

Lemma substring_app_l s t : String.substring 0 (String.length s) (s +:+ t) = s.
Proof.
  induction s as [|c s IH]; simpl.
  - by destruct t.
  - by rewrite IH.
Qed.

Lemma substring_app_r s t :
  String.substring (String.length s) (String.length t) (s +:+ t) = t.
Proof.
  induction s as [|c s IH]; simpl; [|done].
  induction t as [|c t IH]; simpl; [done|]. by f_equal.
Qed.

Lemma substring_split s i :
  (i <= String.length s)%nat ->
  String.substring 0 i s +:+ String.substring i (String.length s - i) s = s.
Proof.
  revert i; induction s as [|c s IH]; intros [|i] Hi; simpl in *; try done.
  - rewrite string_app_nil_l. f_equal.
    rewrite <- (string_app_nil_r s) at 2. apply substring_app_l.
  - rewrite string_app_cons. f_equal. apply IH. lia.
Qed.

(** pathlib: [p.name == p.stem + p.suffix]. *)
Lemma path_name_stem_suffix p : path_name p = path_stem p +:+ path_suffix p.
Proof.
  unfold path_stem, path_suffix, suffix_start.
  destruct (rfind_dot (path_name p) 0 None) as [i|]; [|by rewrite string_app_nil_r].
  destruct (Nat.ltb_spec 0 i), (Nat.ltb_spec i (String.length (path_name p) - 1));
    simpl; try by rewrite string_app_nil_r.
  symmetry. apply substring_split. lia.
Qed.

(** A name [s ++ ext], with [s] nonempty and [ext] a ['.'] followed by
    a nonempty dot-free extension, has stem [s] and suffix [ext]. *)
Lemma stem_suffix_app d s e :
  s <> "" -> str_has "."%char e = false -> e <> "" ->
  path_stem (mk_path d (s +:+ String "."%char e)) = s /\
  path_suffix (mk_path d (s +:+ String "."%char e)) = String "."%char e.
Proof.
  intros Hs He Hne.
  assert (Hf : suffix_start (s +:+ String "."%char e) = Some (String.length s)).
  { unfold suffix_start. rewrite rfind_dot_app. simpl.
    rewrite rfind_dot_no_dot by done. rewrite string_length_app. simpl.
    destruct s; [done|]. destruct e; [done|]. simpl.
    replace (String.length s + S (S (String.length e)) - 0)%nat
      with (S (String.length s + S (String.length e)))%nat by lia.
    destruct (Nat.ltb_spec (S (String.length s))
               (S (String.length s + S (String.length e)))); [done|lia]. }
  unfold path_stem, path_suffix. simpl. rewrite Hf. split.
  - apply substring_app_l.
  - rewrite string_length_app.
    replace (String.length s + String.length (String "."%char e)
             - String.length s)%nat
      with (String.length (String "."%char e)) by lia.
    apply substring_app_r.
Qed.

(** ** The storage interface *)

(** What the name resolver needs from storage: a snapshot whose existing
    paths are finitely many. *)
Class FiniteStore (S : Type) := {
  st_exists : S -> path -> bool;
  st_entries : S -> list path;
  st_exists_entries : forall s p, st_exists s p = true -> p ∈ st_entries s
}.

(** ** The filesystem *)

Section Filesystem.
Context {Page : Type}.

(** A file: a PDF (its pages, and whether it is encrypted) or any other. *)
Inductive file :=
  | PdfFile (pages : list Page) (encrypted : bool)
  | OtherFile.

Record fs := mk_fs {
  fs_files : gmap path file;
  fs_other : gset path;
  fs_denied : gset path
}.

(** [Path.exists()]. *)
Definition fs_exists (s : fs) (p : path) : bool :=
  bool_decide (p ∈ dom (fs_files s)) || bool_decide (p ∈ fs_other s).

(** [Path.is_file()]. *)
Definition fs_is_file (s : fs) (p : path) : bool :=
  bool_decide (p ∈ dom (fs_files s)).

(** An [OSError] with its [errno] and the text CPython gives it,
    [[Errno n] strerror: 'path'] (for a path without quotes, whose [repr]
    is itself in single quotes). *)
Definition os_error (errno : Z) (strerror : string) (p : path) : PyExc :=
  OSError errno ("[Errno " +:+ py_str_int errno +:+ "] " +:+ strerror
                 +:+ ": '" +:+ path_str p +:+ "'").

(** What [open(p, 'wb')] raises: [PermissionError] (errno 13) on a denied
    path, [IsADirectoryError] (errno 21) on a directory. *)
Definition fs_open_wb_error (s : fs) (p : path) : option PyExc :=
  if bool_decide (p ∈ fs_denied s) then Some (os_error 13 "Permission denied" p)
  else if bool_decide (p ∈ fs_other s) then Some (os_error 21 "Is a directory" p)
  else None.

(** [open(p, 'wb')] then [writer.write(f)]: the file is created or
    truncated and then holds the new PDF; when [open] raises nothing
    changes. *)
Definition fs_write_pdf (s : fs) (p : path) (pages : list Page) : pyres fs :=
  match fs_open_wb_error s p with
  | Some e => PErr e
  | None => POk (mk_fs (<[p := PdfFile pages false]> (fs_files s))
                       (fs_other s) (fs_denied s))
  end.

(** [Path.unlink()] (on Linux): removes a file; a denied path raises
    [PermissionError], a directory [IsADirectoryError] and a missing file
    [FileNotFoundError] (errno 2). *)
Definition fs_unlink (s : fs) (p : path) : pyres fs :=
  match fs_open_wb_error s p with
  | Some e => PErr e
  | None =>
      if bool_decide (p ∈ dom (fs_files s))
      then POk (mk_fs (delete p (fs_files s)) (fs_other s) (fs_denied s))
      else PErr (os_error 2 "No such file or directory" p)
  end.

Lemma fs_open_wb_error_none s p :
  fs_open_wb_error s p = None <-> p ∉ fs_denied s /\ p ∉ fs_other s.
Proof. unfold fs_open_wb_error. repeat case_bool_decide; naive_solver. Qed.

Lemma fs_exists_entries s p :
  fs_exists s p = true -> p ∈ elements (dom (fs_files s) ∪ fs_other s).
Proof.
  unfold fs_exists. rewrite elem_of_elements, elem_of_union.
  intros [H|H]%orb_true_iff; apply bool_decide_eq_true in H; auto.
Qed.

Lemma fs_write_pdf_ok s p pages s' :
  fs_write_pdf s p pages = POk s' ->
  fs_files s' = <[p := PdfFile pages false]> (fs_files s) /\
  fs_other s' = fs_other s /\ fs_denied s' = fs_denied s.
Proof.
  unfold fs_write_pdf. case_match; [discriminate|]. by intros [= <-].
Qed.

Lemma fs_write_pdf_allowed s p pages :
  p ∉ fs_denied s -> p ∉ fs_other s ->
  fs_write_pdf s p pages =
  POk (mk_fs (<[p := PdfFile pages false]> (fs_files s))
             (fs_other s) (fs_denied s)).
Proof.
  intros Hd Ho. unfold fs_write_pdf.
  by rewrite (proj2 (fs_open_wb_error_none s p)).
Qed.

Lemma fs_write_pdf_blocked s p pages :
  p ∈ fs_denied s \/ p ∈ fs_other s ->
  exists e, fs_open_wb_error s p = Some e /\ fs_write_pdf s p pages = PErr e.
Proof.
  intros Hp. unfold fs_write_pdf.
  destruct (fs_open_wb_error s p) as [e|] eqn:E; [by exists e|].
  apply fs_open_wb_error_none in E. naive_solver.
Qed.

Lemma fs_unlink_ok s p s' :
  fs_unlink s p = POk s' ->
  (p ∉ fs_denied s) /\ (p ∉ fs_other s) /\
  s' = mk_fs (delete p (fs_files s)) (fs_other s) (fs_denied s).
Proof.
  unfold fs_unlink. destruct (fs_open_wb_error s p) eqn:E; [discriminate|].
  apply fs_open_wb_error_none in E as [Hd Ho].
  case_bool_decide; [|discriminate]. by intros [= <-].
Qed.

(** What an [unlink] inside [try ... except] leaves: the file is gone when
    it could be removed, nothing else changes. *)
Definition fs_unlinked (s : fs) (p : path) (s' : fs) : Prop :=
  fs_other s' = fs_other s /\ fs_denied s' = fs_denied s /\
  forall q, fs_files s' !! q =
    if bool_decide (q = p /\ p ∉ fs_denied s /\ p ∉ fs_other s) then None
    else fs_files s !! q.

Lemma fs_unlink_caught s p :
  fs_unlinked s p (match fs_unlink s p with POk s' => s' | PErr _ => s end).
Proof.
  unfold fs_unlink, fs_unlinked.
  destruct (fs_open_wb_error s p) eqn:E.
  { split_and!; [done|done|]. intros q. rewrite bool_decide_eq_false_2; [done|].
    intros (-> & Hd & Ho). by rewrite (proj2 (fs_open_wb_error_none s p)) in E. }
  apply fs_open_wb_error_none in E as [Hd Ho].
  destruct (bool_decide_reflect (p ∈ dom (fs_files s))) as [Hin|Hin]; simpl;
    split_and!; try done; intros q.
  - case_bool_decide as Hq.
    + destruct Hq as [-> _]. apply lookup_delete_eq.
    + apply lookup_delete_ne. naive_solver.
  - case_bool_decide as Hq; [|done].
      destruct Hq as [-> _]. by apply not_elem_of_dom.
Qed.

(** A sequence of PDF writes [(path, pages)], in order. *)
Definition write_all (files : gmap path file) (ws : list (path * list Page))
    : gmap path file :=
  foldl (fun m w => <[w.1 := PdfFile w.2 false]> m) files ws.

Lemma write_all_notin files ws p :
  p ∉ ws.*1 -> write_all files ws !! p = files !! p.
Proof.
  revert files; induction ws as [|[q c] ws IH]; intros files Hp; simpl; [done|].
  rewrite IH by set_solver. apply lookup_insert_ne. set_solver.
Qed.

Lemma write_all_in files ws p c :
  NoDup ws.*1 -> (p, c) ∈ ws -> write_all files ws !! p = Some (PdfFile c false).
Proof.
  revert files; induction ws as [|[q d] ws IH]; intros files Hnd Hin;
    [set_solver|].
  simpl in *. apply NoDup_cons in Hnd as [Hq Hnd].
  apply elem_of_cons in Hin as [[= -> ->]|Hin].
  - rewrite write_all_notin by done. apply lookup_insert_eq.
  - by apply IH.
Qed.

End Filesystem.

Arguments file : clear implicits.
Arguments fs : clear implicits.

#[export] Instance fs_store {Page} : FiniteStore (fs Page) := {
  st_exists := fs_exists;
  st_entries s := elements (dom (fs_files s) ∪ fs_other s);
  st_exists_entries := fs_exists_entries
}.
