(* ===== verification/Naming.v ===== *)
(** * Naming: output names and their conflicts (src/file_manager.py)

    Module [FileManager] models the class of the same name: its state
    ([input_file], [output_dir], [base_name]), [validate_input],
    [create_output_directory] (whose [mkdir] is a parameter),
    [cleanup_temp_files] (each failure caught, the loop goes on), each with
    the lines it prints, [get_file_size_mb] (a double), the names
    [<base>_part_NNN.pdf] of [generate_output_filenames], the ranges of
    [get_split_ranges] (the same computation as
    [PDFSplitter._get_page_ranges]) and the renaming loop of
    [handle_filename_conflicts].  The width of [NNN] is bounded: three
    digits exactly up to part 999, more from part 1000 on; every confirmed
    name keeps the directory, the number of its part and the suffix.

    The loop [while file_path.exists(): ...] probes [name], then
    [stem_1.suffix], [stem_2.suffix], ...  It is a [Fixpoint] with fuel
    [1 + (number of existing entries)]; the termination theorem shows this
    fuel never runs out on any storage, since the probed names are pairwise
    distinct and at most that many of them can exist, and that any larger
    fuel returns the same name.  The resolver is
    proved against the [FiniteStore] interface of [Storage]. *)

From S2P Require Import Prelude PyLib Partition Storage.
From Stdlib Require Import Floats.

Local Open Scope string_scope.

Module FileManager.

(** ** The code *)

(** The attributes of a [FileManager]. *)
Record FileManager := mk_file_manager {
  input_file : path;
  output_dir : string;
  base_name : string
}.

(** [FileManager.__init__(input_file, output_dir=None)]: an empty or
    missing [output_dir] means the directory of the input. *)
Definition init (input_file : path) (output_dir : option string) : FileManager :=
  mk_file_manager input_file
    (match output_dir with
     | Some d => if String.eqb d "" then path_parent input_file else d
     | None => path_parent input_file
     end)
    (path_stem input_file).

(** [validate_input(self)]: the input exists and is a regular file; a
    suffix other than [.pdf] only prints a warning.  With the lines it
    prints. *)
Definition validate_input {Page} (s : fs Page) (fm : FileManager) : bool * list string :=
  let p := path_str (input_file fm) in
  if negb (fs_exists s (input_file fm)) then
    (false, ["Error: Input file '" +:+ p +:+ "' does not exist."])
  else if negb (fs_is_file s (input_file fm)) then
    (false, ["Error: '" +:+ p +:+ "' is not a file."])
  else if negb (String.eqb (py_lower (path_suffix (input_file fm))) ".pdf") then
    (true, ["Warning: '" +:+ p +:+ "' may not be a PDF file."])
  else (true, []).

(** [except PermissionError]: the [OSError]s of errno [EPERM] and
    [EACCES]. *)
Definition is_permission_error (e : PyExc) : bool :=
  match e with OSError n _ => (n =? 1)%Z || (n =? 13)%Z | _ => false end.

(** [create_output_directory(self)]: [mkdir(parents=True, exist_ok=True)]
    on [output_dir]; the directory tree is not part of the file model, so
    [mkdir] is its outcome.  Every exception it raises gives [False], with
    a message of its own for [PermissionError]. *)
Definition create_output_directory `{ExcText} (mkdir : string -> pyres unit)
    (fm : FileManager) : bool * list string :=
  match mkdir (output_dir fm) with
  | POk _ => (true, [])
  | PErr e =>
      if is_permission_error e then
        (false, ["Error: Permission denied creating directory '" +:+ output_dir fm +:+ "'"])
      else (false, ["Error creating output directory: " +:+ py_str_exc e])
  end.

(** The body of the loop of [cleanup_temp_files]: a path that exists is
    unlinked; the [try/except] catches the failure and prints a warning.
    The filesystem after it, and the lines printed. *)
Definition cleanup_one `{ExcText} {Page} (s : fs Page) (file_path : path)
    : fs Page * list string :=
  if fs_exists s file_path
  then match fs_unlink s file_path with
       | POk s' => (s', ["Cleaned up temporary file: " +:+ path_str file_path])
       | PErr e => (s, ["Warning: Could not remove temporary file "
                        +:+ path_str file_path +:+ ": " +:+ py_str_exc e])
       end
  else (s, []).

(** [cleanup_temp_files(self, file_list)]: the body for each listed path,
    in order; the lines of all iterations. *)
Fixpoint cleanup_temp_files `{ExcText} {Page} (s : fs Page) (file_list : list path)
    : fs Page * list string :=
  match file_list with
  | [] => (s, [])
  | file_path :: rest =>
      let '(s', msgs) := cleanup_one s file_path in
      let '(s'', msgs') := cleanup_temp_files s' rest in
      (s'', (msgs ++ msgs')%list)
  end.

(** [get_file_size_mb(self, file_path)]: [stat] is the outcome of
    [file_path.stat().st_size]; any exception gives [0.0]. *)
Definition get_file_size_mb (fm : FileManager) (stat : path -> pyres Z) (file_path : path)
    : float :=
  match (size_bytes <- stat file_path ;; py_int_truediv size_bytes (1024 * 1024))%py with
  | POk mb => mb
  | PErr _ => py_float_of_int 0
  end.

(** [f"{self.base_name}_part_{i+1:03d}.pdf"]. *)
Definition part_filename (base_name : string) (i : Z) : string :=
  base_name +:+ "_part_" +:+ py_format_0d 3 (i + 1)%Z +:+ ".pdf".

(** [generate_output_filenames(self, total_pages, pages_per_split)]. *)
Definition generate_output_filenames (fm : FileManager)
    (total_pages pages_per_split : Z) : pyres (list path) :=
  (num_splits <- py_floordiv (total_pages + pages_per_split - 1)%Z
                             pages_per_split ;;
   idxs <- py_range 0 num_splits 1 ;;
   POk (map (fun i => mk_path (output_dir fm) (part_filename (base_name fm) i))
            idxs))%py.

(** [get_split_ranges(self, total_pages, pages_per_split)]. *)
Definition get_split_ranges (total_pages pages_per_split : Z)
    : pyres (list (Z * Z)) :=
  (starts <- py_range 0 total_pages pages_per_split ;;
   POk (map (fun start =>
               let end_ := Z.min (start + pages_per_split - 1)%Z
                                 (total_pages - 1)%Z in
               (start + 1, end_ + 1)%Z) starts))%py.

(** [original_path.parent / f"{stem}_{counter}{suffix}"]. *)
Definition conflict_name (original : path) (counter : nat) : path :=
  sibling original
    (path_stem original +:+ "_" +:+ py_str_nat counter +:+ path_suffix original).

Section Resolve.
Context `{FiniteStore St} (s : St).

(** The [while file_path.exists()] loop of one file, with fuel. *)
Fixpoint resolve_conflict (fuel : nat) (original file_path : path)
    (counter : nat) : option path :=
  match fuel with
  | O => None
  | S fuel =>
      if st_exists s file_path then
        resolve_conflict fuel original (conflict_name original counter)
                         (S counter)
      else Some file_path
  end.

(** [handle_filename_conflicts(self, output_files)]: each file resolved in
    turn against the storage only (not against the names already chosen). *)
Definition handle_filename_conflicts (output_files : list path)
    : option (list path) :=
  mapM (fun file_path =>
          resolve_conflict (S (length (st_entries s))) file_path file_path 1)
       output_files.

(** ** The specification of the resolver *)

(** The [k]-th name the loop probes for [original]. *)
Definition candidate (original : path) (k : nat) : path :=
  match k with O => original | S _ => conflict_name original k end.

(** [p] is the first probed name that does not exist. *)
Definition first_free (original p : path) : Prop :=
  exists j, p = candidate original j /\ st_exists s p = false /\
            forall i, (i < j)%nat -> st_exists s (candidate original i) = true.

(** ** Lemmas on the loop *)

Lemma resolve_conflict_sound fuel o k p :
  resolve_conflict fuel o (candidate o k) (S k) = Some p ->
  exists j, (k <= j)%nat /\ p = candidate o j /\ st_exists s p = false /\
    forall i, (k <= i < j)%nat -> st_exists s (candidate o i) = true.
Proof.
  revert k; induction fuel as [|fuel IH]; intros k Hr; simpl in Hr; [done|].
  destruct (st_exists s (candidate o k)) eqn:E.
  - destruct (IH (S k) Hr) as (j & Hj & -> & Hf & Hall).
    exists j. split_and!; [lia|done|done|].
    intros i Hi. destruct (decide (i = k)) as [->|]; [done|]. apply Hall; lia.
  - injection Hr as <-. exists k. split_and!; [lia|done|done|]. lia.
Qed.

Lemma resolve_conflict_complete fuel o k :
  resolve_conflict fuel o (candidate o k) (S k) = None ->
  forall i, (k <= i < k + fuel)%nat -> st_exists s (candidate o i) = true.
Proof.
  revert k; induction fuel as [|fuel IH]; intros k Hr i Hi; simpl in Hr; [lia|].
  destruct (st_exists s (candidate o k)) eqn:E; [|done].
  destruct (decide (i = k)) as [->|]; [done|]. apply (IH (S k) Hr). lia.
Qed.

(** ** The probed names are pairwise distinct *)

Lemma candidate_name_S o k :
  path_name (candidate o (S k)) =
  path_stem o +:+ String "_"%char (py_str_nat (S k) +:+ path_suffix o).
Proof. reflexivity. Qed.

Lemma candidate_parent o k : path_parent (candidate o k) = path_parent o.
Proof. by destruct k. Qed.

Lemma candidate_S_ne_original o k : candidate o (S k) <> o.
Proof.
  intros Heq. apply (f_equal path_name) in Heq.
  rewrite candidate_name_S, (path_name_stem_suffix o) in Heq.
  apply string_app_inv_l, (f_equal String.length) in Heq.
  simpl in Heq. rewrite string_length_app in Heq. lia.
Qed.

#[export] Instance candidate_inj o : Inj eq eq (candidate o).
Proof.
  intros [|i] [|j] Heq; try done.
  - by destruct (candidate_S_ne_original o j).
  - by destruct (candidate_S_ne_original o i).
  - apply (f_equal path_name) in Heq. rewrite !candidate_name_S in Heq.
    apply string_app_inv_l in Heq. injection Heq as Heq.
    apply string_app_inv_r, py_str_nat_inj in Heq. congruence.
Qed.

(** Pigeonhole: the probed names are distinct, so at most
    [length (st_entries s)] of them exist. *)
Lemma existing_candidates_bound o j :
  (forall i, (i < j)%nat -> st_exists s (candidate o i) = true) ->
  (j <= length (st_entries s))%nat.
Proof.
  intros Hall.
  assert (Hsub : candidate o <$> seq 0 j ⊆+ st_entries s).
  { apply NoDup_submseteq.
    - apply NoDup_fmap_2; [apply _ | apply NoDup_seq].
    - intros x (i & -> & Hi%elem_of_seq)%list_elem_of_fmap.
      apply st_exists_entries, Hall. lia. }
  apply submseteq_length in Hsub. by rewrite length_fmap, length_seq in Hsub.
Qed.

(** At most [length (st_entries s)] probed names exist, so the fuel of
    [handle_filename_conflicts] is enough: the loop always returns. *)
Lemma resolve_conflict_total o :
  exists p, resolve_conflict (S (length (st_entries s))) o o 1%nat = Some p /\
            first_free o p.
Proof.
  set (N := length (st_entries s)).
  destruct (resolve_conflict (S N) o o 1%nat) as [p|] eqn:E.
  - exists p. split; [done|].
    change o with (candidate o 0) in E at 2.
    destruct (resolve_conflict_sound (S N) o 0 p E) as (j & _ & Hp & Hf & Hall).
    exists j. split_and!; [done|done|]. intros i Hi. apply Hall. lia.
  - change o with (candidate o 0) in E at 2.
    pose proof (resolve_conflict_complete (S N) o 0 E) as Hall.
    pose proof (existing_candidates_bound o (S N) ltac:(intros i Hi; apply Hall; lia)).
    subst N. lia.
Qed.

(** The loop from the [k]-th probe, when the [j]-th name is the first
    free one: it returns that name with any fuel above [j - k]. *)
Lemma resolve_conflict_reaches o k j fuel :
  (k <= j)%nat -> (j - k < fuel)%nat ->
  (forall i, (k <= i < j)%nat -> st_exists s (candidate o i) = true) ->
  st_exists s (candidate o j) = false ->
  resolve_conflict fuel o (candidate o k) (S k) = Some (candidate o j).
Proof.
  revert k; induction fuel as [|fuel IH]; intros k Hkj Hf Hall Hj; [lia|]. simpl.
  destruct (decide (k = j)) as [->|Hne]; [by rewrite Hj|].
  rewrite Hall by lia. apply (IH (S k)); [lia|lia| |done].
  intros i Hi. apply Hall. lia.
Qed.

(** The renaming returns on every list of proposed paths. *)
Lemma handle_filename_conflicts_some output_files :
  is_Some (handle_filename_conflicts output_files).
Proof.
  unfold handle_filename_conflicts. apply mapM_is_Some, Forall_forall.
  intros o _. destruct (resolve_conflict_total o) as (p & Ep & _).
  exists p. exact Ep.
Qed.

(** The confirmed paths do not exist, one per proposed path. *)
Lemma handle_filename_conflicts_fresh output_files confirmed :
  handle_filename_conflicts output_files = Some confirmed ->
  Forall (fun p => st_exists s p = false) confirmed /\
  length confirmed = length output_files.
Proof.
  intros Hc. apply mapM_Some in Hc. split; [|by rewrite (Forall2_length _ _ _ Hc)].
  induction Hc as [|o p l l' Hp _ IH]; constructor; [|done].
  change o with (candidate o 0) in Hp at 2.
  by destruct (resolve_conflict_sound _ o 0 p Hp) as (j & _ & _ & Hf & _).
Qed.

(** C5 (refinement, termination). [handle_filename_conflicts] returns on
    every storage and every list of proposed paths, and maps each proposed
    path to the first of [name], [stem_1.suffix], [stem_2.suffix], ...
    that does not exist. *)
Theorem handle_filename_conflicts_first_free (output_files : list path) :
  exists confirmed,
    handle_filename_conflicts output_files = Some confirmed /\
    Forall2 first_free output_files confirmed.
Proof.
  induction output_files as [|o l (l' & E & F)].
  - by exists [].
  - destruct (resolve_conflict_total o) as (p & Ep & Fp).
    exists (p :: l'). unfold handle_filename_conflicts in *.
    rewrite mapM_Some in E |- *. split; by constructor.
Qed.

(** C39 (termination). The loop [while file_path.exists(): ...] of one
    file stops: it tests [j + 1] names, [j] at most the number of existing
    entries of the storage, and returns the [j]-th probed name; the fuel of
    the model is only a bound, since any fuel above [j] gives that name. *)
Theorem resolve_conflict_terminates (o : path) :
  exists j, (j <= length (st_entries s))%nat /\
    forall fuel, (j < fuel)%nat -> resolve_conflict fuel o o 1%nat = Some (candidate o j).
Proof.
  destruct (resolve_conflict_total o) as (p & _ & j & -> & Hj & Hall).
  exists j. split; [by apply (existing_candidates_bound o)|].
  intros fuel Hfuel. change o with (candidate o 0) at 2.
  apply resolve_conflict_reaches; [lia|lia| |done]. intros i Hi. apply Hall. lia.
Qed.

End Resolve.

(** ** Removing files *)

Section Cleanup.
Context `{ExcText} {Page : Type}.

(** One iteration of [cleanup_temp_files]: the [exists()] guard changes
    nothing, since [unlink] of a missing path fails as well. *)
Lemma cleanup_step (s : fs Page) p : fs_unlinked s p (cleanup_one s p).1.
Proof.
  pose proof (fs_unlink_caught s p) as Hu. unfold cleanup_one.
  destruct (fs_exists s p) eqn:He; [by destruct (fs_unlink s p)|].
  unfold fs_exists in He. apply orb_false_iff in He as [Hf Ho].
  apply bool_decide_eq_false in Hf, Ho.
  split_and!; [done|done|]. intros q. case_bool_decide as Hq; [|done].
  destruct Hq as [-> _]. by apply not_elem_of_dom.
Qed.

Lemma cleanup_temp_files_cons (s : fs Page) p rest :
  cleanup_temp_files s (p :: rest) =
  ((cleanup_temp_files (cleanup_one s p).1 rest).1,
   ((cleanup_one s p).2 ++ (cleanup_temp_files (cleanup_one s p).1 rest).2)%list).
Proof.
  cbn [cleanup_temp_files]. destruct (cleanup_one s p).
  by destruct (cleanup_temp_files _ rest).
Qed.

(** C25 (functional). [cleanup_temp_files] removes exactly the listed paths
    that are files it may remove (not denied, not a directory), keeps every
    other file, and goes on after a path it cannot remove: the directories
    and the denied paths stay as they were. *)
Theorem cleanup_temp_files_removes (s : fs Page) file_list :
  fs_other (cleanup_temp_files s file_list).1 = fs_other s /\
  fs_denied (cleanup_temp_files s file_list).1 = fs_denied s /\
  forall q, fs_files (cleanup_temp_files s file_list).1 !! q =
    if bool_decide (q ∈ file_list /\ q ∉ fs_denied s /\ q ∉ fs_other s) then None
    else fs_files s !! q.
Proof.
  revert s; induction file_list as [|p rest IH]; intros s.
  { split_and!; [done|done|]. intros q. rewrite bool_decide_eq_false_2; set_solver. }
  rewrite cleanup_temp_files_cons. simpl.
  destruct (cleanup_step s p) as (Ho & Hd & Hf).
  destruct (IH (cleanup_one s p).1) as (Ho' & Hd' & Hf').
  rewrite Ho', Hd', Ho, Hd. split_and!; [done|done|]. intros q.
  rewrite Hf', Hf, Ho, Hd.
  repeat case_bool_decide; set_solver.
Qed.

End Cleanup.

(** ** The generated names *)

(** The [k]-th name of [generate_output_filenames] ([i = k]). *)
Definition part_path (fm : FileManager) (k : nat) : path :=
  mk_path (output_dir fm) (part_filename (base_name fm) (Z.of_nat k)).

Lemma generate_output_filenames_pos fm total cap :
  (0 < cap)%Z ->
  generate_output_filenames fm total cap =
  POk (part_path fm <$> seq 0 (Z.to_nat ((total + cap - 1) / cap))).
Proof.
  intros Hcap. unfold generate_output_filenames, py_floordiv.
  destruct (Z.eqb_spec cap 0); [lia|].
  cbn [py_bind]. rewrite py_range_step1, span_from_seq, Z.sub_0_r. cbn [py_bind]. f_equal.
  rewrite map_map. change (part_path fm <$> ?l) with (map (part_path fm) l).
  apply map_ext. intros k.
  unfold part_path. by rewrite Z.add_0_l.
Qed.

(** [get_split_ranges] of [FileManager] is [_get_page_ranges] of
    [PDFSplitter] on [total_pages = len(reader.pages)]. *)
Lemma get_split_ranges_eq total cap :
  get_split_ranges (Z.of_nat total) cap = Partition._get_page_ranges total cap.
Proof. reflexivity. Qed.

Lemma part_filename_split base i :
  part_filename base i =
  (base +:+ "_part_" +:+ py_format_0d 3 (i + 1)%Z) +:+ String "."%char "pdf".
Proof. unfold part_filename. by rewrite !string_app_assoc. Qed.

Lemma part_path_stem_suffix fm k :
  path_stem (part_path fm k) =
    base_name fm +:+ "_part_" +:+ py_format_0d 3 (Z.of_nat k + 1)%Z /\
  path_suffix (part_path fm k) = ".pdf".
Proof.
  unfold part_path. rewrite part_filename_split.
  apply stem_suffix_app; [|done|done]. intros Heq.
  apply (f_equal String.length) in Heq. rewrite !string_length_app in Heq.
  simpl in Heq. lia.
Qed.

(** C24 (bounds). The number of a part name is formatted with [:03d], a
    minimum width: the name of part [i+1] has exactly [len(base) + 13]
    characters (["_part_"], three digits, [".pdf"]) exactly when
    [i < 999]; from the 1000th part on the number takes more digits. *)
Theorem part_filename_width base i :
  (0 <= i)%Z ->
  String.length (part_filename base i) = (String.length base + 13)%nat <-> (i < 999)%Z.
Proof.
  intros Hi. unfold part_filename. rewrite !string_length_app.
  replace (i + 1)%Z with (Z.of_nat (Z.to_nat i + 1)) by lia.
  rewrite py_format_0d_length. cbn [String.length].
  pose proof (py_str_nat_bound (Z.to_nat i + 1)) as Hb.
  pose proof (py_str_nat_small (Z.to_nat i + 1)) as Hs.
  split; intros H.
  - assert (Hl : (String.length (py_str_nat (Z.to_nat i + 1)) <= 3)%nat) by lia.
    apply (Nat.pow_le_mono_r 10) in Hl; [|lia]. simpl in Hl. lia.
  - lia.
Qed.

(** What follows the number in a probed name. *)
Definition name_tail (j : nat) : string :=
  match j with O => ".pdf" | S _ => String "_"%char (py_str_nat j +:+ ".pdf") end.

Lemma part_candidate_name fm k j :
  path_name (candidate (part_path fm k) j) =
  (base_name fm +:+ "_part_")
    +:+ (py_format_0d 3 (Z.of_nat (S k)) +:+ name_tail j).
Proof.
  replace (Z.of_nat (S k)) with (Z.of_nat k + 1)%Z by lia.
  destruct j as [|j].
  - simpl. unfold part_filename. by rewrite !string_app_assoc.
  - rewrite candidate_name_S. destruct (part_path_stem_suffix fm k) as [-> ->].
    simpl. by rewrite !string_app_assoc.
Qed.

(** Two probed names of two generated names are equal only for the same
    part: the number [NNN] is read back from the name. *)
Lemma part_candidate_inj fm a b ja jb :
  candidate (part_path fm a) ja = candidate (part_path fm b) jb -> a = b.
Proof.
  intros Heq. apply (f_equal path_name) in Heq.
  rewrite !part_candidate_name in Heq. apply string_app_inv_l in Heq.
  apply digits_app_inv in Heq as [Hf _];
    [| apply all_digits_format | apply all_digits_format
     | by destruct ja | by destruct jb].
  apply py_format_0d_inj in Hf. lia.
Qed.

(** The names confirmed for [n] generated names are pairwise distinct. *)
Lemma confirmed_part_names_nodup `{FiniteStore St} (s : St) fm n confirmed :
  handle_filename_conflicts s (part_path fm <$> seq 0 n) = Some confirmed ->
  NoDup confirmed.
Proof.
  intros Hc. apply mapM_Some in Hc. apply NoDup_alt.
  intros a b y Ha Hb.
  destruct (Forall2_lookup_r _ _ _ _ _ Hc Ha) as (xa & Hxa & Ra).
  destruct (Forall2_lookup_r _ _ _ _ _ Hc Hb) as (xb & Hxb & Rb).
  rewrite list_lookup_fmap in Hxa, Hxb.
  destruct (seq 0 _ !! a) as [ka|] eqn:Ea in Hxa; [|done].
  destruct (seq 0 _ !! b) as [kb|] eqn:Eb in Hxb; [|done].
  apply lookup_seq in Ea as [-> _]. apply lookup_seq in Eb as [-> _].
  injection Hxa as <-. injection Hxb as <-.
  apply (resolve_conflict_sound s _ _ 0) in Ra as (ja & _ & -> & _).
  apply (resolve_conflict_sound s _ _ 0) in Rb as (jb & _ & Hy & _).
  apply part_candidate_inj in Hy. lia.
Qed.

(** A confirmed name stays in the directory of the name it replaces. *)
Lemma handle_filename_conflicts_parent `{FiniteStore St} (s : St) d xs confirmed :
  Forall (fun x => path_parent x = d) xs ->
  handle_filename_conflicts s xs = Some confirmed ->
  Forall (fun c => path_parent c = d) confirmed.
Proof.
  intros Hx Hc. apply mapM_Some in Hc.
  induction Hc as [|x c xs cs R _ IH]; [done|]. inversion_clear Hx.
  constructor; [|auto].
  apply (resolve_conflict_sound s _ _ 0) in R as (j & _ & -> & _).
  by rewrite candidate_parent.
Qed.

(** The names [generate_output_filenames] proposes are in the output
    directory. *)
Lemma generate_output_filenames_parent fm total cap outs :
  generate_output_filenames fm total cap = POk outs ->
  Forall (fun x => path_parent x = output_dir fm) outs.
Proof.
  unfold generate_output_filenames. intros E.
  apply py_bind_POk_inv in E as (n & _ & E).
  apply py_bind_POk_inv in E as (idxs & _ & [= <-]).
  by apply Forall_map, Forall_true.
Qed.

(** The confirmed names stay in the output directory. *)
Lemma confirmed_part_names_parent `{FiniteStore St} (s : St) fm n confirmed :
  handle_filename_conflicts s (part_path fm <$> seq 0 n) = Some confirmed ->
  Forall (fun c => path_parent c = output_dir fm) confirmed.
Proof.
  apply handle_filename_conflicts_parent. by apply Forall_fmap, Forall_true.
Qed.

(** Their texts [str(path)] are pairwise distinct too. *)
Lemma confirmed_part_names_str_nodup `{FiniteStore St} (s : St) fm n confirmed :
  handle_filename_conflicts s (part_path fm <$> seq 0 n) = Some confirmed ->
  NoDup (path_str <$> confirmed).
Proof.
  intros Hc. pose proof (confirmed_part_names_parent s fm n confirmed Hc) as Hp.
  apply NoDup_fmap_2_strong; [|by eapply confirmed_part_names_nodup].
  intros x y Hx Hy. apply path_str_inj_parent.
  rewrite Forall_forall in Hp. by rewrite (Hp x Hx), (Hp y Hy).
Qed.

(** C6 (safety). The paths confirmed by [handle_filename_conflicts] for the
    names of [generate_output_filenames] are pairwise distinct, whatever
    files already exist: two parts never share an output file, although the
    loop consults only the storage and not the names already chosen. *)
Theorem resolved_names_distinct `{FiniteStore St} (s : St) fm total cap
    files confirmed :
  (0 < cap)%Z ->
  generate_output_filenames fm total cap = POk files ->
  handle_filename_conflicts s files = Some confirmed ->
  NoDup confirmed.
Proof.
  intros Hcap Hg Hc. rewrite generate_output_filenames_pos in Hg by done.
  injection Hg as <-. by eapply confirmed_part_names_nodup.
Qed.

(** C16 (type). The shape of every output file: for the names of
    [generate_output_filenames] and any storage, the [i]-th path
    [handle_filename_conflicts] confirms is [output_dir/<base>_part_NNN.pdf]
    or [output_dir/<base>_part_NNN_j.pdf], with [NNN] the number [i+1] of
    its part: the renaming only adds a counter before the suffix. *)
Theorem confirmed_names_shape `{FiniteStore St} (s : St) fm total cap files confirmed :
  (0 < cap)%Z ->
  generate_output_filenames fm total cap = POk files ->
  handle_filename_conflicts s files = Some confirmed ->
  forall i c, confirmed !! i = Some c ->
    exists j, c = mk_path (output_dir fm)
                  ((base_name fm +:+ "_part_")
                   +:+ (py_format_0d 3 (Z.of_nat (S i)) +:+ name_tail j)).
Proof.
  intros Hcap Hg Hc i c Hi. rewrite generate_output_filenames_pos in Hg by done.
  injection Hg as <-. apply mapM_Some in Hc.
  destruct (Forall2_lookup_r _ _ _ _ _ Hc Hi) as (x & Hx & R).
  rewrite list_lookup_fmap in Hx.
  destruct (seq 0 _ !! i) as [k|] eqn:Ek in Hx; [|done]. injection Hx as <-.
  apply lookup_seq in Ek as [-> _]. rewrite Nat.add_0_l in R.
  apply (resolve_conflict_sound s _ _ 0) in R as (j & _ & -> & _).
  exists j. rewrite <- part_candidate_name.
  change (output_dir fm) with (path_parent (part_path fm i)).
  rewrite <- (candidate_parent (part_path fm i) j).
  by destruct (candidate (part_path fm i) j).
Qed.

(** [generate_output_filenames] makes exactly one name per
    range of [_get_page_ranges], so [split_pdf]'s [output_files[i]] is
    defined for every range. *)
Theorem output_filenames_match_ranges fm total cap files rs :
  (0 < cap)%Z ->
  generate_output_filenames fm (Z.of_nat total) cap = POk files ->
  Partition._get_page_ranges total cap = POk rs ->
  length files = length rs.
Proof.
  intros Hcap Hg Hr. rewrite generate_output_filenames_pos in Hg by done.
  injection Hg as <-. rewrite length_fmap, length_seq.
  pose proof (Partition.get_page_ranges_length total cap rs Hcap Hr). lia.
Qed.

(** ** The scenario of spec section 8 *)

(** [out/doc_part_001.pdf] and [out/doc_part_001_1.pdf] exist. *)
Definition scenario_fs : fs nat :=
  mk_fs (<[mk_path "out" "doc_part_001_1.pdf" := OtherFile]>
          (<[mk_path "out" "doc_part_001.pdf" := OtherFile]> ∅)) ∅ ∅.

Definition scenario_fm : FileManager := init (mk_path "in" "doc.pdf") (Some "out").

Example resolved_names_distinct_witness :
  (0 < 8)%Z /\
  generate_output_filenames scenario_fm 20 8 =
    POk [mk_path "out" "doc_part_001.pdf"; mk_path "out" "doc_part_002.pdf";
         mk_path "out" "doc_part_003.pdf"] /\
  handle_filename_conflicts scenario_fs
    [mk_path "out" "doc_part_001.pdf"; mk_path "out" "doc_part_002.pdf";
     mk_path "out" "doc_part_003.pdf"] =
    Some [mk_path "out" "doc_part_001_2.pdf"; mk_path "out" "doc_part_002.pdf";
          mk_path "out" "doc_part_003.pdf"] /\
  NoDup [mk_path "out" "doc_part_001_2.pdf"; mk_path "out" "doc_part_002.pdf";
         mk_path "out" "doc_part_003.pdf"].
Proof.
  split_and!; [lia | vm_compute; reflexivity | vm_compute; reflexivity |].
  eapply (resolved_names_distinct scenario_fs scenario_fm 20 8);
    [lia | vm_compute; reflexivity | vm_compute; reflexivity].
Defined.

Example output_filenames_match_ranges_witness :
  (0 < 8)%Z /\
  generate_output_filenames scenario_fm (Z.of_nat 20) 8 =
    POk [mk_path "out" "doc_part_001.pdf"; mk_path "out" "doc_part_002.pdf";
         mk_path "out" "doc_part_003.pdf"] /\
  Partition._get_page_ranges 20 8 = POk [(1, 8); (9, 16); (17, 20)]%Z /\
  length [mk_path "out" "doc_part_001.pdf"; mk_path "out" "doc_part_002.pdf";
          mk_path "out" "doc_part_003.pdf"] = length [(1, 8); (9, 16); (17, 20)]%Z.
Proof.
  split_and!; [lia | vm_compute; reflexivity | reflexivity |].
  apply (output_filenames_match_ranges scenario_fm 20 8); [lia | vm_compute; reflexivity | reflexivity].
Defined.

Example confirmed_names_shape_witness :
  exists j, mk_path "out" "doc_part_001_2.pdf" =
    mk_path (output_dir scenario_fm)
      ((base_name scenario_fm +:+ "_part_") +:+ (py_format_0d 3 (Z.of_nat 1) +:+ name_tail j)).
Proof.
  apply (confirmed_names_shape scenario_fs scenario_fm 20 8
           [mk_path "out" "doc_part_001.pdf"; mk_path "out" "doc_part_002.pdf";
            mk_path "out" "doc_part_003.pdf"]
           [mk_path "out" "doc_part_001_2.pdf"; mk_path "out" "doc_part_002.pdf";
            mk_path "out" "doc_part_003.pdf"]);
    [lia | vm_compute; reflexivity | vm_compute; reflexivity | reflexivity].
Defined.

(** Spec section 8: [doc_part_001.pdf] exists, and so does
    [doc_part_001_1.pdf]: the first part is renamed [doc_part_001_2.pdf]. *)
Example conflict_scenario :
  handle_filename_conflicts scenario_fs [mk_path "out" "doc_part_001.pdf"] =
  Some [mk_path "out" "doc_part_001_2.pdf"].
Proof. vm_compute. reflexivity. Qed.

(** The 1000th part: [doc_part_1000.pdf], four digits. *)
Example part_filename_width_witness :
  (0 <= 999)%Z /\
  (String.length (part_filename "doc" 999) = (String.length "doc" + 13)%nat <-> (999 < 999)%Z).
Proof. split; [lia | apply part_filename_width; lia]. Defined.

Example part_1000_name : part_filename "doc" 999 = "doc_part_1000.pdf".
Proof. vm_compute. reflexivity. Qed.

End FileManager.
