(* ===== verification/Splitter.v ===== *)
(** * Splitter: loading a PDF and writing its parts (src/pdf_splitter.py)

    Module [PDFSplitter] models the class of the same name: its state
    ([input_file], [reader], [total_pages]), [load_pdf], [is_encrypted],
    [get_total_pages], [get_pdf_info], [split_pdf], [extract_page_range] and
    [preview_split], with what each prints.  A [pypdf.PdfReader] is the list
    of pages of the file and its encryption flag (pypdf is a library the
    code only calls).  [split_pdf] runs in the state-and-exception monad
    [pyst] of [Prelude] over the filesystem of [Storage] and the events it
    makes visible in order: the calls of the progress callback and its
    ["Created: ..."] lines; an exception in the loop ends it, keeps the
    files already written and makes [split_pdf] print it and return
    [False], as the [try/except] around the loop does.  [load_pdf] and
    [extract_page_range] return their lines.

    The main theorem is a round trip: after a successful split, the parts
    read back in order and concatenated are the pages of the document.  It
    uses only the page-range plan of [Partition], not how the ranges are
    computed.  The events of a successful and of a failing split are given
    in closed form ([part_events]).  The preview is proved equivalent to
    the split: its count of files and its line per part describe the files
    [split_pdf] writes.  The section [Respects] lifts any preorder that
    every write respects to the whole split (only the output files
    change). *)

From S2P Require Import Prelude PyLib Partition Storage.

Local Open Scope Z_scope.

Module PDFSplitter.

Section Splitter.
Context {Page : Type} {ET : ExcText}.

(** ** The code *)

(** A [PdfReader]: [reader.pages] and [reader.is_encrypted]. *)
Record PdfReader := mk_reader {
  reader_pages : list Page;
  reader_encrypted : bool
}.

(** [PdfReader(str(path))]: pypdf opens the file, so a directory raises
    [IsADirectoryError] and a missing file [FileNotFoundError]; a file that
    is not a PDF raises [PdfReadError]. *)
Definition open_reader (s : fs Page) (p : path) : pyres PdfReader :=
  if bool_decide (p ∈ fs_other s) then PErr (os_error 21 "Is a directory" p)
  else match fs_files s !! p with
       | Some (PdfFile pages enc) => POk (mk_reader pages enc)
       | Some OtherFile => PErr PdfReadError
       | None => PErr (os_error 2 "No such file or directory" p)
       end%string.

(** The attributes of a [PDFSplitter]. *)
Record PDFSplitter := mk_pdf_splitter {
  input_file : path;
  reader : option PdfReader;
  total_pages : nat
}.

(** [PDFSplitter.__init__(input_file)]. *)
Definition init (input_file : path) : PDFSplitter :=
  mk_pdf_splitter input_file None 0.

(** [load_pdf(self)]: when [PdfReader] raises, [self.reader] is not
    assigned; a document without pages is loaded but reported as a
    failure.  With the line it prints. *)
Definition load_pdf (s : fs Page) (self : PDFSplitter) : bool * PDFSplitter * list string :=
  match open_reader s (input_file self) with
  | PErr e =>
      (false, self, ["Error loading PDF file '" +:+ path_str (input_file self) +:+ "': "
                     +:+ py_str_exc e]%string)
  | POk r =>
      let self' := mk_pdf_splitter (input_file self) (Some r)
                                   (length (reader_pages r)) in
      if (total_pages self' =? 0)%nat
      then (false, self', ["Error: PDF file '" +:+ path_str (input_file self)
                           +:+ "' has no pages."]%string)
      else (true, self', ["Successfully loaded PDF: " +:+ py_str_nat (total_pages self')
                          +:+ " pages"]%string)
  end.

(** The message of [split_pdf], [extract_page_range] and [preview_split]
    without a document. *)
Definition not_loaded : string := "Error: PDF not loaded. Call load_pdf() first.".

(** [is_encrypted(self)]. *)
Definition is_encrypted (self : PDFSplitter) : bool :=
  match reader self with Some r => reader_encrypted r | None => false end.

(** [get_total_pages(self)]. *)
Definition get_total_pages (self : PDFSplitter) : nat := total_pages self.

(** The dictionary of [get_pdf_info]: ['file_size_mb'] is
    [info_file_size / (1024 * 1024)], and the four metadata entries
    (title, author, creator, subject) are there when the metadata could be
    read and is not empty. *)
Record pdf_info := mk_pdf_info {
  info_total_pages : nat;
  info_encrypted : bool;
  info_file_size : Z;
  info_metadata : option (string * string * string * string)
}.

(** [get_pdf_info(self)]: [None] is the empty dictionary of a splitter
    without a document.  [st_size] is [self.input_file.stat().st_size] and
    [metadata] the outcome of reading [self.reader.metadata]; an exception
    there is caught and leaves the metadata out. *)
Definition get_pdf_info (self : PDFSplitter) (st_size : Z)
    (metadata : pyres (option (py_dict string string))) : option pdf_info :=
  match reader self with
  | None => None
  | Some _ =>
      Some (mk_pdf_info (total_pages self) (is_encrypted self) st_size
              (match metadata with
               | POk (Some m) =>
                   if bool_decide (m = []) then None
                   else Some (py_dict_get m "/Title" "Unknown", py_dict_get m "/Author" "Unknown",
                              py_dict_get m "/Creator" "Unknown", py_dict_get m "/Subject" "Unknown")
               | _ => None
               end))
  end.

(** What [split_pdf] changes: the files, and what it makes visible in
    order, its [print] lines and the calls of the progress callback. *)
Record split_state := mk_split_state {
  ss_fs : fs Page;
  ss_events : list out_event
}.

(** [if progress_callback: progress_callback(cur, tot, msg)]. *)
Definition emit_progress (progress : bool) (cur tot : nat) (msg : string)
    : pyst split_state unit :=
  fun ss => (POk tt, if progress
                     then mk_split_state (ss_fs ss) (ss_events ss ++ [Progress cur tot msg])
                     else ss).

(** [print(line)]. *)
Definition emit_print (line : string) : pyst split_state unit :=
  fun ss => (POk tt, mk_split_state (ss_fs ss) (ss_events ss ++ [Printed line])).

(** [with open(output_file, 'wb') as f: writer.write(f)]. *)
Definition write_pdf (p : path) (pages : list Page) : pyst split_state unit :=
  fun ss => match fs_write_pdf (ss_fs ss) p pages with
            | POk s' => (POk tt, mk_split_state s' (ss_events ss))
            | PErr e => (PErr e, ss)
            end.

(** [for page_num in range(start_page - 1, end_page):
       writer.add_page(self.reader.pages[page_num])]. *)
Definition collect_pages (r : PdfReader) (start_page end_page : Z)
    : pyres (list Page) :=
  (page_nums <- py_range (start_page - 1) end_page 1 ;;
   py_mapM (py_getitem (reader_pages r)) page_nums)%py.

(** [f"Created: {output_file} (pages {start_page}-{end_page})"]. *)
Definition created_line (output_file : path) (r : Z * Z) : string :=
  ("Created: " +:+ path_str output_file +:+ " (pages " +:+ py_str_int r.1 +:+ "-"
   +:+ py_str_int r.2 +:+ ")")%string.

(** The body of [for i, (start_page, end_page) in enumerate(ranges)]. *)
Fixpoint split_loop (r : PdfReader) (progress : bool) (n : nat)
    (output_files : list path) (i : nat) (ranges : list (Z * Z))
    : pyst split_state unit :=
  match ranges with
  | [] => st_ret tt
  | (start_page, end_page) :: rest =>
      (_ <- emit_progress progress (S i) n
              ("Creating part " +:+ py_str_nat (S i))%string ;;
       pages <- st_lift (collect_pages r start_page end_page) ;;
       output_file <- st_lift (py_getitem output_files (Z.of_nat i)) ;;
       _ <- write_pdf output_file pages ;;
       _ <- emit_print (created_line output_file (start_page, end_page)) ;;
       split_loop r progress n output_files (S i) rest)%pyst
  end.

(** [split_pdf(self, pages_per_split, output_files, progress_callback)]:
    every exception of the loop is caught, printed, and gives [False]. *)
Definition split_pdf (self : PDFSplitter) (pages_per_split : Z)
    (output_files : list path) (progress : bool) (ss : split_state)
    : bool * split_state :=
  match reader self with
  | None => (false, (emit_print not_loaded ss).2)
  | Some r =>
      match (ranges <- st_lift (Partition._get_page_ranges (total_pages self)
                                                        pages_per_split) ;;
             split_loop r progress (length ranges) output_files 0 ranges)%pyst ss
      with
      | (POk _, ss') => (true, ss')
      | (PErr e, ss') =>
          (false, (emit_print ("Error during PDF splitting: " +:+ py_str_exc e)%string ss').2)
      end
  end.

(** [extract_page_range(self, start_page, end_page, output_file)]: the
    filesystem after it and the line it prints. *)
Definition extract_page_range (self : PDFSplitter) (start_page end_page : Z)
    (output_file : path) (s : fs Page) : bool * fs Page * list string :=
  let failed (e : PyExc) := (false, s, ["Error extracting page range: " +:+ py_str_exc e]%string) in
  match reader self with
  | None => (false, s, [not_loaded])
  | Some r =>
      if (start_page <? 1) || (Z.of_nat (total_pages self) <? end_page)
         || (end_page <? start_page)
      then (false, s, ["Error: Invalid page range " +:+ py_str_int start_page +:+ "-"
                       +:+ py_str_int end_page]%string)
      else match collect_pages r start_page end_page with
           | PErr e => failed e
           | POk pages =>
               match fs_write_pdf s output_file pages with
               | POk s' => (true, s', ["Extracted pages " +:+ py_str_int start_page +:+ "-"
                                      +:+ py_str_int end_page +:+ " to: "
                                      +:+ path_str output_file]%string)
               | PErr e => failed e
               end
           end
  end.

(** [f"  Part {i+1:03d}: pages {start}-{end} ({end-start+1} pages)"]. *)
Definition preview_part_line (i : nat) (r : Z * Z) : string :=
  ("  Part " +:+ py_format_0d 3 (Z.of_nat (S i)) +:+ ": pages "
   +:+ py_str_int r.1 +:+ "-" +:+ py_str_int r.2
   +:+ " (" +:+ py_str_int (r.2 - r.1 + 1) +:+ " pages)")%string.

(** [preview_split(self, pages_per_split)]: the lines it prints, one per
    [print] call ([print] adds the final line break).  The exceptions of
    [calculate_split_info] (a zero or negative step) propagate. *)
Definition preview_split (self : PDFSplitter) (pages_per_split : Z)
    : pyres (list string) :=
  match reader self with
  | None => POk [not_loaded]
  | Some _ =>
      (si <- Partition.calculate_split_info (total_pages self) pages_per_split ;;
       POk ([nl +:+ "--- Split Preview ---";
             "Input file: " +:+ path_str (input_file self);
             "Total pages: " +:+ py_str_nat (Partition.si_total_pages si);
             "Pages per split: " +:+ py_str_int (Partition.si_pages_per_split si);
             "Number of output files: " +:+ py_str_int (Partition.si_num_splits si);
             "Last file will have: " +:+ py_str_int (Partition.si_last_split_pages si)
               +:+ " pages";
             nl +:+ "Page ranges:"]%string
            ++ imap preview_part_line (Partition.si_ranges si)
            ++ ["--- End Preview ---" +:+ nl]%string)%list)%py
  end.

(** ** Lemmas *)

(** The pages of the inclusive range [r] of a document. *)
Definition page_chunk (pages : list Page) (r : Z * Z) : list Page :=
  take (Z.to_nat (r.2 - r.1 + 1)) (drop (Z.to_nat (r.1 - 1)) pages).

(** The callback call of iteration [i] of [n], when there is a callback. *)
Definition progress_event (progress : bool) (n i : nat) : list out_event :=
  if progress then [Progress (S i) n ("Creating part " +:+ py_str_nat (S i))%string] else [].

(** What the iterations [i, i+1, ...] that write [rs] to [outs] make
    visible: for each part the callback call, then its ["Created: ..."]
    line. *)
Fixpoint part_events (progress : bool) (n i : nat) (outs : list path) (rs : list (Z * Z))
    : list out_event :=
  match rs, outs with
  | r :: rs', o :: outs' =>
      progress_event progress n i ++ Printed (created_line o r)
        :: part_events progress n (S i) outs' rs'
  | _, _ => []
  end.

(** A file the loop can write. *)
Definition writable (s : fs Page) (o : path) : Prop :=
  (o ∉ fs_denied s) /\ (o ∉ fs_other s).

Lemma collect_pages_ok r start_page end_page :
  1 <= start_page <= end_page ->
  end_page <= Z.of_nat (length (reader_pages r)) ->
  collect_pages r start_page end_page =
  POk (page_chunk (reader_pages r) (start_page, end_page)).
Proof.
  intros Hs He. unfold collect_pages. rewrite py_range_step1. simpl.
  replace (start_page - 1) with (Z.of_nat (Z.to_nat (start_page - 1))) at 1
    by lia.
  rewrite py_mapM_getitem_span by lia. unfold page_chunk. simpl.
  do 3 f_equal. lia.
Qed.

Lemma emit_progress_run progress cur n msg ss :
  emit_progress progress (S cur) n msg ss =
  (POk tt, mk_split_state (ss_fs ss)
             (ss_events ss ++ (if progress then [Progress (S cur) n msg] else []))).
Proof. destruct progress, ss; simpl; by rewrite ?app_nil_r. Qed.

(** One iteration of the loop that succeeds. *)
Lemma split_loop_cons r progress n outs i start_page end_page rest ss o :
  collect_pages r start_page end_page =
    POk (page_chunk (reader_pages r) (start_page, end_page)) ->
  outs !! i = Some o -> writable (ss_fs ss) o ->
  split_loop r progress n outs i ((start_page, end_page) :: rest) ss =
  split_loop r progress n outs (S i) rest
    (mk_split_state
       (mk_fs (<[o := PdfFile (page_chunk (reader_pages r) (start_page, end_page))
                        false]> (fs_files (ss_fs ss)))
              (fs_other (ss_fs ss)) (fs_denied (ss_fs ss)))
       (ss_events ss ++ progress_event progress n i
        ++ [Printed (created_line o (start_page, end_page))])).
Proof.
  intros Hc Ho [Hd Hot]. simpl. unfold st_bind, st_lift.
  rewrite emit_progress_run, Hc, py_getitem_nat, Ho. unfold write_pdf. simpl.
  rewrite fs_write_pdf_allowed by done. simpl. by rewrite <- app_assoc.
Qed.

(** The loop over ranges inside the document and enough writable output
    files writes the pages of each range to its file, in order, and makes
    the events of [part_events] visible. *)
Lemma split_loop_ok r progress n outs i rs ss :
  Forall (fun x => 1 <= x.1 <= x.2 /\ x.2 <= Z.of_nat (length (reader_pages r))) rs ->
  (i + length rs <= length outs)%nat ->
  Forall (writable (ss_fs ss)) outs ->
  split_loop r progress n outs i rs ss =
  (POk tt, mk_split_state
     (mk_fs (write_all (fs_files (ss_fs ss))
               (zip (drop i outs) (map (page_chunk (reader_pages r)) rs)))
            (fs_other (ss_fs ss)) (fs_denied (ss_fs ss)))
     (ss_events ss ++ part_events progress n i (drop i outs) rs)).
Proof.
  revert i ss; induction rs as [|[a b] rs IH]; intros i ss Hrs Hlen Hw.
  - destruct ss as [[f o d] ev]. simpl.
    replace (zip (drop i outs) []) with (@nil (path * list Page))
      by (by destruct (drop i outs)).
    replace (part_events _ _ _ _ []) with (@nil out_event) by (by destruct (drop i outs)).
    unfold st_ret. by rewrite app_nil_r.
  - apply Forall_cons in Hrs as [[Hab Hb] Hrs]. simpl in Hab, Hb, Hlen.
    destruct (outs !! i) as [o|] eqn:Ho; [|apply lookup_ge_None in Ho; lia].
    rewrite (split_loop_cons _ _ _ _ _ _ _ _ _ o); [| apply collect_pages_ok; lia
      | done | by eapply Forall_lookup_1].
    rewrite IH; [| done | lia | done]. simpl.
    rewrite (drop_S outs o i Ho). simpl. by rewrite <- !app_assoc.
Qed.

(** The parts of a plan, concatenated, are the document from page [s]. *)
Lemma plan_concat_chunks (pages : list Page) cap s rs :
  0 < cap -> Partition.plan_from cap (Z.of_nat (length pages)) s rs -> 1 <= s ->
  concat (map (page_chunk pages) rs) = drop (Z.to_nat (s - 1)) pages.
Proof.
  intros Hcap Hp. induction Hp as [s Hs | s rs Hs Hp IH]; intros H1; simpl.
  - rewrite app_nil_r. unfold page_chunk. simpl.
    apply take_ge. rewrite length_drop. lia.
  - rewrite IH by lia. unfold page_chunk. simpl.
    replace (Z.to_nat (s + cap - 1))
      with (Z.to_nat (s - 1) + Z.to_nat (s + cap - 1 - s + 1))%nat by lia.
    by rewrite <- drop_drop, take_drop.
Qed.

(** [PdfReader(path).pages] of a file the split wrote. *)
Definition read_pdf_pages (s : fs Page) (p : path) : option (list Page) :=
  match fs_files s !! p with
  | Some (PdfFile pages _) => Some pages
  | _ => None
  end.

Lemma read_pdf_pages_write_all files other denied ws p c :
  NoDup ws.*1 -> (p, c) ∈ ws ->
  read_pdf_pages (mk_fs (write_all files ws) other denied) p = Some c.
Proof.
  intros Hnd Hin. unfold read_pdf_pages. simpl.
  by rewrite (write_all_in files ws p c Hnd Hin).
Qed.

(** C3 (roundtrip). When the document is loaded, [pages_per_split] is
    positive and [split_pdf] gets one distinct, writable output file per
    range, it returns [True], and the output files, read back in order and
    concatenated, are exactly the pages of the document. *)
Theorem split_pdf_roundtrip self r pps outs progress ss rs :
  reader self = Some r ->
  total_pages self = length (reader_pages r) -> (0 < total_pages self)%nat ->
  0 < pps ->
  Partition._get_page_ranges (total_pages self) pps = POk rs ->
  length outs = length rs -> NoDup outs -> Forall (writable (ss_fs ss)) outs ->
  exists ss', split_pdf self pps outs progress ss = (true, ss') /\
    exists parts, mapM (read_pdf_pages (ss_fs ss')) outs = Some parts /\
                  concat parts = reader_pages r.
Proof.
  intros Hr Ht Hpos Hpps Hrs Hlen Hnd Hw.
  destruct (Partition.get_page_ranges_is_plan (total_pages self) pps Hpps Hpos)
    as (rs' & Hrs' & Hplan).
  rewrite Hrs in Hrs'. injection Hrs' as <-.
  unfold Partition.partition_plan in Hplan. rewrite Ht in Hplan.
  pose proof (Partition.plan_from_bounds _ _ Hpps _ _ Hplan ltac:(lia)) as Hb.
  unfold split_pdf. rewrite Hr. unfold st_bind at 1, st_lift. rewrite Hrs.
  rewrite split_loop_ok; [| done | simpl; lia | done].
  eexists; split; [done|]. simpl. rewrite drop_0.
  exists (map (page_chunk (reader_pages r)) rs). split.
  - apply mapM_Some, Forall2_same_length_lookup. rewrite length_map.
    split; [done|]. intros i o c Ho Hc.
    apply read_pdf_pages_write_all.
    + by rewrite fst_zip by (rewrite length_map; lia).
    + apply list_elem_of_lookup_2 with i. by rewrite lookup_zip_with, Ho, Hc.
  - rewrite (plan_concat_chunks _ _ _ _ Hpps Hplan) by lia. by rewrite drop_0.
Qed.

(** How iteration [k] of the loop fails: its output file is missing from
    [output_files] ([IndexError]), or [open] raises [e] on it. *)
Definition iteration_fails (s : fs Page) (o : option path) (e : PyExc) : Prop :=
  match o with
  | None => e = IndexError
  | Some o => fs_open_wb_error s o = Some e
  end.

(** The loop stops at its first failing iteration [k], with the parts
    [0..k-1] written and their events made visible, and the callback
    called for iteration [k]. *)
Lemma split_loop_fail r progress n outs i rs ss k e :
  Forall (fun x => 1 <= x.1 <= x.2 /\ x.2 <= Z.of_nat (length (reader_pages r))) rs ->
  (k < length rs)%nat -> (i + k <= length outs)%nat ->
  Forall (writable (ss_fs ss)) (take k (drop i outs)) ->
  iteration_fails (ss_fs ss) (outs !! (i + k)%nat) e ->
  split_loop r progress n outs i rs ss =
  (PErr e, mk_split_state
     (mk_fs (write_all (fs_files (ss_fs ss))
               (zip (take k (drop i outs))
                    (map (page_chunk (reader_pages r)) (take k rs))))
            (fs_other (ss_fs ss)) (fs_denied (ss_fs ss)))
     (ss_events ss ++ part_events progress n i (drop i outs) (take k rs)
      ++ progress_event progress n (i + k))).
Proof.
  revert i rs ss; induction k as [|k IH]; intros i [|[a b] rs] ss Hrs Hk Hi Hw Hf;
    simpl in Hk; try lia; apply Forall_cons in Hrs as [[Hab Hb] Hrs];
    simpl in Hab, Hb.
  - rewrite Nat.add_0_r in Hf |- *. simpl. unfold st_bind, st_lift.
    rewrite emit_progress_run, collect_pages_ok by lia. rewrite py_getitem_nat.
    replace (part_events _ _ _ _ []) with (@nil out_event) by (by destruct (drop i outs)).
    destruct (outs !! i) as [o|] eqn:Ho; simpl in Hf.
    + unfold write_pdf, fs_write_pdf. simpl. rewrite Hf.
      destruct ss as [[] ?]; simpl; by rewrite ?app_nil_r.
    + subst e. destruct ss as [[] ?]; simpl; by rewrite ?app_nil_r.
  - destruct (outs !! i) as [o|] eqn:Ho; [|apply lookup_ge_None in Ho; lia].
    rewrite (drop_S outs o i Ho) in Hw |- *. simpl in Hw.
    apply Forall_cons in Hw as [Hwo Hw].
    rewrite (split_loop_cons _ _ _ _ _ _ _ _ _ o); [| apply collect_pages_ok; lia
      | done | done].
    rewrite IH; [| done | lia | lia | done | by rewrite Nat.add_succ_r in Hf].
    simpl. rewrite Nat.add_succ_r. by rewrite <- !app_assoc.
Qed.

#[export] Instance writable_dec s o : Decision (writable s o).
Proof. unfold writable. apply _. Defined.

(** [part_events] in closed form, over the pairs of a file and a range. *)
Lemma part_events_imap progress n i outs rs :
  part_events progress n i outs rs =
  concat (imap (fun k '(o, r) => progress_event progress n (i + k)
                                   ++ [Printed (created_line o r)])
               (zip outs rs)).
Proof.
  revert i outs; induction rs as [|r rs IH]; intros i [|o outs]; simpl; try done.
  rewrite Nat.add_0_r, IH, <- app_assoc. simpl. do 3 f_equal.
  apply imap_ext. intros k [o' r'] _. simpl. by rewrite Nat.add_succ_r.
Qed.

(** The first part of [split_pdf] when the document is loaded. *)
Lemma split_pdf_loaded self r pps outs progress ss rs :
  reader self = Some r ->
  Partition._get_page_ranges (total_pages self) pps = POk rs ->
  split_pdf self pps outs progress ss =
  match split_loop r progress (length rs) outs 0 rs ss with
  | (POk _, ss') => (true, ss')
  | (PErr e, ss') =>
      (false, (emit_print ("Error during PDF splitting: " +:+ py_str_exc e)%string ss').2)
  end.
Proof. intros Hr Hrs. unfold split_pdf. rewrite Hr. unfold st_bind at 1, st_lift. by rewrite Hrs. Qed.

(** The ranges of a loaded nonempty document lie inside it. *)
Lemma ranges_in_document self r pps rs :
  total_pages self = length (reader_pages r) -> (0 < total_pages self)%nat ->
  0 < pps -> Partition._get_page_ranges (total_pages self) pps = POk rs ->
  Forall (fun x => 1 <= x.1 <= x.2 /\ x.2 <= Z.of_nat (length (reader_pages r))) rs.
Proof.
  intros Ht Hpos Hpps Hrs.
  destruct (Partition.get_page_ranges_is_plan (total_pages self) pps Hpps Hpos)
    as (rs' & Hrs' & Hplan).
  rewrite Hrs in Hrs'. injection Hrs' as <-.
  unfold Partition.partition_plan in Hplan. rewrite Ht in Hplan.
  exact (Partition.plan_from_bounds _ _ Hpps _ _ Hplan ltac:(lia)).
Qed.

(** C7 (error). [split_pdf] stops at the first part [k] whose output file
    is missing from [output_files] or cannot be opened: it returns [False],
    the parts [0..k-1] stay written, no later part is written, and what it
    makes visible is the events of the parts [0..k-1], the callback call of
    part [k+1] and the line ["Error during PDF splitting: e"]. *)
Theorem split_pdf_stops_at_first_failure self r pps outs progress ss rs k e :
  reader self = Some r ->
  total_pages self = length (reader_pages r) -> (0 < total_pages self)%nat ->
  0 < pps -> Partition._get_page_ranges (total_pages self) pps = POk rs ->
  (k < length rs)%nat -> (k <= length outs)%nat ->
  Forall (writable (ss_fs ss)) (take k outs) ->
  iteration_fails (ss_fs ss) (outs !! k) e ->
  split_pdf self pps outs progress ss =
  (false, mk_split_state
     (mk_fs (write_all (fs_files (ss_fs ss))
               (zip (take k outs) (map (page_chunk (reader_pages r)) (take k rs))))
            (fs_other (ss_fs ss)) (fs_denied (ss_fs ss)))
     (ss_events ss ++ part_events progress (length rs) 0 outs (take k rs)
      ++ progress_event progress (length rs) k
      ++ [Printed ("Error during PDF splitting: " +:+ py_str_exc e)%string])).
Proof.
  intros Hr Ht Hpos Hpps Hrs Hk Ho Hw Hf.
  rewrite (split_pdf_loaded self r pps outs progress ss rs Hr Hrs).
  rewrite (split_loop_fail r progress (length rs) outs 0 rs ss k e);
    [simpl; by rewrite drop_0, <- !app_assoc | by eapply ranges_in_document | done | done
    | by rewrite drop_0 | done].
Qed.

(** C35 (functional). A successful [split_pdf] makes visible, for each
    part [i = 1..n] in order, the callback call [(i, n, "Creating part i")]
    when there is a callback, then the line
    ["Created: <file> (pages a-b)"] of the file and range of that part. *)
Theorem split_pdf_events self r pps outs progress ss rs :
  reader self = Some r ->
  total_pages self = length (reader_pages r) -> (0 < total_pages self)%nat ->
  0 < pps -> Partition._get_page_ranges (total_pages self) pps = POk rs ->
  (length rs <= length outs)%nat -> Forall (writable (ss_fs ss)) outs ->
  exists ss', split_pdf self pps outs progress ss = (true, ss') /\
    ss_events ss' = ss_events ss ++
      concat (imap (fun k '(o, r) =>
                      (if progress
                       then [Progress (S k) (length rs) ("Creating part " +:+ py_str_nat (S k))%string]
                       else [])
                      ++ [Printed ("Created: " +:+ path_str o +:+ " (pages " +:+ py_str_int r.1
                                   +:+ "-" +:+ py_str_int r.2 +:+ ")")%string])
                   (zip outs rs)).
Proof.
  intros Hr Ht Hpos Hpps Hrs Hlen Hw.
  rewrite (split_pdf_loaded self r pps outs progress ss rs Hr Hrs).
  rewrite split_loop_ok; [| by eapply ranges_in_document | simpl; lia | done].
  eexists; split; [done|]. simpl. rewrite drop_0. f_equal.
  apply part_events_imap.
Qed.

(** ** What a split may change *)

(** Only the paths of [outs] are written; the other entries and the denied
    paths stay. *)
Definition written_only (outs : list path) (s s' : fs Page) : Prop :=
  fs_other s' = fs_other s /\ fs_denied s' = fs_denied s /\
  forall p, p ∉ outs -> fs_files s' !! p = fs_files s !! p.

Lemma written_only_trans outs s1 s2 s3 :
  written_only outs s1 s2 -> written_only outs s2 s3 -> written_only outs s1 s3.
Proof.
  intros (Ho & Hd & Hf) (Ho' & Hd' & Hf'). split_and!; [congruence|congruence|].
  intros p Hp. by rewrite Hf', Hf.
Qed.

(** A relation between filesystems that every successful write of the loop
    respects, the loop and [split_pdf] respect as well, whatever happens:
    the frame of an iteration that raises is the state it started from. *)
Section Respects.
Context (outs : list path) (R : fs Page -> fs Page -> Prop) `{!PreOrder R}.
Hypothesis write_respects :
  forall s p pages s', p ∈ outs -> fs_write_pdf s p pages = POk s' -> R s s'.

Lemma split_loop_respects r progress n i rs ss :
  R (ss_fs ss) (ss_fs (split_loop r progress n outs i rs ss).2).
Proof.
  revert i ss; induction rs as [|[a b] rs IH]; intros i ss; [done|].
  cbn [split_loop]. unfold st_bind, st_lift. rewrite emit_progress_run.
  destruct (collect_pages r a b) as [pages|e]; simpl; [|done].
  rewrite py_getitem_nat. destruct (outs !! i) as [o|] eqn:Ho; simpl; [|done].
  unfold write_pdf. simpl. destruct (fs_write_pdf (ss_fs ss) o pages) as [s'|e] eqn:Ew;
    simpl; [|done].
  etrans; [|apply IH]. simpl.
  eapply write_respects; [|done]. by eapply list_elem_of_lookup_2.
Qed.

Lemma split_pdf_respects self pps progress ss :
  R (ss_fs ss) (ss_fs (split_pdf self pps outs progress ss).2).
Proof.
  unfold split_pdf. destruct (reader self) as [r|]; [|simpl; reflexivity].
  unfold st_bind at 1, st_lift.
  destruct (Partition._get_page_ranges (total_pages self) pps) as [rs|e];
    [|done].
  pose proof (split_loop_respects r progress (length rs) 0 rs ss).
  by destruct (split_loop r progress (length rs) outs 0 rs ss) as [[] ?].
Qed.
End Respects.

#[export] Instance written_only_preorder outs : PreOrder (written_only outs).
Proof.
  split; [by intros s; split_and! | intros s1 s2 s3; apply written_only_trans].
Qed.

(** The split writes only to the files of [output_files]. *)
Lemma split_pdf_written_only self pps outs progress ss :
  written_only outs (ss_fs ss) (ss_fs (split_pdf self pps outs progress ss).2).
Proof.
  apply split_pdf_respects; [apply _|]. intros s p pages s' Hp Ew.
  apply fs_write_pdf_ok in Ew as (Hf & Ho & Hd).
  split_and!; [done|done|]. intros q Hq. rewrite Hf, lookup_insert_ne; [done|].
  by intros ->.
Qed.

(** A successful split: every range written to its file, in order. *)
Lemma split_pdf_success self r pps outs progress ss rs :
  reader self = Some r ->
  total_pages self = length (reader_pages r) -> (0 < total_pages self)%nat ->
  0 < pps -> Partition._get_page_ranges (total_pages self) pps = POk rs ->
  (length rs <= length outs)%nat -> Forall (writable (ss_fs ss)) outs ->
  split_pdf self pps outs progress ss =
  (true, mk_split_state
     (mk_fs (write_all (fs_files (ss_fs ss))
               (zip outs (map (page_chunk (reader_pages r)) rs)))
            (fs_other (ss_fs ss)) (fs_denied (ss_fs ss)))
     (ss_events ss ++ part_events progress (length rs) 0 outs rs)).
Proof.
  intros Hr Ht Hpos Hpps Hrs Hlen Hw.
  rewrite (split_pdf_loaded self r pps outs progress ss rs Hr Hrs).
  rewrite split_loop_ok; [by rewrite drop_0 | by eapply ranges_in_document
    | simpl; lia | done].
Qed.

(** Reading back the files of a write sequence with distinct paths. *)
Lemma read_back_write_all files other denied outs chunks :
  length outs = length chunks -> NoDup outs ->
  mapM (read_pdf_pages (mk_fs (write_all files (zip outs chunks)) other denied)) outs
  = Some chunks.
Proof.
  intros Hlen Hnd. apply mapM_Some, Forall2_same_length_lookup.
  split; [done|]. intros i o c Ho Hc.
  apply read_pdf_pages_write_all.
  - by rewrite fst_zip by lia.
  - apply list_elem_of_lookup_2 with i. by rewrite lookup_zip_with, Ho, Hc.
Qed.

(** A range inside the document has [end - start + 1] pages. *)
Lemma page_chunk_length (pages : list Page) a b :
  1 <= a <= b -> b <= Z.of_nat (length pages) ->
  Z.of_nat (length (page_chunk pages (a, b))) = b - a + 1.
Proof. intros Hab Hb. unfold page_chunk. simpl. rewrite length_take, length_drop. lia. Qed.

(** The lines of a preview: seven header lines, one line per range, the
    footer. *)
Lemma preview_split_loaded self r pps rs :
  reader self = Some r -> 0 < pps ->
  Partition._get_page_ranges (total_pages self) pps = POk rs ->
  exists hdr, preview_split self pps =
    POk (hdr ++ imap preview_part_line rs ++ ["--- End Preview ---" +:+ nl]%string)%list /\
    length hdr = 7%nat /\
    hdr !! 4%nat = Some ("Number of output files: " +:+
                         py_str_int ((Z.of_nat (total_pages self) + pps - 1) / pps))%string.
Proof.
  intros Hr Hpps Hrs. unfold preview_split. rewrite Hr.
  rewrite (Partition.calculate_split_info_ok _ _ rs Hpps Hrs).
  eexists [_; _; _; _; _; _; _]. split_and!; reflexivity.
Qed.

(** [preview_split] of a loaded document with a positive
    [pages_per_split] raises nothing. *)
Lemma preview_split_ok self r pps :
  reader self = Some r -> 0 < pps -> exists lines, preview_split self pps = POk lines.
Proof.
  intros Hr Hpps.
  destruct (preview_split_loaded self r pps _ Hr Hpps
              (Partition.get_page_ranges_pos (total_pages self) pps Hpps))
    as (hdr & -> & _). by eexists.
Qed.

(** C8 (equivalence). The preview describes the split it announces: for a
    loaded document, a positive [pages_per_split] and one distinct writable
    output file per range, the preview's count of output files is the
    number of files [split_pdf] writes, and its line for part [i+1],
    ["Part NNN: pages a-b (k pages)"], names the range of the pages that
    [split_pdf] writes to the [i]-th file and the number [k] of pages that
    file then holds. *)
Theorem preview_split_describes_split self r pps outs progress ss rs :
  reader self = Some r ->
  total_pages self = length (reader_pages r) -> (0 < total_pages self)%nat ->
  0 < pps -> Partition._get_page_ranges (total_pages self) pps = POk rs ->
  length outs = length rs -> NoDup outs -> Forall (writable (ss_fs ss)) outs ->
  exists lines, preview_split self pps = POk lines /\
    lines !! 4%nat = Some ("Number of output files: " +:+ py_str_nat (length outs))%string /\
    forall i o a b, rs !! i = Some (a, b) -> outs !! i = Some o ->
      exists c, read_pdf_pages (ss_fs (split_pdf self pps outs progress ss).2) o = Some c /\
        c = page_chunk (reader_pages r) (a, b) /\
        lines !! (7 + i)%nat =
          Some ("  Part " +:+ py_format_0d 3 (Z.of_nat (S i)) +:+ ": pages "
                +:+ py_str_int a +:+ "-" +:+ py_str_int b
                +:+ " (" +:+ py_str_nat (length c) +:+ " pages)")%string.
Proof.
  intros Hr Ht Hpos Hpps Hrs Hlen Hnd Hw.
  destruct (preview_split_loaded self r pps rs Hr Hpps Hrs) as (hdr & -> & Hh & H4).
  eexists; split; [done|]. split.
  { rewrite lookup_app_l by lia. rewrite H4, Hlen, <- py_str_int_nat.
    by rewrite (Partition.get_page_ranges_length _ _ rs Hpps Hrs). }
  intros i o a b Hi Ho.
  pose proof (ranges_in_document self r pps rs Ht Hpos Hpps Hrs) as Hin.
  destruct (Forall_lookup_1 _ _ _ _ Hin Hi) as [Hab Hb]. simpl in *.
  rewrite (split_pdf_success self r pps outs progress ss rs Hr Ht Hpos Hpps Hrs)
    by (done || lia). simpl.
  eexists; split_and!; [|done|].
  - apply read_pdf_pages_write_all.
    + by rewrite fst_zip by (rewrite length_map; lia).
    + apply list_elem_of_lookup_2 with i.
      by rewrite lookup_zip_with, Ho, list_lookup_fmap, Hi.
  - rewrite lookup_app_r by lia. rewrite Hh. replace (_ - 7)%nat with i by lia.
    pose proof (lookup_lt_Some _ _ _ Hi) as Hlt.
    rewrite lookup_app_l by (rewrite length_imap; lia).
    rewrite list_lookup_imap, Hi. simpl. unfold preview_part_line. simpl.
    by rewrite <- py_str_int_nat, page_chunk_length.
Qed.

(** C36 (functional). [extract_page_range] on a loaded document, a range
    [1 <= start <= end <= total_pages] and a writable file returns [True],
    writes exactly the [end - start + 1] pages [start..end] and prints
    ["Extracted pages start-end to: file"]. *)
Theorem extract_page_range_writes self r a b o s :
  reader self = Some r -> total_pages self = length (reader_pages r) ->
  1 <= a <= b -> b <= Z.of_nat (total_pages self) -> writable s o ->
  extract_page_range self a b o s =
    (true, mk_fs (<[o := PdfFile (page_chunk (reader_pages r) (a, b)) false]>
                    (fs_files s)) (fs_other s) (fs_denied s),
     ["Extracted pages " +:+ py_str_int a +:+ "-" +:+ py_str_int b +:+ " to: "
      +:+ path_str o]%string) /\
  Z.of_nat (length (page_chunk (reader_pages r) (a, b))) = b - a + 1.
Proof.
  intros Hr Ht Hab Hb [Hd Ho]. split.
  - unfold extract_page_range. rewrite Hr.
    destruct (Z.ltb_spec a 1), (Z.ltb_spec (Z.of_nat (total_pages self)) b),
      (Z.ltb_spec b a); try lia. simpl.
    rewrite collect_pages_ok by lia. by rewrite fs_write_pdf_allowed.
  - apply page_chunk_length; lia.
Qed.

(** C37 (error). [extract_page_range] writes nothing and returns [False]
    when no document is loaded or the range is not within
    [1..total_pages] in increasing order, and prints why. *)
Theorem extract_page_range_rejects self a b o s :
  reader self = None \/ a < 1 \/ Z.of_nat (total_pages self) < b \/ b < a ->
  extract_page_range self a b o s =
    (false, s, [if bool_decide (reader self = None) then not_loaded
                else ("Error: Invalid page range " +:+ py_str_int a +:+ "-"
                      +:+ py_str_int b)%string]).
Proof.
  intros Hbad. unfold extract_page_range.
  destruct (reader self) as [r|]; [|done]. rewrite bool_decide_eq_false_2 by done.
  destruct (Z.ltb_spec a 1), (Z.ltb_spec (Z.of_nat (total_pages self)) b),
    (Z.ltb_spec b a); simpl; try done.
  destruct Hbad as [Hbad|Hbad]; [discriminate | lia].
Qed.

(** The consistency of a [PDFSplitter]: [total_pages == len(reader.pages)],
    and [0] before a document is loaded. *)
Definition splitter_inv (self : PDFSplitter) : Prop :=
  match reader self with
  | None => total_pages self = 0%nat
  | Some r => total_pages self = length (reader_pages r)
  end.

(** C38 (invariant). [__init__] establishes [splitter_inv] and [load_pdf]
    preserves it, whether it succeeds or fails. *)
Theorem load_pdf_preserves_inv (s : fs Page) input self :
  splitter_inv (init input) /\
  (splitter_inv self -> splitter_inv (load_pdf s self).1.2).
Proof.
  split; [done|]. intros Hinv. unfold load_pdf.
  destruct (open_reader s (input_file self)) as [r|e]; [|done].
  simpl. by case_match.
Qed.

(** What a successful [load_pdf] read. *)
Lemma load_pdf_loaded (s : fs Page) self self' msgs :
  load_pdf s self = (true, self', msgs) ->
  exists pages enc,
    (input_file self ∉ fs_other s) /\
    fs_files s !! input_file self = Some (PdfFile pages enc) /\ pages <> [] /\
    self' = mk_pdf_splitter (input_file self) (Some (mk_reader pages enc))
                            (length pages) /\
    msgs = ["Successfully loaded PDF: " +:+ py_str_nat (length pages) +:+ " pages"]%string.
Proof.
  unfold load_pdf, open_reader.
  case_bool_decide as Hin; [discriminate|].
  destruct (fs_files s !! input_file self) as [[pages enc|]|] eqn:E; try discriminate.
  destruct pages as [|p ps]; simpl; [discriminate|]. intros [= <- <-]. by do 2 eexists.
Qed.

(** C26 (functional). [load_pdf] succeeds exactly when the input file is a
    PDF with at least one page; the splitter then holds its pages and the
    line printed is ["Successfully loaded PDF: n pages"]. *)
Theorem load_pdf_ok (s : fs Page) self self' msgs :
  load_pdf s self = (true, self', msgs) <->
  exists pages enc,
    (input_file self ∉ fs_other s) /\
    fs_files s !! input_file self = Some (PdfFile pages enc) /\ pages <> [] /\
    self' = mk_pdf_splitter (input_file self) (Some (mk_reader pages enc))
                            (length pages) /\
    msgs = ["Successfully loaded PDF: " +:+ py_str_nat (length pages) +:+ " pages"]%string.
Proof.
  split; [apply load_pdf_loaded|].
  intros (pages & enc & Ho & Hf & Hne & -> & ->). unfold load_pdf, open_reader.
  rewrite bool_decide_eq_false_2 by done. rewrite Hf. simpl.
  by destruct (Nat.eqb_spec (length pages) 0) as [Hz|]; [apply nil_length_inv in Hz|].
Qed.

End Splitter.

Arguments PdfReader : clear implicits.
Arguments PDFSplitter : clear implicits.
Arguments split_state : clear implicits.

(** ** Concrete runs *)

#[local] Existing Instance sample_exc_text.

(** A loaded five-page document and three output files. *)
Definition demo_splitter : PDFSplitter nat :=
  mk_pdf_splitter (mk_path "in" "doc.pdf")
    (Some (mk_reader [10; 11; 12; 13; 14]%nat false)) 5.

Definition demo_outs : list path :=
  [mk_path "out" "doc_part_001.pdf"; mk_path "out" "doc_part_002.pdf";
   mk_path "out" "doc_part_003.pdf"].

Definition demo_state (denied : gset path) : split_state nat :=
  mk_split_state (mk_fs ∅ ∅ denied) [].

Example split_pdf_roundtrip_witness :
  exists ss', split_pdf demo_splitter 2 demo_outs false (demo_state ∅) = (true, ss') /\
    exists parts, mapM (read_pdf_pages (ss_fs ss')) demo_outs = Some parts /\
                  concat parts = [10; 11; 12; 13; 14]%nat.
Proof.
  apply (split_pdf_roundtrip demo_splitter (mk_reader [10; 11; 12; 13; 14]%nat false)
           2 demo_outs false (demo_state ∅)
           [(1, 2); (3, 4); (5, 5)]);
    [reflexivity | reflexivity | vm_compute; lia | lia | reflexivity | reflexivity
    | by apply (bool_decide_unpack _); vm_compute
    | by apply (bool_decide_unpack _); vm_compute].
Defined.

Example split_pdf_stops_at_first_failure_witness :
  split_pdf demo_splitter 2 demo_outs true
    (demo_state {[mk_path "out" "doc_part_002.pdf"]}) =
  (false, mk_split_state
     (mk_fs (<[mk_path "out" "doc_part_001.pdf" := PdfFile [10; 11]%nat false]> ∅)
            ∅ {[mk_path "out" "doc_part_002.pdf"]})
     [Progress 1 3 "Creating part 1"; Printed "Created: out/doc_part_001.pdf (pages 1-2)";
      Progress 2 3 "Creating part 2";
      Printed "Error during PDF splitting: [Errno 13] Permission denied: 'out/doc_part_002.pdf'"]%string).
Proof.
  rewrite (split_pdf_stops_at_first_failure demo_splitter
             (mk_reader [10; 11; 12; 13; 14]%nat false) 2 demo_outs true _
             [(1, 2); (3, 4); (5, 5)] 1
             (os_error 13 "Permission denied" (mk_path "out" "doc_part_002.pdf")));
    [| reflexivity | reflexivity | vm_compute; lia | lia | reflexivity | simpl; lia | simpl; lia
     | by apply (bool_decide_unpack _); vm_compute | vm_compute; reflexivity].
  vm_compute. reflexivity.
Defined.

Example extract_page_range_writes_witness :
  extract_page_range demo_splitter 2 4 (mk_path "out" "x.pdf") (mk_fs ∅ ∅ ∅) =
    (true, mk_fs (<[mk_path "out" "x.pdf" := PdfFile (page_chunk [10; 11; 12; 13; 14]%nat (2, 4)) false]> ∅) ∅ ∅,
     ["Extracted pages " +:+ py_str_int 2 +:+ "-" +:+ py_str_int 4 +:+ " to: "
      +:+ path_str (mk_path "out" "x.pdf")]%string) /\
  Z.of_nat (length (page_chunk [10; 11; 12; 13; 14]%nat (2, 4))) = 4 - 2 + 1.
Proof.
  apply (extract_page_range_writes demo_splitter (mk_reader [10; 11; 12; 13; 14]%nat false));
    [reflexivity | reflexivity | lia | simpl; lia
    | by apply (bool_decide_unpack _); vm_compute].
Defined.

Example extract_page_range_rejects_witness :
  extract_page_range demo_splitter 4 2 (mk_path "out" "x.pdf") (mk_fs ∅ ∅ ∅) =
  (false, mk_fs ∅ ∅ ∅,
   [if bool_decide (reader demo_splitter = None) then not_loaded
    else ("Error: Invalid page range " +:+ py_str_int 4 +:+ "-" +:+ py_str_int 2)%string]).
Proof. apply extract_page_range_rejects. right; right; right; lia. Defined.

Example load_pdf_preserves_inv_witness :
  splitter_inv (@init nat (mk_path "in" "doc.pdf")) /\
  (splitter_inv (@init nat (mk_path "in" "doc.pdf")) ->
   splitter_inv (load_pdf (mk_fs (<[mk_path "in" "doc.pdf" := PdfFile [1; 2]%nat false]> ∅) ∅ ∅)
                          (init (mk_path "in" "doc.pdf"))).1.2).
Proof. apply load_pdf_preserves_inv. Defined.

Example load_pdf_ok_witness :
  load_pdf (mk_fs (<[mk_path "in" "doc.pdf" := PdfFile [1; 2]%nat false]> ∅) ∅ ∅)
           (init (mk_path "in" "doc.pdf")) =
    (true, mk_pdf_splitter (mk_path "in" "doc.pdf") (Some (mk_reader [1; 2]%nat false)) 2,
     ["Successfully loaded PDF: 2 pages"]%string).
Proof.
  apply load_pdf_ok. exists [1; 2]%nat, false. split_and!; [set_solver | | done | done | done].
  vm_compute. reflexivity.
Defined.

Example split_pdf_events_witness :
  exists ss', split_pdf demo_splitter 2 demo_outs true (demo_state ∅) = (true, ss') /\
    ss_events ss' =
      [Progress 1 3 "Creating part 1"; Printed "Created: out/doc_part_001.pdf (pages 1-2)";
       Progress 2 3 "Creating part 2"; Printed "Created: out/doc_part_002.pdf (pages 3-4)";
       Progress 3 3 "Creating part 3"; Printed "Created: out/doc_part_003.pdf (pages 5-5)"]%string.
Proof.
  destruct (split_pdf_events demo_splitter
              (mk_reader [10; 11; 12; 13; 14]%nat false) 2 demo_outs true (demo_state ∅)
              [(1, 2); (3, 4); (5, 5)]) as (ss' & E & Ev);
    [reflexivity | reflexivity | vm_compute; lia | lia | reflexivity | simpl; lia
    | by apply (bool_decide_unpack _); vm_compute |].
  exists ss'. split; [done|]. rewrite Ev. vm_compute. reflexivity.
Defined.

Example preview_split_describes_split_witness :
  exists lines, preview_split demo_splitter 2 = POk lines /\
    lines !! 4%nat = Some ("Number of output files: " +:+ py_str_nat (length demo_outs))%string /\
    forall i o a b, [(1, 2); (3, 4); (5, 5)] !! i = Some (a, b) -> demo_outs !! i = Some o ->
      exists c, read_pdf_pages
                  (ss_fs (split_pdf demo_splitter 2 demo_outs false (demo_state ∅)).2) o = Some c /\
        c = page_chunk [10; 11; 12; 13; 14]%nat (a, b) /\
        lines !! (7 + i)%nat =
          Some ("  Part " +:+ py_format_0d 3 (Z.of_nat (S i)) +:+ ": pages "
                +:+ py_str_int a +:+ "-" +:+ py_str_int b
                +:+ " (" +:+ py_str_nat (length c) +:+ " pages)")%string.
Proof.
  apply (preview_split_describes_split demo_splitter
           (mk_reader [10; 11; 12; 13; 14]%nat false) 2 demo_outs false (demo_state ∅)
           [(1, 2); (3, 4); (5, 5)]);
    [reflexivity | reflexivity | vm_compute; lia | lia | reflexivity | reflexivity
    | by apply (bool_decide_unpack _); vm_compute
    | by apply (bool_decide_unpack _); vm_compute].
Defined.

End PDFSplitter.
