(* ===== verification/Printer.v ===== *)
(** * Printer: sending the parts to a printer (src/printer_manager.py)

    Module [PrinterManager] models [print_file], its three platform back
    ends [_print_windows], [_print_mac], [_print_linux], and
    [print_multiple_files].  The operating system is the interface
    [PrintOS] (the spec's PrintService capability): whether the [win32]
    modules import, the outcome of [subprocess.run(cmd, check=True)], of
    [win32print.SetDefaultPrinter] and of [win32api.ShellExecute].  Every
    call the code makes to it is appended to a log, so the order of the
    print jobs is part of the state ([io_state]), as are, in order, the
    calls of the progress callback and the lines the code prints
    ([io_print]; ["✓ Printed: ..."] or ["✗ Failed: ..."] per file).  An
    exception of a back end that is not caught there
    reaches the [except Exception] of [print_file].  [get_system_type] and
    the table of [get_print_options_help] are here too. *)

From S2P Require Import Prelude PyLib Storage.

Local Open Scope string_scope.

Module PrinterManager.

(** ** The operating system *)

(** The outcome of [subprocess.run(cmd, capture_output=True, text=True,
    check=True)]: its output, a [CalledProcessError] (non-zero exit), or
    another exception (the program is missing), with its message. *)
Inductive run_result :=
  | RunOk (stdout : string)
  | RunFailed (err : string)
  | RunOSError (err : string).

Class PrintOS := {
  os_win32 : bool;                          (** [import win32api, win32print] *)
  os_run : list string -> run_result;       (** [subprocess.run(cmd, check=True)] *)
  os_set_default : string -> option string; (** [SetDefaultPrinter]: an error message *)
  os_shell_print : string -> option string; (** [ShellExecute(0, "print", f, ...)] *)
  os_enum_printers : pyres (list string);   (** names of [EnumPrinters(...)] *)
  os_get_default : pyres string             (** [GetDefaultPrinter()] *)
}.

(** The calls made to the operating system. *)
Inductive os_call :=
  | CallRun (cmd : list string)
  | CallSetDefault (printer : string)
  | CallShellPrint (file : string).

(** The log of calls, and what the code makes visible in order: its
    [print] lines and the calls of the progress callback. *)
Record io_state := mk_io_state {
  io_calls : list os_call;
  io_events : list out_event
}.

Definition log_call (c : os_call) (st : io_state) : io_state :=
  mk_io_state (io_calls st ++ [c]) (io_events st).

(** [print(line)]. *)
Definition io_print (line : string) : pyst io_state unit :=
  fun st => (POk tt, mk_io_state (io_calls st) (io_events st ++ [Printed line])).

(** [try: c except Exception as e: h(e)], the handler with effects. *)
Definition st_try {S A} (c : pyst S A) (h : PyExc -> pyst S A) : pyst S A :=
  fun s => match c s with
           | (PErr e, s') => h e s'
           | ok => ok
           end.

(** The marks of the result lines, [U+2713] and [U+2717] in UTF-8. *)
Definition check_mark : string :=
  String "226"%char (String "156"%char (String "147"%char EmptyString)).
Definition cross_mark : string :=
  String "226"%char (String "156"%char (String "151"%char EmptyString)).

Section Printing.
Context `{PrintOS}.

Definition run_cmd (cmd : list string) : pyst io_state run_result :=
  fun st => (POk (os_run cmd), log_call (CallRun cmd) st).

Definition set_default_printer (p : string) : pyst io_state unit :=
  fun st => (match os_set_default p with
             | None => POk tt | Some e => PErr (OtherError e) end,
             log_call (CallSetDefault p) st).

Definition shell_print (f : string) : pyst io_state unit :=
  fun st => (match os_shell_print f with
             | None => POk tt | Some e => PErr (OtherError e) end,
             log_call (CallShellPrint f) st).

(** [except Exception as e: return False, f"Print error: {e}"]. *)
Definition st_catch {S A} (c : pyst S A) (h : PyExc -> A) : pyst S A :=
  fun s => match c s with
           | (PErr e, s') => (POk (h e), s')
           | ok => ok
           end.

(** [str(e)] of the exceptions the back ends let through. *)
Definition exc_message (e : PyExc) : string :=
  match e with OtherError m => m | _ => "" end.

(** ** The code *)

(** The attributes of a [PrinterManager]. *)
Record PrinterManager := mk_printer_manager {
  system : string;
  available_printers : list string;
  default_printer : option string
}.

(** [PrinterManager.__init__()]: [platform.system()]. *)
Definition init (platform_system : string) : PrinterManager :=
  mk_printer_manager platform_system [] None.

(** [get_system_type(self)]. *)
Definition get_system_type (self : PrinterManager) : string := system self.

(** [get_print_options_help(self)]: the table, in its order. *)
Definition get_print_options_help (self : PrinterManager) : py_dict string string :=
  [("sides", "one-sided, two-sided-long-edge, two-sided-short-edge");
   ("media", "a4, letter, legal, etc.");
   ("orientation", "portrait, landscape");
   ("quality", "draft, normal, high");
   ("copies", "number of copies (1, 2, 3, etc.)");
   ("page-ranges", "1-5, 1,3,5, etc.");
   ("finishings", "staple-top-left, staple-top-right, staple-bottom-left, staple-bottom-right, staple-dual-left, staple-dual-top, staple-none")].

(** [if printer_name:] *)
Definition truthy (o : option string) : option string :=
  match o with Some p => if String.eqb p "" then None else Some p | None => None end.

(** [printer_name or 'default'] *)
Definition printer_or_default (o : option string) : string :=
  match truthy o with Some p => p | None => "default" end.

(** [cmd] of [_print_mac] and [_print_linux]. *)
Definition lpr_command (file_path : path) (printer_name : option string)
    (print_options : py_dict string string) : list string :=
  ["lpr"] ++
  (match truthy printer_name with Some p => ["-P"; p] | None => [] end) ++
  concat (map (fun kv => ["-o"; kv.1 +:+ "=" +:+ kv.2]) print_options) ++
  [path_str file_path].

(** [_print_windows(self, file_path, printer_name, print_options)]. *)
Definition _print_windows (file_path : path) (printer_name : option string)
    (print_options : py_dict string string) : pyst io_state (bool * string) :=
  if os_win32 then
    (_ <- (match truthy printer_name with
           | Some p => set_default_printer p
           | None => st_ret tt
           end) ;;
     _ <- shell_print (path_str file_path) ;;
     st_ret (true, "Sent to printer: " +:+ printer_or_default printer_name))%pyst
  else
    (r <- run_cmd ["powershell"; "-Command";
                   "Start-Process -FilePath '" +:+ path_str file_path
                   +:+ "' -Verb Print"] ;;
     match r with
     | RunOk _ => st_ret (true, "Sent to printer via PowerShell")
     | RunFailed e => st_ret (false, "PowerShell print failed: " +:+ e)
     | RunOSError e => st_lift (PErr (OtherError e))
     end)%pyst.

(** [_print_mac(self, file_path, printer_name, print_options)]. *)
Definition _print_mac (file_path : path) (printer_name : option string)
    (print_options : py_dict string string) : pyst io_state (bool * string) :=
  (r <- run_cmd (lpr_command file_path printer_name print_options) ;;
   match r with
   | RunOk _ => st_ret (true, "Sent to printer: " +:+ printer_or_default printer_name)
   | RunFailed e => st_ret (false, "Mac print failed: " +:+ e)
   | RunOSError e => st_lift (PErr (OtherError e))
   end)%pyst.

(** [_print_linux(self, file_path, printer_name, print_options)]. *)
Definition _print_linux (file_path : path) (printer_name : option string)
    (print_options : py_dict string string) : pyst io_state (bool * string) :=
  (r <- run_cmd (lpr_command file_path printer_name print_options) ;;
   match r with
   | RunOk _ => st_ret (true, "Sent to printer: " +:+ printer_or_default printer_name)
   | RunFailed e => st_ret (false, "Linux print failed: " +:+ e)
   | RunOSError e => st_lift (PErr (OtherError e))
   end)%pyst.

(** [print_file(self, file_path, printer_name=None, print_options=None)]. *)
Definition print_file {Page} (self : PrinterManager) (s : fs Page)
    (file_path : path) (printer_name : option string)
    (print_options : py_dict string string) : pyst io_state (bool * string) :=
  if negb (fs_exists s file_path) then
    st_ret (false, "File not found: " +:+ path_str file_path)
  else if negb (String.eqb (py_lower (path_suffix file_path)) ".pdf") then
    st_ret (false, "Only PDF files are supported for printing")
  else
    st_catch
      (if String.eqb (system self) "Windows" then
         _print_windows file_path printer_name print_options
       else if String.eqb (system self) "Darwin" then
         _print_mac file_path printer_name print_options
       else if String.eqb (system self) "Linux" then
         _print_linux file_path printer_name print_options
       else st_ret (false, "Printing not supported on " +:+ system self))
      (fun e => (false, "Print error: " +:+ exc_message e)).

(** [print(f"✓ Printed: {file_path.name}")] or
    [print(f"✗ Failed: {file_path.name} - {message}")]. *)
Definition print_outcome_line (file_path : path) (outcome : bool * string) : string :=
  if outcome.1 then check_mark +:+ " Printed: " +:+ path_name file_path
  else cross_mark +:+ " Failed: " +:+ path_name file_path +:+ " - " +:+ outcome.2.

(** [if progress_callback: progress_callback(i + 1, len(file_paths), msg)]. *)
Definition io_progress (progress : bool) (cur tot : nat) (msg : string)
    : pyst io_state unit :=
  fun st => (POk tt, if progress
                     then mk_io_state (io_calls st) (io_events st ++ [Progress cur tot msg])
                     else st).

(** The body of [for i, file_path in enumerate(file_paths)]. *)
Fixpoint print_loop {Page} (self : PrinterManager) (s : fs Page)
    (printer_name : option string) (print_options : py_dict string string)
    (progress : bool) (n i : nat) (file_paths : list path)
    (results : py_dict string (bool * string))
    : pyst io_state (py_dict string (bool * string)) :=
  match file_paths with
  | [] => st_ret results
  | file_path :: rest =>
      (_ <- io_progress progress (S i) n ("Printing " +:+ path_name file_path) ;;
       outcome <- print_file self s file_path printer_name print_options ;;
       let results := py_dict_set results (path_str file_path) outcome in
       _ <- io_print (print_outcome_line file_path outcome) ;;
       print_loop self s printer_name print_options progress n (S i) rest results)%pyst
  end.

(** [print_multiple_files(self, file_paths, printer_name, print_options,
    progress_callback)]. *)
Definition print_multiple_files {Page} (self : PrinterManager) (s : fs Page)
    (file_paths : list path) (printer_name : option string)
    (print_options : py_dict string string) (progress : bool)
    : pyst io_state (py_dict string (bool * string)) :=
  print_loop self s printer_name print_options progress (length file_paths) 0
             file_paths [].

(** ** Computations that only append to the log *)

Definition io_empty : io_state := mk_io_state [] [].

(** [c] reads nothing of the state: run from any state, it returns what it
    returns from the empty state and appends the same calls and events. *)
Definition frame {A} (c : pyst io_state A) : Prop :=
  forall st, c st = ((c io_empty).1,
                     mk_io_state (io_calls st ++ io_calls (c io_empty).2)
                                 (io_events st ++ io_events (c io_empty).2)).

Lemma frame_ret {A} (a : A) : frame (st_ret a).
Proof. intros [cs ev]. unfold st_ret. simpl. by rewrite !app_nil_r. Qed.

Lemma frame_lift {A} (r : pyres A) : frame (st_lift r).
Proof. intros [cs ev]. unfold st_lift. simpl. by rewrite !app_nil_r. Qed.

Lemma frame_run cmd : frame (run_cmd cmd).
Proof. intros [cs ev]. simpl. by rewrite app_nil_r. Qed.

Lemma frame_set_default p : frame (set_default_printer p).
Proof. intros [cs ev]. simpl. by rewrite app_nil_r. Qed.

Lemma frame_shell_print f : frame (shell_print f).
Proof. intros [cs ev]. simpl. by rewrite app_nil_r. Qed.

Lemma frame_print line : frame (io_print line).
Proof. intros [cs ev]. simpl. by rewrite app_nil_r. Qed.

Lemma frame_bind {A B} (c : pyst io_state A) (k : A -> pyst io_state B) :
  frame c -> (forall a, frame (k a)) -> frame (st_bind c k).
Proof.
  intros Hc Hk st. unfold st_bind. rewrite (Hc st), (Hc io_empty).
  destruct (c io_empty) as [[a|e] [cs ev]]; simpl; [|done].
  rewrite (Hk a), (Hk a (mk_io_state cs ev)). simpl.
  by rewrite !app_assoc.
Qed.

Lemma frame_catch {A} (c : pyst io_state A) h : frame c -> frame (st_catch c h).
Proof.
  intros Hc st. unfold st_catch. rewrite (Hc st).
  by destruct (c io_empty) as [[a|e] [cs ev]].
Qed.

Lemma frame_try {A} (c : pyst io_state A) h :
  frame c -> (forall e, frame (h e)) -> frame (st_try c h).
Proof.
  intros Hc Hh st. unfold st_try. rewrite (Hc st), (Hc io_empty).
  destruct (c io_empty) as [[a|e] [cs ev]]; simpl; [done|].
  rewrite (Hh e), (Hh e (mk_io_state cs ev)). simpl. by rewrite !app_assoc.
Qed.

#[local] Hint Resolve frame_ret frame_lift frame_run frame_set_default
  frame_shell_print frame_print frame_bind frame_catch frame_try : s2p.

Ltac solve_frame :=
  repeat (intros; first
    [ apply frame_bind | apply frame_catch | progress (case_match)
    | eauto with s2p ]).

Lemma frame_print_windows f pn po : frame (_print_windows f pn po).
Proof. unfold _print_windows. solve_frame. Qed.

Lemma frame_print_mac f pn po : frame (_print_mac f pn po).
Proof. unfold _print_mac. solve_frame. Qed.

Lemma frame_print_linux f pn po : frame (_print_linux f pn po).
Proof. unfold _print_linux. solve_frame. Qed.

Lemma frame_print_file {Page} self (s : fs Page) f pn po :
  frame (print_file self s f pn po).
Proof.
  unfold print_file. case_match; [apply frame_ret|]. case_match; [apply frame_ret|].
  apply frame_catch. repeat case_match;
    auto using frame_print_windows, frame_print_mac, frame_print_linux, frame_ret.
Qed.

(** [print_file] never raises: every exception is caught. *)
Lemma print_file_returns {Page} self (s : fs Page) f pn po st :
  exists r, (print_file self s f pn po st).1 = POk r.
Proof.
  unfold print_file, st_catch. repeat case_match; simplify_eq/=; by eexists.
Qed.

(** ** One file *)

(** What [print_file] returns and the calls it makes, from the empty log. *)
Definition file_outcome {Page} self (s : fs Page) f pn po : bool * string :=
  match (print_file self s f pn po io_empty).1 with
  | POk r => r
  | PErr _ => (false, "")
  end.

Definition file_calls {Page} self (s : fs Page) f pn po : list os_call :=
  io_calls (print_file self s f pn po io_empty).2.

(** [print_file] prints nothing: its messages are returned. *)
Lemma print_file_quiet {Page} self (s : fs Page) f pn po :
  io_events (print_file self s f pn po io_empty).2 = [].
Proof.
  unfold print_file, st_catch, _print_windows, _print_mac, _print_linux, st_bind,
    run_cmd, set_default_printer, shell_print, st_ret, st_lift.
  repeat case_match; simplify_eq/=; done.
Qed.

Lemma print_file_spec {Page} self (s : fs Page) f pn po st :
  print_file self s f pn po st =
  (POk (file_outcome self s f pn po),
   mk_io_state (io_calls st ++ file_calls self s f pn po) (io_events st)).
Proof.
  rewrite (frame_print_file self s f pn po st), print_file_quiet, app_nil_r.
  unfold file_outcome, file_calls.
  destruct (print_file_returns self s f pn po io_empty) as [r ->]. done.
Qed.

(** C27 (error). [print_file] of a missing file, or of a file whose suffix
    is not [.pdf] (in any case), returns [False] with its message and makes
    no call to the operating system. *)
Theorem print_file_rejects {Page} self (s : fs Page) f pn po st :
  (fs_exists s f = false ->
   print_file self s f pn po st =
   (POk (false, "File not found: " +:+ path_str f), st)) /\
  (fs_exists s f = true -> py_lower (path_suffix f) <> ".pdf" ->
   print_file self s f pn po st =
   (POk (false, "Only PDF files are supported for printing"), st)).
Proof.
  unfold print_file. split; intros He; rewrite He; [done|]. intros Hs. simpl.
  by destruct (String.eqb_spec (py_lower (path_suffix f)) ".pdf").
Qed.

(** C20 (functional). On Linux, [print_file] of an existing [.pdf] file
    runs exactly one command, [lpr [-P printer] (-o key=value)* file], and
    reports the outcome of that command: success, a failed command, or an
    exception caught by [print_file]. *)
Theorem print_file_linux {Page} self (s : fs Page) f pn po st :
  system self = "Linux" -> fs_exists s f = true ->
  py_lower (path_suffix f) = ".pdf" ->
  print_file self s f pn po st =
  (POk (match os_run (lpr_command f pn po) with
        | RunOk _ => (true, "Sent to printer: " +:+ printer_or_default pn)
        | RunFailed e => (false, "Linux print failed: " +:+ e)
        | RunOSError e => (false, "Print error: " +:+ e)
        end),
   log_call (CallRun (lpr_command f pn po)) st).
Proof.
  intros Hsys He Hpdf. unfold print_file. rewrite He, Hpdf, Hsys. simpl.
  unfold st_catch, _print_linux, st_bind, run_cmd.
  by destruct (os_run (lpr_command f pn po)).
Qed.

(** C28 (functional). On Windows with the [win32] modules, [print_file]
    with a printer name first makes it the system's default printer (a
    change that outlives the program) and then asks the shell to print; the
    print options are ignored. *)
Theorem print_file_windows {Page} self (s : fs Page) f p po st :
  system self = "Windows" -> os_win32 = true -> p <> "" ->
  fs_exists s f = true -> py_lower (path_suffix f) = ".pdf" ->
  os_set_default p = None -> os_shell_print (path_str f) = None ->
  print_file self s f (Some p) po st =
  (POk (true, "Sent to printer: " +:+ p),
   mk_io_state (io_calls st ++ [CallSetDefault p; CallShellPrint (path_str f)])
               (io_events st)).
Proof.
  intros Hsys Hw Hp He Hpdf Hd Hsh. unfold print_file. rewrite He, Hpdf, Hsys.
  simpl. unfold st_catch, _print_windows, truthy, printer_or_default, truthy.
  rewrite Hw. destruct (String.eqb_spec p "") as [|_]; [done|].
  unfold st_bind, set_default_printer, shell_print, log_call. simpl.
  rewrite Hd, Hsh. simpl. by rewrite <- app_assoc.
Qed.

(** ** The [lpr] command line *)

(** Reading an [lpr] command line back: [-P printer], the [-o key=value]
    options (split at the first [=]) and the file. *)
Fixpoint parse_lpr_options (args : list string)
    : option (py_dict string string * string) :=
  match args with
  | [f] => Some ([], f)
  | o :: kv :: rest =>
      if String.eqb o "-o" then
        match split_first "="%char kv, parse_lpr_options rest with
        | Some opt, Some (opts, f) => Some (opt :: opts, f)
        | _, _ => None
        end
      else None
  | [] => None
  end.

Definition parse_lpr_args (args : list string)
    : option (option string * py_dict string string * string) :=
  match args with
  | prog :: [f] => if String.eqb prog "lpr" then Some (None, [], f) else None
  | prog :: flag :: p :: rest =>
      if String.eqb prog "lpr" then
        if String.eqb flag "-P" then
          match parse_lpr_options rest with
          | Some (opts, f) => Some (Some p, opts, f)
          | None => None
          end
        else
          match parse_lpr_options (flag :: p :: rest) with
          | Some (opts, f) => Some (None, opts, f)
          | None => None
          end
      else None
  | _ => None
  end.

Lemma parse_lpr_options_build (po : py_dict string string) f :
  Forall (fun kv => str_has "="%char kv.1 = false) po ->
  parse_lpr_options (concat (map (fun kv => ["-o"; kv.1 +:+ "=" +:+ kv.2]) po) ++ [f])
  = Some (po, f).
Proof.
  induction po as [|[k v] po IH]; intros Hpo; [done|].
  apply Forall_cons in Hpo as [Hk Hpo]. simpl in Hk. simpl.
  change ("=" +:+ v) with (String "="%char v).
  rewrite split_first_app by done. by rewrite IH.
Qed.

(** C21 (roundtrip). The command line of [_print_mac] and [_print_linux]
    can be read back into the printer, the options in their dictionary
    order and the file, when no option key contains [=] (as the keys the
    command line parser of [main] builds). *)
Theorem lpr_command_roundtrip f pn (po : py_dict string string) :
  Forall (fun kv => str_has "="%char kv.1 = false) po ->
  parse_lpr_args (lpr_command f pn po) = Some (truthy pn, po, path_str f).
Proof.
  intros Hpo. pose proof (parse_lpr_options_build po (path_str f) Hpo) as Hb.
  unfold lpr_command. destruct (truthy pn) as [p|]; simpl.
  - by rewrite Hb.
  - destruct po as [|[k v] po']; simpl in *; [done|]. by rewrite Hb.
Qed.

(** ** Many files *)

(** What the iterations for the files [i+1, i+2, ...] make visible: for
    each file the callback call, then the line of its outcome. *)
Fixpoint print_events {Page} self (s : fs Page) pn po (progress : bool) (n i : nat)
    (files : list path) : list out_event :=
  match files with
  | [] => []
  | f :: files' =>
      (if progress then [Progress (S i) n ("Printing " +:+ path_name f)] else [])
      ++ Printed (print_outcome_line f (file_outcome self s f pn po))
      :: print_events self s pn po progress n (S i) files'
  end.

Lemma print_loop_spec {Page} self (s : fs Page) pn po progress n i files results st :
  print_loop self s pn po progress n i files results st =
  (POk (foldl (fun d f => py_dict_set d (path_str f) (file_outcome self s f pn po))
              results files),
   mk_io_state (io_calls st ++ concat (map (fun f => file_calls self s f pn po) files))
               (io_events st ++ print_events self s pn po progress n i files)).
Proof.
  revert i results st; induction files as [|f files IH]; intros i results st.
  - unfold st_ret. destruct st; simpl; by rewrite !app_nil_r.
  - assert (Hp : io_progress progress (S i) n ("Printing " +:+ path_name f) st =
                 (POk tt, mk_io_state (io_calls st)
                   (io_events st ++ if progress then [Progress (S i) n ("Printing " +:+ path_name f)]
                                    else []))) by (destruct progress, st; simpl; by rewrite ?app_nil_r).
    cbn [print_loop]. unfold st_bind. rewrite Hp, print_file_spec.
    unfold io_print. rewrite IH. simpl.
    by rewrite <- !app_assoc.
Qed.

(** C19 (functional). [print_multiple_files] dispatches the files one at a
    time in input order, each exactly once and whatever the outcome of the
    earlier ones: the calls it makes are the calls of [print_file] for the
    first file, then for the second, ...; for each file the callback is
    called before it and the line of its outcome printed after it; and each
    file's outcome does not depend on the others. *)
Theorem print_multiple_files_dispatch {Page} self (s : fs Page) files pn po progress st :
  print_multiple_files self s files pn po progress st =
  (POk (foldl (fun d f => py_dict_set d (path_str f) (file_outcome self s f pn po))
              [] files),
   mk_io_state (io_calls st ++ concat (map (fun f => file_calls self s f pn po) files))
               (io_events st ++ print_events self s pn po progress (length files) 0 files)).
Proof. apply print_loop_spec. Qed.

(** Every file of the loop gets the line of its own outcome. *)
Lemma print_events_outcome {Page} self (s : fs Page) pn po progress n i files f :
  f ∈ files ->
  Printed (print_outcome_line f (file_outcome self s f pn po))
    ∈ print_events self s pn po progress n i files.
Proof.
  revert i; induction files as [|g files IH]; intros i Hf; [by apply not_elem_of_nil in Hf|].
  simpl. rewrite elem_of_app, elem_of_cons.
  apply elem_of_cons in Hf as [->|Hf]; [by right; left | by right; right; apply IH].
Qed.

Lemma foldl_dict_set_fresh {Page} self (s : fs Page) pn po files d :
  NoDup (path_str <$> files) -> Forall (fun f => path_str f ∉ d.*1) files ->
  foldl (fun d f => py_dict_set d (path_str f) (file_outcome self s f pn po)) d files =
  (d ++ map (fun f => (path_str f, file_outcome self s f pn po)) files)%list.
Proof.
  revert d; induction files as [|f files IH]; intros d Hnd Hf; simpl.
  - by rewrite app_nil_r.
  - apply NoDup_cons in Hnd as [Hn Hnd]. apply Forall_cons in Hf as [Hfd Hf].
    rewrite py_dict_set_new by done. rewrite IH; [by rewrite <- app_assoc | done |].
    apply Forall_forall. intros g Hg.
    pose proof (proj1 (Forall_forall _ _) Hf g Hg) as Hgd.
    assert (path_str g ∈ path_str <$> files) by (apply list_elem_of_fmap; eauto).
    rewrite fmap_app. simpl. set_solver.
Qed.

(** Counting the successful entries of one-entry-per-file results. *)
Lemma results_success_count {A} (files : list A) (key : A -> string) (o : A -> bool * string) :
  length (filter (fun r => r.2.1 = true) (map (fun f => (key f, o f)) files)) =
  length (filter (fun f => (o f).1 = true) files).
Proof.
  induction files as [|f files IH]; [done|]. simpl. rewrite !filter_cons. simpl.
  case_decide; simpl; by rewrite IH.
Qed.

(** When the files have distinct names ([str(path)]),
    [print_multiple_files] returns one entry per file, in input order,
    holding that file's outcome. *)
Theorem print_multiple_files_results {Page} self (s : fs Page) files pn po progress st :
  NoDup (path_str <$> files) ->
  (print_multiple_files self s files pn po progress st).1 =
  POk (map (fun f => (path_str f, file_outcome self s f pn po)) files).
Proof.
  intros Hnd. unfold print_multiple_files. rewrite print_loop_spec. simpl.
  rewrite foldl_dict_set_fresh; [done | done |]. apply Forall_forall. set_solver.
Qed.

End Printing.

(** ** Concrete runs *)

Definition demo_fs : fs nat :=
  mk_fs (<[mk_path "out" "doc_part_001.pdf" := PdfFile [1]%nat false]>
        (<[mk_path "out" "doc_part_002.pdf" := PdfFile [2]%nat false]>
        (<[mk_path "out" "notes.txt" := OtherFile]> ∅))) ∅ ∅.

(** Every command succeeds. *)
Definition demo_os : PrintOS := {|
  os_win32 := true;
  os_run := fun _ => RunOk "";
  os_set_default := fun _ => None;
  os_shell_print := fun _ => None;
  os_enum_printers := POk ["HP"];
  os_get_default := POk "HP"
|}.

Definition part1 : path := mk_path "out" "doc_part_001.pdf".
Definition part2 : path := mk_path "out" "doc_part_002.pdf".

Example print_file_rejects_witness :
  @print_file demo_os nat (init "Linux") demo_fs (mk_path "out" "notes.txt") None [] io_empty =
  (POk (false, "Only PDF files are supported for printing"), io_empty).
Proof.
  apply (proj2 (@print_file_rejects demo_os nat (init "Linux") demo_fs
                  (mk_path "out" "notes.txt") None [] io_empty));
    [vm_compute; reflexivity | vm_compute; discriminate].
Defined.

Example print_file_linux_witness :
  @print_file demo_os nat (init "Linux") demo_fs part1 (Some "HP") [("sides", "two-sided")]
    io_empty =
  (POk (true, "Sent to printer: HP"),
   log_call (CallRun ["lpr"; "-P"; "HP"; "-o"; "sides=two-sided"; "out/doc_part_001.pdf"])
            io_empty).
Proof.
  rewrite (@print_file_linux demo_os nat (init "Linux") demo_fs part1 (Some "HP")
             [("sides", "two-sided")] io_empty);
    [reflexivity | reflexivity | vm_compute; reflexivity | vm_compute; reflexivity].
Defined.

Example print_file_windows_witness :
  @print_file demo_os nat (init "Windows") demo_fs part1 (Some "HP") [("copies", "2")]
    io_empty =
  (POk (true, "Sent to printer: HP"),
   mk_io_state [CallSetDefault "HP"; CallShellPrint "out/doc_part_001.pdf"] []).
Proof.
  rewrite (@print_file_windows demo_os nat (init "Windows") demo_fs part1 "HP"
             [("copies", "2")] io_empty);
    [reflexivity | reflexivity | reflexivity | discriminate | vm_compute; reflexivity
    | vm_compute; reflexivity | reflexivity | reflexivity].
Defined.

Example lpr_command_roundtrip_witness :
  parse_lpr_args (lpr_command part1 (Some "HP") [("sides", "two-sided"); ("copies", "2")])
  = Some (Some "HP", [("sides", "two-sided"); ("copies", "2")], "out/doc_part_001.pdf").
Proof. apply lpr_command_roundtrip. by repeat constructor. Defined.

Example print_multiple_files_results_witness :
  (@print_multiple_files demo_os nat (init "Linux") demo_fs [part1; part2] None [] false
     io_empty).1 =
  POk (map (fun f => (path_str f, @file_outcome demo_os nat (init "Linux") demo_fs f None []))
           [part1; part2]).
Proof.
  apply print_multiple_files_results. by apply (bool_decide_unpack _); vm_compute.
Defined.

End PrinterManager.
