(* ===== verification/Discovery.v ===== *)
(** * Discovery: the printers of the system (src/printer_manager.py)

    Module [Discovery] models the queries of [PrinterManager]:
    [list_printers] with its back ends [_list_windows_printers],
    [_list_mac_printers] and [_list_linux_printers], [get_default_printer]
    with [_get_windows_default_printer] and [_get_unix_default_printer], and
    [check_printer_status].  They run commands ([lpstat -p], [lpstat -d],
    PowerShell) through the [PrintOS] interface of [Printer], so every query
    is in the call log, and parse the text the command prints with the
    string functions of [PyLib]; the errors they catch are printed, as
    events of the log.  The theorems show what the parsers recover from
    well-formed [lpstat] output and which failures are caught where and
    with which message. *)

From S2P Require Import Prelude PyLib Storage Printer.
Import PrinterManager.

Local Open Scope string_scope.

Module Discovery.

Section Discovery.
Context `{PrintOS} {ET : ExcText}.

(** ** The code *)

Definition newline : ascii := "010"%char.

(** [[line.strip() for line in stdout.split('\n') if line.strip()]]. *)
Definition nonblank_lines (out : string) : list string :=
  filter (fun l => l <> "") (map py_strip (py_split newline out)).

(** [_list_windows_printers(self)]: [EnumPrinters] when [win32print]
    imports, PowerShell's [Get-Printer] otherwise; a failed command prints
    its error and gives no printers, a missing one raises. *)
Definition _list_windows_printers : pyst io_state (list string) :=
  if os_win32 then st_lift os_enum_printers
  else
    (r <- run_cmd ["powershell"; "-Command";
                   "Get-Printer | Select-Object -ExpandProperty Name"] ;;
     match r with
     | RunOk out => st_ret (nonblank_lines out)
     | RunFailed e =>
         (_ <- io_print ("Error getting Windows printers via PowerShell: " +:+ e) ;;
          st_ret [])
     | RunOSError e => st_lift (PErr (OtherError e))
     end)%pyst.

(** The loop [for line in result.stdout.split('\n'): if
    line.startswith('printer '): printers.append(line.split()[1])]. *)
Fixpoint lpstat_printers (lines : list string) : pyres (list string) :=
  match lines with
  | [] => POk []
  | line :: rest =>
      if py_startswith line "printer " then
        (name <- py_getitem (py_split_ws line) 1 ;;
         names <- lpstat_printers rest ;;
         POk (name :: names))%py
      else lpstat_printers rest
  end.

(** [_list_mac_printers(self)]. *)
Definition _list_mac_printers : pyst io_state (list string) :=
  (r <- run_cmd ["lpstat"; "-p"] ;;
   match r with
   | RunOk out => st_lift (lpstat_printers (py_split newline out))
   | RunFailed e => (_ <- io_print ("Error getting Mac printers: " +:+ e) ;; st_ret [])
   | RunOSError e => st_lift (PErr (OtherError e))
   end)%pyst.

(** [_list_linux_printers(self)]: the same code as on a Mac, with its own
    message. *)
Definition _list_linux_printers : pyst io_state (list string) :=
  (r <- run_cmd ["lpstat"; "-p"] ;;
   match r with
   | RunOk out => st_lift (lpstat_printers (py_split newline out))
   | RunFailed e => (_ <- io_print ("Error getting Linux printers: " +:+ e) ;; st_ret [])
   | RunOSError e => st_lift (PErr (OtherError e))
   end)%pyst.

(** [list_printers(self)]: every exception is printed and gives the empty
    list. *)
Definition list_printers (self : PrinterManager) : pyst io_state (list string) :=
  st_try
    (if String.eqb (system self) "Windows" then _list_windows_printers
     else if String.eqb (system self) "Darwin" then _list_mac_printers
     else if String.eqb (system self) "Linux" then _list_linux_printers
     else (_ <- io_print ("Unsupported operating system: " +:+ system self) ;;
           st_ret [])%pyst)
    (fun e => _ <- io_print ("Error listing printers: " +:+ py_str_exc e) ;; st_ret [])%pyst.

(** [_get_windows_default_printer(self)]. *)
Definition _get_windows_default_printer : pyst io_state (option string) :=
  if os_win32 then st_lift (p <- os_get_default ;; POk (Some p))%py
  else
    (r <- run_cmd ["powershell"; "-Command";
                   "Get-WmiObject -Query 'SELECT * FROM Win32_Printer WHERE Default = True' | Select-Object -ExpandProperty Name"] ;;
     match r with
     | RunOk out => st_ret (Some (py_strip out))
     | RunFailed _ => st_ret None
     | RunOSError e => st_lift (PErr (OtherError e))
     end)%pyst.

(** The loop [for line in result.stdout.split('\n'): if 'system default
    destination:' in line: return line.split(':')[-1].strip()]. *)
Fixpoint lpstat_default (lines : list string) : pyres (option string) :=
  match lines with
  | [] => POk None
  | line :: rest =>
      if py_contains "system default destination:" line then
        (last <- py_getitem (py_split ":"%char line) (-1) ;;
         POk (Some (py_strip last)))%py
      else lpstat_default rest
  end.

(** [_get_unix_default_printer(self)]. *)
Definition _get_unix_default_printer : pyst io_state (option string) :=
  (r <- run_cmd ["lpstat"; "-d"] ;;
   match r with
   | RunOk out => st_lift (lpstat_default (py_split newline out))
   | RunFailed _ => st_ret None
   | RunOSError e => st_lift (PErr (OtherError e))
   end)%pyst.

(** [get_default_printer(self)]: every exception is printed and gives
    [None]. *)
Definition get_default_printer (self : PrinterManager)
    : pyst io_state (option string) :=
  st_try
    (if String.eqb (system self) "Windows" then _get_windows_default_printer
     else if String.eqb (system self) "Darwin" || String.eqb (system self) "Linux"
     then _get_unix_default_printer
     else st_ret None)
    (fun e => _ <- io_print ("Error getting default printer: " +:+ py_str_exc e) ;;
              st_ret None)%pyst.

(** The dictionary [check_printer_status] returns. *)
Record printer_status := mk_printer_status {
  status_name : string;
  status_available : bool;
  status_status : string
}.

(** [check_printer_status(self, printer_name)]: only
    [CalledProcessError] is caught. *)
Definition check_printer_status (self : PrinterManager) (printer_name : string)
    : pyst io_state printer_status :=
  if String.eqb (system self) "Darwin" || String.eqb (system self) "Linux" then
    (r <- run_cmd ["lpstat"; "-p"; printer_name] ;;
     match r with
     | RunOk out =>
         st_ret (if py_contains "disabled" (py_lower out)
                 then mk_printer_status printer_name false "disabled"
                 else if py_contains "idle" (py_lower out)
                 then mk_printer_status printer_name true "idle"
                 else mk_printer_status printer_name true "unknown")
     | RunFailed _ => st_ret (mk_printer_status printer_name false "not found")
     | RunOSError e => st_lift (PErr (OtherError e))
     end)%pyst
  else st_ret (mk_printer_status printer_name true "unknown").

(** ** What the parsers recover *)

(** A line of [lpstat -p]: [printer NAME DESCRIPTION]. *)
Definition lpstat_line (name descr : string) : string :=
  "printer " +:+ name +:+ " " +:+ descr.

(** A printer name as [lpstat] prints it: nonempty and without blanks. *)
Definition printer_name_ok (e : string * string) : Prop :=
  e.1 <> "" /\ has_space e.1 = false /\ str_has newline e.2 = false.

Lemma newline_space : is_space newline = true.
Proof. reflexivity. Qed.

Lemma lpstat_line_words n d :
  n <> "" -> has_space n = false ->
  py_split_ws (lpstat_line n d) = "printer" :: n :: py_split_ws d.
Proof.
  intros Hn Hs. unfold lpstat_line.
  change ("printer " +:+ ?x) with ("printer" +:+ String " "%char x).
  rewrite py_split_ws_word by done. f_equal.
  change (" " +:+ d) with (String " "%char d). by apply py_split_ws_word.
Qed.

Lemma lpstat_line_no_newline n d :
  has_space n = false -> str_has newline d = false ->
  str_has newline (lpstat_line n d) = false.
Proof.
  intros Hn Hd. unfold lpstat_line. rewrite !str_has_app, Hd.
  by rewrite (str_has_no_space newline n newline_space Hn).
Qed.

Lemma lpstat_printers_lines entries :
  Forall printer_name_ok entries ->
  lpstat_printers ((map (fun e => lpstat_line e.1 e.2) entries) ++ [""]) =
  POk entries.*1.
Proof.
  induction 1 as [|[n d] entries (Hne & Hn & Hd) Hall IH]; [done|]. simpl.
  unfold lpstat_line at 1. rewrite py_startswith_app.
  fold (lpstat_line n d). rewrite lpstat_line_words by done.
  change (py_getitem ?l 1) with (py_getitem l (Z.of_nat 1)).
  rewrite py_getitem_nat. simpl. by rewrite IH.
Qed.

Lemma lpstat_output_lines entries :
  Forall printer_name_ok entries ->
  py_split newline (py_lines newline (map (fun e => lpstat_line e.1 e.2) entries)) =
  (map (fun e => lpstat_line e.1 e.2) entries ++ [""])%list.
Proof.
  intros Hall. apply py_split_lines, Forall_fmap.
  eapply Forall_impl; [done|]. intros [n d] (_ & Hn & Hd).
  by apply lpstat_line_no_newline.
Qed.

(** The loop over the lines raises nothing but the [IndexError] of
    [line.split()[1]]. *)
Lemma lpstat_printers_error lines e : lpstat_printers lines = PErr e -> e = IndexError.
Proof.
  induction lines as [|l lines IH]; simpl; intros Hl; [done|].
  destruct (py_startswith l "printer "); [|by apply IH].
  destruct (py_getitem (py_split_ws l) 1) eqn:E; simpl in Hl.
  - destruct (lpstat_printers lines); simpl in Hl; [done|]. injection Hl as <-. by apply IH.
  - injection Hl as <-. unfold py_getitem in E. repeat case_match; congruence.
Qed.

(** A [printer] line with nothing after the word makes [line.split()[1]]
    raise. *)
Lemma lpstat_printers_blank lines b :
  all_space b = true -> ("printer " +:+ b) ∈ lines ->
  lpstat_printers lines = PErr IndexError.
Proof.
  intros Hb Hin. cut (exists e, lpstat_printers lines = PErr e).
  { intros [e He]. by rewrite He, (lpstat_printers_error _ _ He). }
  induction lines as [|l lines IH]; [by apply not_elem_of_nil in Hin|].
  apply elem_of_cons in Hin as [<-|Hin]; simpl.
  - rewrite py_startswith_app.
    change ("printer " +:+ b) with ("printer" +:+ String " "%char b).
    rewrite py_split_ws_word_blank by done. by eexists.
  - destruct (IH Hin) as [e He]. rewrite He.
    destruct (py_startswith l "printer "); [|by eexists].
    destruct (py_getitem (py_split_ws l) 1); by eexists.
Qed.

(** C29 (functional). On a Mac or Linux, [list_printers] runs [lpstat -p]
    once and returns the names of its [printer NAME ...] lines, in order. *)
Theorem list_printers_lpstat self entries st :
  (system self = "Darwin" \/ system self = "Linux") ->
  Forall printer_name_ok entries ->
  os_run ["lpstat"; "-p"] =
    RunOk (py_lines newline (map (fun e => lpstat_line e.1 e.2) entries)) ->
  list_printers self st = (POk entries.*1, log_call (CallRun ["lpstat"; "-p"]) st).
Proof.
  intros Hsys Hall Hrun. unfold list_printers, st_try.
  destruct Hsys as [Hs|Hs]; rewrite Hs; simpl;
    unfold _list_mac_printers, _list_linux_printers, st_bind, run_cmd;
    rewrite Hrun; simpl; by rewrite lpstat_output_lines, lpstat_printers_lines.
Qed.

(** C31 (error). One line [printer] followed only by blanks in the output
    of [lpstat -p] makes [list_printers] return no printer at all, the
    well-formed lines included: the [IndexError] of [line.split()[1]]
    escapes the loop and is caught and printed by [list_printers]. *)
Theorem list_printers_blank_line self out b st :
  (system self = "Darwin" \/ system self = "Linux") ->
  os_run ["lpstat"; "-p"] = RunOk out ->
  all_space b = true -> ("printer " +:+ b) ∈ py_split newline out ->
  list_printers self st =
  (POk [], mk_io_state (io_calls st ++ [CallRun ["lpstat"; "-p"]])
             (io_events st ++ [Printed ("Error listing printers: " +:+ py_str_exc IndexError)])).
Proof.
  intros Hsys Hrun Hb Hin. pose proof (lpstat_printers_blank _ b Hb Hin) as He.
  unfold list_printers, st_try.
  destruct Hsys as [Hs|Hs]; rewrite Hs; simpl;
    unfold _list_mac_printers, _list_linux_printers, st_bind, run_cmd;
    rewrite Hrun; simpl; by rewrite He.
Qed.

Lemma lpstat_default_destination p :
  has_space p = false -> str_has ":"%char p = false ->
  lpstat_default (py_split newline
    (py_lines newline ["system default destination: " +:+ p])) = POk (Some p).
Proof.
  intros Hp Hc. rewrite py_split_lines; last first.
  { constructor; [|done]. rewrite str_has_app.
    by rewrite (str_has_no_space newline p newline_space Hp). }
  cbn [app lpstat_default].
  change ("system default destination: " +:+ p) with
    ("system default destination:" +:+ String " "%char p).
  rewrite py_contains_prefix. cbn [py_bind].
  change ("system default destination:" +:+ String " "%char p) with
    (py_join ":"%char "system default destination" [String " "%char p]).
  rewrite py_split_join; last by repeat constructor.
  simpl. by rewrite py_strip_lead_space.
Qed.

(** C32 (functional). On a Mac or Linux, [get_default_printer] runs
    [lpstat -d] and returns the name after
    [system default destination:]. *)
Theorem get_default_printer_lpstat self p st :
  (system self = "Darwin" \/ system self = "Linux") ->
  has_space p = false -> str_has ":"%char p = false ->
  os_run ["lpstat"; "-d"] =
    RunOk (py_lines newline ["system default destination: " +:+ p]) ->
  get_default_printer self st =
  (POk (Some p), log_call (CallRun ["lpstat"; "-d"]) st).
Proof.
  intros Hsys Hp Hc. pose proof (lpstat_default_destination p Hp Hc) as Hline.
  revert Hline. generalize (py_lines newline ["system default destination: " +:+ p]).
  intros out Hline Hrun. unfold get_default_printer, st_try.
  destruct Hsys as [Hs|Hs]; rewrite Hs; simpl;
    unfold _get_unix_default_printer, st_bind, run_cmd;
    rewrite Hrun; simpl; by rewrite Hline.
Qed.

(** The line end of Windows: ["\r"] before the ["\n"]. *)
Definition cr : string := String "013"%char "".

Lemma nonblank_lines_crlf names :
  Forall (fun n => n <> "" /\ has_space n = false) names ->
  nonblank_lines (py_lines newline (map (fun n => n +:+ cr) names)) = names.
Proof.
  intros Hall. unfold nonblank_lines. rewrite py_split_lines; last first.
  { apply Forall_fmap. eapply Forall_impl; [done|]. intros n [_ Hn]. simpl.
    rewrite str_has_app. by rewrite (str_has_no_space newline n newline_space Hn). }
  induction Hall as [|n names [Hne Hn] Hall IH]; [done|]. simpl.
  rewrite py_strip_pad by done. rewrite filter_cons, decide_True by done.
  by rewrite IH.
Qed.

(** C30 (functional). On Windows without [win32print], [list_printers]
    runs PowerShell's [Get-Printer] once and returns the names it prints
    one per line, the ["\r\n"] line ends stripped. *)
Theorem list_printers_powershell self names st :
  system self = "Windows" -> os_win32 = false ->
  Forall (fun n => n <> "" /\ has_space n = false) names ->
  os_run ["powershell"; "-Command"; "Get-Printer | Select-Object -ExpandProperty Name"] =
    RunOk (py_lines newline (map (fun n => n +:+ cr) names)) ->
  list_printers self st =
  (POk names, log_call (CallRun ["powershell"; "-Command";
                                 "Get-Printer | Select-Object -ExpandProperty Name"]) st).
Proof.
  intros Hs Hw Hall Hrun. unfold list_printers, st_try. rewrite Hs. simpl.
  unfold _list_windows_printers. rewrite Hw. unfold st_bind, run_cmd.
  rewrite Hrun. simpl. by rewrite nonblank_lines_crlf.
Qed.

(** C33 (error). Without [lpstat], [list_printers] prints the error and
    reports no printers, but [check_printer_status] raises: it catches
    [CalledProcessError] only, not the error of a missing program. *)
Theorem check_printer_status_missing_lpstat self name e e' st :
  (system self = "Darwin" \/ system self = "Linux") ->
  os_run ["lpstat"; "-p"; name] = RunOSError e ->
  os_run ["lpstat"; "-p"] = RunOSError e' ->
  check_printer_status self name st =
    (PErr (OtherError e), log_call (CallRun ["lpstat"; "-p"; name]) st) /\
  list_printers self st =
    (POk [], mk_io_state (io_calls st ++ [CallRun ["lpstat"; "-p"]])
               (io_events st ++ [Printed ("Error listing printers: " +:+ e')])).
Proof.
  intros Hsys Hrun Hrun'.
  unfold check_printer_status, list_printers, st_try.
  destruct Hsys as [Hs|Hs]; rewrite Hs; simpl;
    unfold _list_mac_printers, _list_linux_printers, st_bind, run_cmd;
    by rewrite Hrun, Hrun'.
Qed.

End Discovery.

(** ** Concrete runs *)

#[local] Existing Instance sample_exc_text.

(** A system with two printers, [HP] the default, and [lpstat] installed. *)
Definition lpstat_os (printers_out : string) : PrintOS := {|
  os_win32 := false;
  os_run := fun cmd =>
    if decide (cmd = ["lpstat"; "-p"]) then RunOk printers_out
    else if decide (cmd = ["lpstat"; "-d"])
    then RunOk (py_lines newline ["system default destination: HP"])
    else RunFailed "";
  os_set_default := fun _ => None;
  os_shell_print := fun _ => None;
  os_enum_printers := POk [];
  os_get_default := PErr ImportError
|}.

Definition two_printers : string :=
  py_lines newline [lpstat_line "HP" "is idle."; lpstat_line "Brother" "disabled"].

(** A system without [lpstat]. *)
Definition no_lpstat_os : PrintOS := {|
  os_win32 := false;
  os_run := fun cmd => RunOSError "No such file or directory: 'lpstat'";
  os_set_default := fun _ => None;
  os_shell_print := fun _ => None;
  os_enum_printers := POk [];
  os_get_default := PErr ImportError
|}.

Example list_printers_lpstat_witness :
  @list_printers (lpstat_os two_printers) _ (init "Linux") io_empty =
  (POk ["HP"; "Brother"], log_call (CallRun ["lpstat"; "-p"]) io_empty).
Proof.
  apply (@list_printers_lpstat (lpstat_os two_printers) _ (init "Linux")
           [("HP", "is idle."); ("Brother", "disabled")] io_empty);
    [by right | repeat constructor; done | vm_compute; reflexivity].
Defined.

Example list_printers_blank_line_witness :
  @list_printers (lpstat_os (two_printers +:+ py_lines newline ["printer "])) _
    (init "Darwin") io_empty =
  (POk [], mk_io_state [CallRun ["lpstat"; "-p"]]
             [Printed "Error listing printers: list index out of range"]).
Proof.
  etrans; [apply (@list_printers_blank_line
                    (lpstat_os (two_printers +:+ py_lines newline ["printer "]))
                    _ (init "Darwin") (two_printers +:+ py_lines newline ["printer "]) "" io_empty);
           [by left | vm_compute; reflexivity | reflexivity
           | vm_compute; right; right; left] |].
  reflexivity.
Defined.

Example get_default_printer_lpstat_witness :
  @get_default_printer (lpstat_os two_printers) _ (init "Linux") io_empty =
  (POk (Some "HP"), log_call (CallRun ["lpstat"; "-d"]) io_empty).
Proof.
  apply (@get_default_printer_lpstat (lpstat_os two_printers) _ (init "Linux") "HP" io_empty);
    [by right | reflexivity | reflexivity | vm_compute; reflexivity].
Defined.

Example check_printer_status_missing_lpstat_witness :
  @check_printer_status no_lpstat_os (init "Linux") "HP" io_empty =
    (PErr (OtherError "No such file or directory: 'lpstat'"),
     log_call (CallRun ["lpstat"; "-p"; "HP"]) io_empty) /\
  @list_printers no_lpstat_os _ (init "Linux") io_empty =
    (POk [], mk_io_state [CallRun ["lpstat"; "-p"]]
               [Printed "Error listing printers: No such file or directory: 'lpstat'"]).
Proof.
  destruct (@check_printer_status_missing_lpstat no_lpstat_os _ (init "Linux") "HP"
              "No such file or directory: 'lpstat'" "No such file or directory: 'lpstat'"
              io_empty) as [Hc Hl];
    [by right | reflexivity | reflexivity |].
  split; [exact Hc | rewrite Hl; reflexivity].
Defined.

(** A Windows system without the [win32] modules. *)
Definition powershell_os : PrintOS := {|
  os_win32 := false;
  os_run := fun cmd =>
    if decide (cmd = ["powershell"; "-Command"; "Get-Printer | Select-Object -ExpandProperty Name"])
    then RunOk (py_lines newline (map (fun n => n +:+ cr) ["HP"; "Microsoft_Print_to_PDF"]))
    else RunFailed "";
  os_set_default := fun _ => None;
  os_shell_print := fun _ => None;
  os_enum_printers := PErr ImportError;
  os_get_default := PErr ImportError
|}.

Example list_printers_powershell_witness :
  @list_printers powershell_os _ (init "Windows") io_empty =
  (POk ["HP"; "Microsoft_Print_to_PDF"],
   log_call (CallRun ["powershell"; "-Command";
                      "Get-Printer | Select-Object -ExpandProperty Name"]) io_empty).
Proof.
  apply (@list_printers_powershell powershell_os _ (init "Windows")
           ["HP"; "Microsoft_Print_to_PDF"] io_empty);
    [reflexivity | reflexivity | repeat constructor; done | vm_compute; reflexivity].
Defined.

End Discovery.
