(* ===== verification/Main.v ===== *)
(** * Main: the command line (src/main.py)

    Module [Main] models [main()] and [print_available_printers()] of
    [src/main.py] and the [if __name__ == "__main__"] block.  [main] reads
    the parsed arguments ([Args], the attributes of [parser.parse_args()]),
    and works on a [world]: the files, the log of calls to the operating
    system, the lines of standard input that [input()] reads, and standard
    output (one item per [print] or [input] prompt), which holds the lines
    of [main] and of the methods it calls: the lines a method returns are
    printed by [say_all], and the events of [split_pdf] and of the
    [PrinterManager] methods are rendered in order by [render_events], a
    callback call as the line of [print_progress] (whose percentage is an
    IEEE double, as in CPython).  The platform name, the outcome of
    creating the output directory, the size and metadata [get_pdf_info]
    reads, and [str(e)] ([ExcText]) are the section's parameters.

    The code is one definition per block of [main]: the checks and the
    loading ([main], with the [--verbose] blocks [show_arguments] and
    [show_pdf_info]), the overwrite prompt ([confirm_overwrite]), the
    renaming ([resolve_names]), the split ([split_step]), the parsing of
    [--print-options] ([parse_print_options], [print_options_step]), the
    printer check ([confirm_printer]), the printing and its report
    ([print_step], [print_results]) and the summary ([show_summary]);
    [split_and_print] is the part of [main] after the checks.  [prints c m]
    says that [c] only prints [m]; the tactic [run_prints] steps over such
    computations, and [solve_preserves] proves that all of [main] preserves
    a relation on worlds ([kept]: no existing file changes; [writes_in d]: no
    file outside the directory [d] changes).  The theorems are end to end: what a run
    does to the files that exist, what a successful run writes and prints
    (all of its output), that every print job is reported, when a run
    stops, with which exit code and lines. *)

From S2P Require Import Prelude PyLib Partition Storage Naming Splitter Printer Discovery.
From Stdlib Require Import Floats.
Import PrinterManager Discovery.

Local Open Scope string_scope.

Module Main.

(** The attributes of [args = parser.parse_args()].  [arg_input_file] is
    [None] when the argument is missing or empty; the conversion of the
    text of the command line into a path is pathlib's. *)
Record Args := mk_args {
  arg_input_file : option path;
  arg_pages : Z;
  arg_output : option string;
  arg_print : bool;
  arg_printer : option string;
  arg_preview : bool;
  arg_list_printers : bool;
  arg_print_options : option string;
  arg_force : bool;
  arg_verbose : bool
}.

(** [response = input(...).strip().lower()] then
    [response in ['y', 'yes']]. *)
Definition answer_yes (line : string) : bool :=
  bool_decide (py_lower (py_strip line) ∈ ["y"; "yes"]).

(** The loop [for option in args.print_options.split(','): key, value =
    option.split('='); print_options[key.strip()] = value.strip()]: an
    option without exactly one ['='] raises [ValueError]. *)
Fixpoint parse_options_loop (options : list string) (d : py_dict string string)
    : pyres (py_dict string string) :=
  match options with
  | [] => POk d
  | option :: rest =>
      match py_split "="%char option with
      | [key; value] =>
          parse_options_loop rest (py_dict_set d (py_strip key) (py_strip value))
      | _ => PErr ValueError
      end
  end.

(** Lines 168-173: the body of the [try]: [{}] without [--print-options],
    the parsed options otherwise; an option without exactly one ['=']
    raises [ValueError]. *)
Definition parse_print_options (print_options : option string)
    : pyres (py_dict string string) :=
  match print_options with
  | Some s => if String.eqb s "" then POk [] else parse_options_loop (py_split ","%char s) []
  | None => POk []
  end.

(** [print_progress(current, total, message)]: [(current / total) * 100]
    in floating point, formatted [.1f].  [total = 0] raises
    [ZeroDivisionError]; the callees call it with [1 <= current <= total]. *)
Definition print_progress (current total : nat) (message : string) : pyres string :=
  (fraction <- py_int_truediv (Z.of_nat current) (Z.of_nat total) ;;
   let percentage := PrimFloat.mul fraction (py_float_of_int 100) in
   POk ("[" +:+ py_str_nat current +:+ "/" +:+ py_str_nat total +:+ "] ("
        +:+ py_format_f 1 percentage +:+ "%) " +:+ message))%py.

(** What [main] shows of the events of a callee it passed [print_progress]
    to: a [print] line as it is, a callback call as the line
    [print_progress] prints. *)
Definition render_event (ev : out_event) : list string :=
  match ev with
  | Printed line => [line]
  | Progress current total message =>
      match print_progress current total message with
      | POk line => [line]
      | PErr _ => []
      end
  end.

Definition render_events (evs : list out_event) : list string :=
  concat (map render_event evs).

(** ** Parsing [--print-options] *)

(** The text of one option [key=value]. *)
Definition option_text (kv : string * string) : string := kv.1 +:+ "=" +:+ kv.2.

(** A key or value as the options write it: no blank, ['='] or [',']. *)
Definition plain (s : string) : Prop :=
  has_space s = false /\ str_has "="%char s = false /\ str_has ","%char s = false.

Definition plain_option (kv : string * string) : Prop := plain kv.1 /\ plain kv.2.

Lemma split_option_text kv :
  plain_option kv -> py_split "="%char (option_text kv) = [kv.1; kv.2].
Proof.
  intros ((_ & Hk & _) & (_ & Hv & _)).
  change (option_text kv) with (py_join "="%char kv.1 [kv.2]).
  apply py_split_join. by repeat constructor.
Qed.

Lemma option_text_no_comma kv : plain_option kv -> str_has ","%char (option_text kv) = false.
Proof.
  intros ((_ & _ & Hk) & (_ & _ & Hv)). unfold option_text.
  by rewrite !str_has_app, Hk, Hv.
Qed.

Lemma parse_options_loop_plain kvs d :
  Forall plain_option kvs -> NoDup kvs.*1 -> Forall (fun k => k ∉ d.*1) kvs.*1 ->
  parse_options_loop (option_text <$> kvs) d = POk (d ++ kvs)%list.
Proof.
  revert d; induction kvs as [|[k v] kvs IH]; intros d Hp Hnd Hd;
    simpl; [by rewrite app_nil_r|].
  apply Forall_cons in Hp as [Hkv Hp]. apply NoDup_cons in Hnd as [Hk Hnd].
  apply Forall_cons in Hd as [Hkd Hd].
  rewrite (split_option_text (k, v) Hkv). simpl.
  destruct Hkv as ((Hks & _) & (Hvs & _)). simpl in Hks, Hvs.
  rewrite !py_strip_no_space by done. rewrite py_dict_set_new by done.
  rewrite IH; [by rewrite <- app_assoc | done | done |].
  apply Forall_forall. intros x Hx. rewrite fmap_app. simpl.
  rewrite elem_of_app, list_elem_of_singleton. intros [Hxd | ->]; [|done].
  by apply (proj1 (Forall_forall _ _) Hd x).
Qed.

Lemma parse_options_loop_bad options option d :
  option ∈ options -> length (py_split "="%char option) <> 2%nat ->
  parse_options_loop options d = PErr ValueError.
Proof.
  revert d; induction options as [|o options IH]; intros d Hin Hlen;
    [by apply not_elem_of_nil in Hin|].
  simpl. apply elem_of_cons in Hin as [<-|Hin].
  - by destruct (py_split "="%char option) as [|? [|? [|]]].
  - destruct (py_split "="%char o) as [|? [|? [|]]]; try done. by apply IH.
Qed.

(** The loop raises nothing but [ValueError]: the [except] catches all. *)
Lemma parse_options_loop_err options d e :
  parse_options_loop options d = PErr e -> e = ValueError.
Proof.
  revert d; induction options as [|o options IH]; intros d; simpl; [done|].
  destruct (py_split "="%char o) as [|? [|? [|]]]; try congruence. apply IH.
Qed.

Lemma parse_print_options_err o e : parse_print_options o = PErr e -> e = ValueError.
Proof.
  unfold parse_print_options. destruct o as [s|]; [|done].
  destruct (String.eqb s ""); [done|]. apply parse_options_loop_err.
Qed.

Section Main.
Context {Page : Type} `{PrintOS} {ET : ExcText}.
(** [platform.system()], the outcome of [mkdir] on a directory, and what
    [get_pdf_info] reads besides the document: [stat().st_size] and
    [reader.metadata]. *)
Context (platform_system : string) (mkdir : string -> pyres unit)
        (stat_size : path -> Z)
        (pdf_metadata : path -> pyres (option (py_dict string string))).

(** What [main] reads and changes: the files, the log of calls to the
    operating system, the lines of standard input, and standard output,
    one item per [print] or prompt (of [main] and of the code it calls). *)
Record world := mk_world {
  w_fs : fs Page;
  w_calls : list os_call;
  w_stdin : list string;
  w_out : list string
}.

Definition st_get : pyst world world := fun w => (POk w, w).

(** [print(msg)]. *)
Definition say (msg : string) : pyst world unit :=
  fun w => (POk tt, mk_world (w_fs w) (w_calls w) (w_stdin w) (w_out w ++ [msg])).

(** The [print] calls of a loop, in order. *)
Fixpoint say_all (msgs : list string) : pyst world unit :=
  match msgs with
  | [] => st_ret tt
  | msg :: rest => (_ <- say msg ;; say_all rest)%pyst
  end.

(** [input(prompt)]: the prompt is written, then the next line of standard
    input is read; [EOFError] at its end. *)
Definition input_line (prompt : string) : pyst world string :=
  fun w =>
    let out := (w_out w ++ [prompt])%list in
    match w_stdin w with
    | [] => (PErr EOFError, mk_world (w_fs w) (w_calls w) [] out)
    | l :: rest => (POk l, mk_world (w_fs w) (w_calls w) rest out)
    end.

(** A call of a [PrinterManager] method: its calls go to the log, its
    lines and the lines of [print_progress] to standard output. *)
Definition run_io {A} (c : pyst io_state A) : pyst world A :=
  fun w => let '(r, io') := c (mk_io_state (w_calls w) []) in
           (r, mk_world (w_fs w) (io_calls io') (w_stdin w)
                        (w_out w ++ render_events (io_events io'))).

(** [print_available_printers()]. *)
Definition print_available_printers : pyst world unit :=
  let printer_manager := PrinterManager.init platform_system in
  (_ <- say ("System: " +:+ get_system_type printer_manager) ;;
   printers <- run_io (list_printers printer_manager) ;;
   if bool_decide (printers = []) then
     say "No printers found or unable to list printers."
   else
     (_ <- say (nl +:+ "Available printers (" +:+ py_str_nat (length printers) +:+ "):") ;;
      _ <- say_all (imap (fun i printer =>
                            "  " +:+ py_str_nat (S i) +:+ ". " +:+ printer) printers) ;;
      default_printer <- run_io (get_default_printer printer_manager) ;;
      _ <- (match truthy default_printer with
            | Some d => say (nl +:+ "Default printer: " +:+ d)
            | None => st_ret tt
            end) ;;
      _ <- say (nl +:+ "Print options (use with --print-options):") ;;
      say_all ((fun od => "  " +:+ od.1 +:+ ": " +:+ od.2)
                 <$> get_print_options_help printer_manager)))%pyst.

(** Lines 78-83: what [--verbose] shows of the arguments. *)
Definition arguments_lines (args : Args) (input_path : path) : list string :=
  ["Input file: " +:+ path_str input_path;
   "Pages per split: " +:+ py_str_int (arg_pages args);
   "Output directory: " +:+
     (match truthy (arg_output args) with Some d => d | None => "same as input" end);
   "Print enabled: " +:+ py_str_bool (arg_print args);
   "Preview mode: " +:+ py_str_bool (arg_preview args)].

Definition show_arguments (args : Args) (input_path : path) : pyst world unit :=
  say_all (arguments_lines args input_path).

(** Lines 101-106: what [--verbose] shows of [get_pdf_info()]. *)
Definition pdf_info_lines (info : PDFSplitter.pdf_info) : list string :=
  [nl +:+ "PDF Information:";
   "  Pages: " +:+ py_str_nat (PDFSplitter.info_total_pages info);
   "  Size: " +:+ py_format_2f_frac (PDFSplitter.info_file_size info) (1024 * 1024) +:+ " MB";
   "  Encrypted: " +:+ py_str_bool (PDFSplitter.info_encrypted info)]
  ++ (match PDFSplitter.info_metadata info with
      | Some (title, _, _, _) =>
          if String.eqb title "Unknown" then [] else ["  Title: " +:+ title]
      | None => []
      end).

(** Lines 99-106: on the empty dictionary of a splitter without a
    document, [pdf_info['total_pages']] raises [KeyError]. *)
Definition show_pdf_info (pdf_splitter : PDFSplitter.PDFSplitter Page) : pyst world unit :=
  let p := PDFSplitter.input_file pdf_splitter in
  match PDFSplitter.get_pdf_info pdf_splitter (stat_size p) (pdf_metadata p) with
  | None => st_lift (PErr (OtherError "'total_pages'"))
  | Some info => say_all (pdf_info_lines info)
  end.

(** Lines 129-143: without [--force], when a proposed file exists, list
    the first five and ask; [False] is "Operation cancelled". *)
Definition confirm_overwrite (force : bool) (output_files : list path)
    : pyst world bool :=
  if force then st_ret true
  else
    (w <- st_get ;;
     let existing_files := filter (fun f => fs_exists (w_fs w) f = true) output_files in
     if bool_decide (existing_files = []) then st_ret true
     else
       (_ <- say (nl +:+ "Warning: " +:+ py_str_nat (length existing_files)
                 +:+ " output files already exist:") ;;
        _ <- say_all ((fun f => "  " +:+ path_str f) <$> take 5 existing_files) ;;
        _ <- (if (5 <? length existing_files)%nat
              then say ("  ... and " +:+ py_str_nat (length existing_files - 5) +:+ " more")
              else st_ret tt) ;;
        response <- input_line (nl +:+ "Overwrite existing files? (y/N): ") ;;
        if answer_yes response then st_ret true
        else (_ <- say "Operation cancelled." ;; st_ret false)))%pyst.

(** Line 146: [handle_filename_conflicts] on the files as they are now.
    Its fuel never runs out ([FileManager.resolve_conflict_total]), so the
    [None] branch is not reached. *)
Definition resolve_names (output_files : list path) : pyst world (list path) :=
  fun w => match FileManager.handle_filename_conflicts (w_fs w) output_files with
           | Some confirmed => (POk confirmed, w)
           | None => (PErr (OtherError "resolver out of fuel"), w)
           end.

(** Lines 150-154: [split_pdf], with [print_progress] as the callback
    when [--verbose] is given: its lines and those of the callback go to
    standard output. *)
Definition split_step (pdf_splitter : PDFSplitter.PDFSplitter Page)
    (pages_per_split : Z) (output_files : list path) (progress : bool)
    : pyst world bool :=
  fun w =>
    let '(ok, ss') := PDFSplitter.split_pdf pdf_splitter pages_per_split output_files
                        progress (PDFSplitter.mk_split_state (w_fs w) []) in
    (POk ok, mk_world (PDFSplitter.ss_fs ss') (w_calls w) (w_stdin w)
                      (w_out w ++ render_events (PDFSplitter.ss_events ss'))).

(** Lines 167-176: [--print-options] parsed, or [{}] with a warning when
    the loop raises [ValueError]. *)
Definition print_options_step (print_options : option string)
    : pyst world (py_dict string string) :=
  match parse_print_options print_options with
  | POk d => st_ret d
  | PErr ValueError =>
      (_ <- say "Warning: Invalid print options format. Using defaults." ;; st_ret [])%pyst
  | PErr e => st_lift (PErr e)
  end.

(** Lines 178-188: the check of [--printer] against [list_printers()],
    with its prompt; [False] is "Printing cancelled". *)
Definition confirm_printer (printer_manager : PrinterManager) (printer : option string)
    : pyst world bool :=
  match truthy printer with
  | Some p =>
      (available_printers <- run_io (list_printers printer_manager) ;;
       if bool_decide (p ∈ available_printers) then st_ret true
       else
         (_ <- say ("Warning: Printer '" +:+ p +:+ "' not found.") ;;
          _ <- say ("Available printers: " +:+ py_join_str ", " available_printers) ;;
          response <- input_line "Continue with default printer? (y/N): " ;;
          if answer_yes response then st_ret true
          else (_ <- say "Printing cancelled." ;; st_ret false)))%pyst
  | None => st_ret true
  end.

(** Lines 199-209: the count of successful print jobs and the failed
    ones, [Path(file_path).name: message]. *)
Definition print_results (output_files : list path)
    (results : py_dict string (bool * string)) : pyst world nat :=
  let successful_prints := length (filter (fun r => r.2.1 = true) results) in
  (_ <- say (nl +:+ check_mark +:+ " Successfully sent " +:+ py_str_nat successful_prints
            +:+ "/" +:+ py_str_nat (length output_files) +:+ " files to printer") ;;
   _ <- (if (successful_prints <? length output_files)%nat then
           (_ <- say (nl +:+ "Failed prints:") ;;
            say_all ((fun r => "  " +:+ str_path_name r.1 +:+ ": " +:+ r.2.2)
                       <$> filter (fun r => r.2.1 = false) results))
         else st_ret tt) ;;
   st_ret successful_prints)%pyst.

(** Lines 163-209: the printing block; [None] when the user cancels it
    (main then returns 0 at once), the number of successful jobs
    otherwise. *)
Definition print_step (args : Args) (output_files : list path) : pyst world (option nat) :=
  (_ <- say (nl +:+ "Initializing printer...") ;;
   let printer_manager := PrinterManager.init platform_system in
   print_options <- print_options_step (arg_print_options args) ;;
   proceed <- confirm_printer printer_manager (arg_printer args) ;;
   if negb proceed then st_ret None
   else
     (_ <- say ("Printing " +:+ py_str_nat (length output_files) +:+ " files...") ;;
      w <- st_get ;;
      results <- run_io (print_multiple_files printer_manager (w_fs w) output_files
                           (arg_printer args) print_options (arg_verbose args)) ;;
      successful_prints <- print_results output_files results ;;
      st_ret (Some successful_prints)))%pyst.

(** Lines 211-217: the lines of the summary. *)
Definition summary_lines (args : Args) (input_path : path)
    (file_manager : FileManager.FileManager) (output_files : list path)
    (successful_prints : nat) : list string :=
  ([nl +:+ "--- Summary ---";
            "Input file: " +:+ path_str input_path;
            "Output files: " +:+ py_str_nat (length output_files);
            "Output directory: " +:+ FileManager.output_dir file_manager]
           ++ (if arg_print args
               then ["Print jobs sent: " +:+ py_str_nat successful_prints +:+ "/"
                     +:+ py_str_nat (length output_files)]
               else []))%list.

Definition show_summary (args : Args) (input_path : path)
    (file_manager : FileManager.FileManager) (output_files : list path)
    (successful_prints : nat) : pyst world unit :=
  say_all (summary_lines args input_path file_manager output_files successful_prints).

(** Lines 128-219: from the proposed names to the exit code. *)
Definition split_and_print (args : Args) (input_path : path)
    (file_manager : FileManager.FileManager)
    (pdf_splitter : PDFSplitter.PDFSplitter Page) (output_files : list path)
    : pyst world Z :=
  (proceed <- confirm_overwrite (arg_force args) output_files ;;
   if negb proceed then st_ret 0%Z
   else
     (output_files <- resolve_names output_files ;;
      _ <- say (nl +:+ "Splitting PDF into " +:+ py_str_nat (length output_files)
                +:+ " files...") ;;
      success <- split_step pdf_splitter (arg_pages args) output_files (arg_verbose args) ;;
      if negb success then (_ <- say "PDF splitting failed." ;; st_ret 1%Z)
      else
        (_ <- say (nl +:+ check_mark +:+ " Successfully created "
                  +:+ py_str_nat (length output_files) +:+ " PDF files") ;;
         printed <- (if arg_print args then print_step args output_files
                     else st_ret (Some 0%nat)) ;;
         match printed with
         | None => st_ret 0%Z
         | Some successful_prints =>
             (_ <- show_summary args input_path file_manager output_files successful_prints ;;
              st_ret 0%Z)
         end)))%pyst.

(** Lines 119-127: the output directory, the proposed names, and the rest. *)
Definition create_and_split (args : Args) (input_path : path)
    (file_manager : FileManager.FileManager)
    (pdf_splitter : PDFSplitter.PDFSplitter Page) : pyst world Z :=
  let '(created, msgs) := FileManager.create_output_directory mkdir file_manager in
  (_ <- say_all msgs ;;
   if negb created then st_ret 1%Z
   else
     (output_files <- st_lift (FileManager.generate_output_filenames file_manager
                       (Z.of_nat (PDFSplitter.get_total_pages pdf_splitter)) (arg_pages args)) ;;
      split_and_print args input_path file_manager pdf_splitter output_files))%pyst.

(** [main()]. *)
Definition main (args : Args) : pyst world Z :=
  if arg_list_printers args then
    (_ <- print_available_printers ;; st_ret 0%Z)%pyst
  else match arg_input_file args with
  | None => st_lift (PErr (SystemExit 2))
  | Some input_path =>
    (w <- st_get ;;
     if negb (fs_exists (w_fs w) input_path) then
       (_ <- say ("Error: Input file '" +:+ path_str input_path +:+ "' does not exist.") ;;
        st_ret 1%Z)
     else
     (_ <- (if arg_verbose args then show_arguments args input_path else st_ret tt) ;;
      let file_manager := FileManager.init input_path (arg_output args) in
      let '(valid, msgs) := FileManager.validate_input (w_fs w) file_manager in
      _ <- say_all msgs ;;
      if negb valid then st_ret 1%Z else
      (_ <- say "Loading PDF file..." ;;
       let '(loaded, pdf_splitter, msgs) :=
         PDFSplitter.load_pdf (w_fs w) (PDFSplitter.init input_path) in
       _ <- say_all msgs ;;
       if negb loaded then st_ret 1%Z else
       (_ <- (if arg_verbose args then show_pdf_info pdf_splitter else st_ret tt) ;;
        let '(is_valid, error_msg) :=
          Partition.validate_split_parameters (PDFSplitter.total_pages pdf_splitter)
                                              (arg_pages args) in
        if negb is_valid then (_ <- say ("Error: " +:+ error_msg) ;; st_ret 1%Z) else
        if arg_preview args then
          (lines <- st_lift (PDFSplitter.preview_split pdf_splitter (arg_pages args)) ;;
           _ <- say_all lines ;;
           st_ret 0%Z)
        else create_and_split args input_path file_manager pdf_splitter))))%pyst
  end.

(** [if __name__ == "__main__"]: [sys.exit(main())]; [SystemExit] leaves
    with its code, any other exception prints its message and exits
    with 1. *)
Definition run (args : Args) (w : world) : Z * world :=
  match main args w with
  | (POk code, w') => (code, w')
  | (PErr (SystemExit code), w') => (code, w')
  | (PErr e, w') =>
      (1%Z, mk_world (w_fs w') (w_calls w') (w_stdin w')
                     (w_out w' ++ [nl +:+ "Unexpected error: " +:+ py_str_exc e]))
  end.

(** ** Runs that keep the files that exist *)

(** From [w] to [w'] no existing file changed, nor the other entries and
    the denied paths. *)
Definition kept (w w' : world) : Prop :=
  fs_other (w_fs w') = fs_other (w_fs w) /\
  fs_denied (w_fs w') = fs_denied (w_fs w) /\
  forall p, fs_exists (w_fs w) p = true ->
            fs_files (w_fs w') !! p = fs_files (w_fs w) !! p.

Lemma kept_same_fs w w' : w_fs w' = w_fs w -> kept w w'.
Proof. intros Heq. unfold kept. by rewrite Heq. Qed.

Lemma kept_trans w1 w2 w3 : kept w1 w2 -> kept w2 w3 -> kept w1 w3.
Proof.
  intros (Ho & Hd & Hf) (Ho' & Hd' & Hf'). split_and!; [congruence|congruence|].
  intros p Hp. pose proof (Hf p Hp) as Hp'. rewrite Hf'; [done|].
  unfold fs_exists in *. rewrite Ho.
  apply orb_true_iff in Hp as [Hp|Hp]; apply orb_true_iff; [left|by right].
  rewrite bool_decide_eq_true, elem_of_dom in Hp |- *. by rewrite Hp'.
Qed.

(** [c] does not touch the files. *)
Definition fs_frame {A} (c : pyst world A) : Prop := forall w, w_fs (c w).2 = w_fs w.

Lemma fs_frame_ret {A} (a : A) : fs_frame (st_ret a).
Proof. done. Qed.

Lemma fs_frame_lift {A} (r : pyres A) : fs_frame (st_lift r).
Proof. done. Qed.

Lemma fs_frame_get : fs_frame st_get.
Proof. done. Qed.

Lemma fs_frame_input prompt : fs_frame (input_line prompt).
Proof. intros w. unfold input_line. by destruct (w_stdin w). Qed.

Lemma fs_frame_say msg : fs_frame (say msg).
Proof. done. Qed.

Lemma fs_frame_say_all msgs : fs_frame (say_all msgs).
Proof.
  induction msgs as [|m ms IH]; intros w; [done|]. simpl.
  unfold st_bind. simpl. by rewrite IH.
Qed.

Lemma fs_frame_run_io {A} (c : pyst io_state A) : fs_frame (run_io c).
Proof. intros w. unfold run_io. by destruct (c (mk_io_state (w_calls w) [])). Qed.

Lemma run_io_ok {A} (c : pyst io_state A) w a io' :
  c (mk_io_state (w_calls w) []) = (POk a, io') ->
  run_io c w = (POk a, mk_world (w_fs w) (io_calls io') (w_stdin w)
                                (w_out w ++ render_events (io_events io'))).
Proof. intros E. unfold run_io. by rewrite E. Qed.

Lemma fs_frame_resolve xs : fs_frame (resolve_names xs).
Proof. intros w. unfold resolve_names. by case_match. Qed.

(** ** Output *)

(** [w] after the lines [msgs] are printed. *)
Definition with_out (w : world) (msgs : list string) : world :=
  mk_world (w_fs w) (w_calls w) (w_stdin w) (w_out w ++ msgs).

Lemma with_out_app w a b : with_out (with_out w a) b = with_out w (a ++ b).
Proof. unfold with_out. simpl. by rewrite app_assoc. Qed.

Lemma with_out_nil w : with_out w [] = w.
Proof. destruct w. unfold with_out. simpl. by rewrite app_nil_r. Qed.

(** [c] prints [msgs] and does nothing else. *)
Definition prints (c : pyst world unit) (msgs : list string) : Prop :=
  forall w, c w = (POk tt, with_out w msgs).

Lemma prints_ret : prints (st_ret tt) [].
Proof. intros w. by rewrite with_out_nil. Qed.

Lemma prints_say msg : prints (say msg) [msg].
Proof. done. Qed.

Lemma prints_say_all msgs : prints (say_all msgs) msgs.
Proof.
  induction msgs as [|m ms IH]; [apply prints_ret|]. intros w. cbn [say_all].
  rewrite (st_bind_ok _ _ _ _ _ (prints_say m w)). by rewrite IH, with_out_app.
Qed.

Lemma prints_if (b : bool) c msgs :
  prints c msgs -> prints (if b then c else st_ret tt) (if b then msgs else []).
Proof. destruct b; [done|]. intros _. apply prints_ret. Qed.

Lemma prints_bind c1 c2 m1 m2 :
  prints c1 m1 -> prints c2 m2 -> prints (_ <- c1 ;; c2)%pyst (m1 ++ m2).
Proof.
  intros H1 H2 w. rewrite (st_bind_ok _ _ _ _ _ (H1 w)). by rewrite H2, with_out_app.
Qed.

Lemma st_bind_prints {A} c msgs (k : unit -> pyst world A) w :
  prints c msgs -> st_bind c k w = k tt (with_out w msgs).
Proof. intros Hc. by apply st_bind_ok. Qed.

Lemma with_out_fs w msgs : w_fs (with_out w msgs) = w_fs w.
Proof. done. Qed.

(** Steps over the [print] calls at the head of a computation. *)
Ltac run_prints :=
  repeat first
    [ rewrite st_bind_ret
    | rewrite (st_bind_prints _ _ _ _ (prints_say _))
    | rewrite (st_bind_prints _ _ _ _ (prints_say_all _))
    | rewrite (st_bind_prints _ _ _ _ (prints_if _ _ _ (prints_say _)))
    | rewrite (st_bind_prints _ _ _ _ (prints_if _ _ _ (prints_say_all _)))
    | rewrite (st_bind_prints _ _ _ _
                 (prints_if _ _ _ (prints_bind _ _ _ _ (prints_say _) (prints_say_all _)))) ];
  rewrite ?with_out_app.

(** A relation [R] from the state where [c] starts to the state where it
    stops, whether it returns or raises. *)
Section Preserves.
Context (R : world -> world -> Prop) `{!Transitive R}.
Hypothesis R_frame : forall w w', w_fs w' = w_fs w -> R w w'.

Definition preserves {A} (c : pyst world A) : Prop := forall w, R w (c w).2.

Lemma preserves_frame {A} (c : pyst world A) : fs_frame c -> preserves c.
Proof. intros Hc w. by apply R_frame. Qed.

Lemma preserves_bind_lift {A B} (r : pyres A) (k : A -> pyst world B) :
  preserves (st_lift r) -> (forall a, r = POk a -> preserves (k a)) ->
  preserves (st_bind (st_lift r) k).
Proof.
  intros Hr Hk w. unfold st_bind, st_lift.
  destruct r as [a|e]; [by apply Hk|apply (Hr w)].
Qed.

Lemma preserves_bind {A B} (c : pyst world A) (k : A -> pyst world B) :
  preserves c -> (forall a, preserves (k a)) -> preserves (st_bind c k).
Proof.
  intros Hc Hk w. specialize (Hc w). unfold st_bind.
  destruct (c w) as [[a|e] w']; simpl in *; [|done].
  etrans; [done|apply Hk].
Qed.
End Preserves.

#[export] Instance kept_trans_inst : Transitive kept.
Proof. intros ???. apply kept_trans. Qed.

(** [c] never changes a file that exists when it starts. *)
Definition keeps {A} (c : pyst world A) : Prop := preserves kept c.

(** The split after the renaming writes only to paths that did not
    exist. *)
Lemma keeps_resolve_split sp pps xs progress (msg : list path -> string)
    (k : list path -> bool -> pyst world Z) :
  (forall outs b, keeps (k outs b)) ->
  keeps (outs <- resolve_names xs ;;
         _ <- say (msg outs) ;;
         success <- split_step sp pps outs progress ;; k outs success)%pyst.
Proof.
  intros Hk w. unfold st_bind at 1, resolve_names.
  destruct (FileManager.handle_filename_conflicts (w_fs w) xs) as [outs|] eqn:E;
    simpl; [|done].
  apply FileManager.handle_filename_conflicts_fresh in E as [Hfresh _].
  unfold st_bind, say, split_step. simpl.
  pose proof (PDFSplitter.split_pdf_written_only sp pps outs progress
                (PDFSplitter.mk_split_state (w_fs w) []))
    as (Ho & Hd & Hf).
  destruct (PDFSplitter.split_pdf _ _ _ _ _) as [ok ss']. simpl in *.
  eapply kept_trans; [|apply Hk]. split_and!; [done|done|].
  intros p Hp. apply Hf. intros Hin.
  rewrite Forall_forall in Hfresh. specialize (Hfresh p Hin). simpl in Hfresh.
  congruence.
Qed.

(** From [w] to [w'] no file outside the directory [d] changed. *)
Definition writes_in (d : string) (w w' : world) : Prop :=
  forall q, path_parent q <> d -> fs_files (w_fs w') !! q = fs_files (w_fs w) !! q.

#[export] Instance writes_in_trans d : Transitive (writes_in d).
Proof. intros w1 w2 w3 H12 H23 q Hq. by rewrite H23, H12. Qed.

Lemma writes_in_frame d w w' : w_fs w' = w_fs w -> writes_in d w w'.
Proof. intros Heq q _. by rewrite Heq. Qed.

(** The renaming keeps the proposed names in their directory, and the
    split writes only to the renamed names. *)
Lemma writes_in_resolve_split d sp pps xs progress (msg : list path -> string)
    (k : list path -> bool -> pyst world Z) :
  Forall (fun x => path_parent x = d) xs ->
  (forall outs b, preserves (writes_in d) (k outs b)) ->
  preserves (writes_in d)
    (outs <- resolve_names xs ;;
     _ <- say (msg outs) ;;
     success <- split_step sp pps outs progress ;; k outs success)%pyst.
Proof.
  intros Hxs Hk w. unfold st_bind at 1, resolve_names.
  destruct (FileManager.handle_filename_conflicts (w_fs w) xs) as [outs|] eqn:E;
    simpl; [|by intros ??].
  apply (FileManager.handle_filename_conflicts_parent _ d) in E; [|done].
  unfold st_bind, say, split_step. simpl.
  pose proof (PDFSplitter.split_pdf_written_only sp pps outs progress
                (PDFSplitter.mk_split_state (w_fs w) [])) as (_ & _ & Hf).
  destruct (PDFSplitter.split_pdf _ _ _ _ _) as [ok ss']. simpl in *.
  etrans; [|apply Hk]. intros q Hq. apply Hf. intros Hin.
  rewrite Forall_forall in E. by apply Hq, E.
Qed.

Create HintDb preserves.
#[local] Hint Resolve kept_same_fs writes_in_frame : preserves.
#[local] Hint Resolve fs_frame_ret fs_frame_lift fs_frame_get fs_frame_input
  fs_frame_run_io fs_frame_resolve fs_frame_say fs_frame_say_all : preserves.

(** A computation of [main] preserves [R] when its steps do: the binds and
    the branches are taken apart, the renaming and the split together when
    [R] is [kept], and what is left is a step that does not touch the files
    or one of the [preserves] hints. *)
Ltac solve_preserves :=
  repeat (cbv beta; match goal with
  | |- keeps _ => unfold keeps
  | |- preserves kept (st_bind (resolve_names _) _) =>
      apply (keeps_resolve_split _ _ _ _ (fun outs => _)); intros ??
  | |- preserves (writes_in _) (st_bind (resolve_names _) _) =>
      apply (writes_in_resolve_split _ _ _ _ _ (fun outs => _));
        [eauto using FileManager.generate_output_filenames_parent | intros ??]
  | |- preserves _ (st_bind (st_lift _) _) =>
      apply preserves_bind_lift; [|intros ? ?]
  | |- preserves _ (st_bind _ _) => apply preserves_bind; [apply _| |intros ?]
  | |- preserves _ (if ?b then _ else _) => destruct b
  | |- preserves _ (match ?x with _ => _ end) => destruct x
  | |- preserves _ _ => solve [eauto with preserves]
  | |- preserves _ _ => apply preserves_frame; [auto with preserves|auto with preserves]
  end).

Lemma keeps_main args : keeps (main args).
Proof.
  unfold main, print_available_printers, show_arguments, show_pdf_info,
    create_and_split, split_and_print, confirm_overwrite, print_step,
    print_options_step, confirm_printer, print_results, show_summary.
  solve_preserves.
Qed.

Lemma writes_in_main args p :
  arg_input_file args = Some p ->
  preserves (writes_in (FileManager.output_dir (FileManager.init p (arg_output args))))
    (main args).
Proof.
  intros Hin.
  unfold main, print_available_printers, show_arguments, show_pdf_info,
    create_and_split, split_and_print, confirm_overwrite, print_step,
    print_options_step, confirm_printer, print_results, show_summary.
  rewrite Hin. solve_preserves.
Qed.

(** [run] adds at most a line of output to what [main] leaves. *)
Lemma run_fs args w : w_fs (run args w).2 = w_fs (main args w).2.
Proof. unfold run. by destruct (main args w) as [[|[]] ?]. Qed.

(** C1 (safety). No run of the program changes a file that exists when it
    starts, whatever the arguments ([--force] included), the answers to the
    prompts, the printers and the documents: the parts go to names that
    did not exist.  The help of [--force] and the prompt say such files are
    overwritten. *)
Theorem run_keeps_existing_files args w p :
  fs_exists (w_fs w) p = true ->
  fs_files (w_fs (run args w).2) !! p = fs_files (w_fs w) !! p.
Proof. intros Hp. rewrite run_fs. by apply keeps_main. Qed.

(** C11 (safety). A run writes only into the output directory: a file
    whose directory is not [--output] (the input's directory without it)
    is the same after the run as before, whatever the arguments, the
    answers to the prompts and the printers.  The proposed names are in
    that directory and the renaming keeps the directory of each name. *)
Theorem run_writes_only_output_dir args w p q :
  arg_input_file args = Some p ->
  path_parent q <> FileManager.output_dir (FileManager.init p (arg_output args)) ->
  fs_files (w_fs (run args w).2) !! q = fs_files (w_fs w) !! q.
Proof. intros Hin Hq. rewrite run_fs. by apply (writes_in_main args p Hin w). Qed.

(** ** Runs that reach the split *)

(** The arguments and files of a run that loads the document: a PDF input
    with pages, a valid [--pages], and no [--list-printers]. *)
Definition loadable (args : Args) (w : world) (p : path) (pages : list Page)
    (enc : bool) : Prop :=
  arg_list_printers args = false /\ arg_input_file args = Some p /\
  fs_files (w_fs w) !! p = Some (PdfFile pages enc) /\ (p ∉ fs_other (w_fs w)) /\
  (0 < arg_pages args < Z.of_nat (length pages))%Z.

(** A run that passes every check: also no [--preview], and an output
    directory that can be created. *)
Definition splittable (args : Args) (w : world) (p : path) (pages : list Page)
    (enc : bool) : Prop :=
  loadable args w p pages enc /\ arg_preview args = false /\
  mkdir (FileManager.output_dir (FileManager.init p (arg_output args))) = POk tt.

(** The splitter after [load_pdf]. *)
Definition loaded_splitter (p : path) (pages : list Page) (enc : bool)
    : PDFSplitter.PDFSplitter Page :=
  PDFSplitter.mk_pdf_splitter p (Some (PDFSplitter.mk_reader pages enc)) (length pages).

(** The names of [generate_output_filenames]. *)
Definition proposed_names (args : Args) (p : path) (total : nat) : list path :=
  FileManager.part_path (FileManager.init p (arg_output args)) <$>
    seq 0 (Z.to_nat ((Z.of_nat total + arg_pages args - 1) / arg_pages args)%Z).

Lemma prints_show_arguments args p : prints (show_arguments args p) (arguments_lines args p).
Proof. apply prints_say_all. Qed.

(** What a loaded splitter shows with [--verbose]. *)
Lemma prints_show_pdf_info (sp : PDFSplitter.PDFSplitter Page) r :
  PDFSplitter.reader sp = Some r ->
  prints (show_pdf_info sp)
    (match PDFSplitter.get_pdf_info sp (stat_size (PDFSplitter.input_file sp))
             (pdf_metadata (PDFSplitter.input_file sp)) with
     | Some info => pdf_info_lines info
     | None => []
     end).
Proof.
  intros Hr. unfold show_pdf_info, PDFSplitter.get_pdf_info. rewrite Hr.
  apply prints_say_all.
Qed.

(** The warning of [validate_input] for a suffix other than [.pdf]. *)
Definition suffix_warning (p : path) : list string :=
  if String.eqb (py_lower (path_suffix p)) ".pdf" then []
  else ["Warning: '" +:+ path_str p +:+ "' may not be a PDF file."].

(** The lines printed before the split or the preview: the arguments with
    [--verbose], the suffix warning, ["Loading PDF file..."], the line of
    [load_pdf], and the document with [--verbose]. *)
Definition load_lines (args : Args) (p : path) (pages : list Page) (enc : bool)
    : list string :=
  (if arg_verbose args then arguments_lines args p else []) ++
  suffix_warning p ++
  ["Loading PDF file...";
   "Successfully loaded PDF: " +:+ py_str_nat (length pages) +:+ " pages"] ++
  (if arg_verbose args then
     match PDFSplitter.get_pdf_info (loaded_splitter p pages enc) (stat_size p)
             (pdf_metadata p) with
     | Some info => pdf_info_lines info
     | None => []
     end
   else []).

Lemma main_loadable args w p pages enc :
  loadable args w p pages enc ->
  main args w =
  (if arg_preview args then
     (lines <- st_lift (PDFSplitter.preview_split (loaded_splitter p pages enc)
                                                 (arg_pages args)) ;;
      _ <- say_all lines ;; st_ret 0%Z)%pyst
   else create_and_split args p (FileManager.init p (arg_output args))
          (loaded_splitter p pages enc))
    (with_out w (load_lines args p pages enc)).
Proof.
  intros (Hl & Hin & Hf & Ho & Hpps).
  assert (Hdom : p ∈ dom (fs_files (w_fs w))) by (by apply elem_of_dom).
  assert (Hex : fs_exists (w_fs w) p = true).
  { unfold fs_exists. by rewrite bool_decide_eq_true_2. }
  assert (Hval : FileManager.validate_input (w_fs w)
                   (FileManager.init p (arg_output args)) = (true, suffix_warning p)).
  { unfold FileManager.validate_input, fs_is_file, suffix_warning. simpl. rewrite Hex. simpl.
    rewrite bool_decide_eq_true_2 by done. simpl. by destruct (String.eqb _ _). }
  assert (Hload : PDFSplitter.load_pdf (w_fs w) (PDFSplitter.init p) =
                  (true, loaded_splitter p pages enc,
                   ["Successfully loaded PDF: " +:+ py_str_nat (length pages) +:+ " pages"])).
  { unfold PDFSplitter.load_pdf, PDFSplitter.open_reader. simpl.
    rewrite bool_decide_eq_false_2 by done. rewrite Hf. simpl.
    destruct (Nat.eqb_spec (length pages) 0); [lia|done]. }
  assert (Hvalid : Partition.validate_split_parameters (length pages)
                     (arg_pages args) = (true, "")).
  { unfold Partition.validate_split_parameters.
    destruct (Z.leb_spec (arg_pages args) 0); [lia|].
    destruct (Z.leb_spec (Z.of_nat (length pages)) (arg_pages args)); [lia|done]. }
  unfold main. rewrite Hl, Hin. unfold st_bind at 1, st_get. cbv beta iota zeta.
  rewrite Hex. cbn [negb].
  rewrite (st_bind_prints _ _ _ _ (prints_if _ _ _ (prints_show_arguments _ _))).
  rewrite Hval. cbv beta iota zeta.
  rewrite (st_bind_prints _ _ _ _ (prints_say_all _)). cbn [negb].
  rewrite (st_bind_prints _ _ _ _ (prints_say _)).
  rewrite Hload. cbv beta iota zeta.
  rewrite (st_bind_prints _ _ _ _ (prints_say_all _)). cbn [negb].
  rewrite (st_bind_prints _ _ _ _ (prints_if _ _ _ (prints_show_pdf_info (loaded_splitter p pages enc)
                                                     (PDFSplitter.mk_reader pages enc) eq_refl))).
  cbn [PDFSplitter.total_pages loaded_splitter]. rewrite Hvalid. cbn [negb].
  unfold load_lines. by rewrite !with_out_app.
Qed.

Lemma main_splittable args w p pages enc :
  splittable args w p pages enc ->
  main args w =
  split_and_print args p (FileManager.init p (arg_output args)) (loaded_splitter p pages enc)
    (proposed_names args p (length pages)) (with_out w (load_lines args p pages enc)).
Proof.
  intros (Hld & Hpv & Hmk). pose proof Hld as (_ & _ & _ & _ & Hpps).
  rewrite (main_loadable args w p pages enc Hld), Hpv.
  unfold create_and_split, FileManager.create_output_directory. rewrite Hmk.
  cbv beta iota zeta. rewrite (st_bind_prints _ _ _ _ prints_ret), with_out_nil.
  cbn [negb]. unfold st_bind at 1, st_lift, PDFSplitter.get_total_pages.
  rewrite FileManager.generate_output_filenames_pos by lia. done.
Qed.

(** [--force], or a first line of input that answers yes. *)
Definition overwrite_confirmed (args : Args) (w : world) : Prop :=
  arg_force args = true \/
  exists l rest, w_stdin w = l :: rest /\ answer_yes l = true.

Lemma confirm_overwrite_yes args outs w :
  overwrite_confirmed args w ->
  exists w' msgs, confirm_overwrite (arg_force args) outs w = (POk true, w') /\
    w_fs w' = w_fs w /\ w_calls w' = w_calls w /\ w_out w' = (w_out w ++ msgs)%list /\
    (arg_force args = true -> msgs = []).
Proof.
  unfold confirm_overwrite. intros Hyes.
  destruct (arg_force args) eqn:Hf; [exists w, []; by rewrite app_nil_r|].
  destruct Hyes as [?|(l & rest & Hs & Hy)]; [congruence|].
  unfold st_bind at 1, st_get. cbv beta iota zeta.
  case_bool_decide; [exists w, []; by rewrite app_nil_r|].
  run_prints. unfold st_bind, input_line. simpl. rewrite Hs. simpl. rewrite Hy.
  eexists _, _. split_and!; [reflexivity | done | done | | congruence].
  simpl. rewrite <- app_assoc. reflexivity.
Qed.

(** A path that does not exist can be written when nothing is denied. *)
Lemma writable_fresh (s : fs Page) o :
  fs_denied s = ∅ -> fs_exists s o = false -> PDFSplitter.writable s o.
Proof.
  intros Hd Hf. unfold fs_exists in Hf. apply orb_false_iff in Hf as [_ Hf].
  rewrite bool_decide_eq_false in Hf. unfold PDFSplitter.writable. rewrite Hd.
  split; [set_solver|done].
Qed.

(** The split of a loaded document into fresh names, when nothing is
    denied: every range is written to its name, in order. *)
Lemma split_step_fresh args w p pages enc confirmed rs :
  (0 < arg_pages args < Z.of_nat (length pages))%Z ->
  Partition._get_page_ranges (length pages) (arg_pages args) = POk rs ->
  (length rs <= length confirmed)%nat -> fs_denied (w_fs w) = ∅ ->
  Forall (fun o => fs_exists (w_fs w) o = false) confirmed ->
  split_step (loaded_splitter p pages enc) (arg_pages args) confirmed
    (arg_verbose args) w =
  (POk true,
   mk_world (mk_fs (write_all (fs_files (w_fs w))
                      (zip confirmed (map (PDFSplitter.page_chunk pages) rs)))
                   (fs_other (w_fs w)) (fs_denied (w_fs w)))
            (w_calls w) (w_stdin w)
            (w_out w ++ render_events
                          (PDFSplitter.part_events (arg_verbose args) (length rs) 0 confirmed rs))).
Proof.
  intros Hpps Hrs Hlen Hden Hfresh. unfold split_step.
  rewrite (PDFSplitter.split_pdf_success (loaded_splitter p pages enc)
             (PDFSplitter.mk_reader pages enc) _ confirmed _ _ rs);
    [done | done | done | simpl; lia | lia | done | lia |].
  eapply Forall_impl; [done|]. intros o Ho. by apply writable_fresh.
Qed.

(** The end of [split_and_print] after a successful split. *)
Definition after_split (args : Args) (p : path) (confirmed : list path) : pyst world Z :=
  (printed <- (if arg_print args then print_step args confirmed else st_ret (Some 0%nat)) ;;
   match printed with
   | None => st_ret 0%Z
   | Some successful_prints =>
       (_ <- show_summary args p (FileManager.init p (arg_output args)) confirmed
                          successful_prints ;;
        st_ret 0%Z)
   end)%pyst.

(** A run that passes the checks and goes on after the prompt splits the
    document into the renamed names and reaches the printing block. *)
Lemma main_after_split args w p pages enc :
  splittable args w p pages enc -> overwrite_confirmed args w ->
  fs_denied (w_fs w) = ∅ ->
  exists confirmed rs stdin' pre,
    FileManager.handle_filename_conflicts (w_fs w) (proposed_names args p (length pages))
      = Some confirmed /\
    Partition._get_page_ranges (length pages) (arg_pages args) = POk rs /\
    Partition.partition_plan (length pages) (arg_pages args) rs /\
    length confirmed = length rs /\
    (arg_force args = true -> pre = []) /\
    main args w =
    after_split args p confirmed
      (mk_world (mk_fs (write_all (fs_files (w_fs w))
                          (zip confirmed (map (PDFSplitter.page_chunk pages) rs)))
                       (fs_other (w_fs w)) (fs_denied (w_fs w)))
                (w_calls w) stdin'
                (w_out w ++ load_lines args p pages enc ++ pre
                 ++ [nl +:+ "Splitting PDF into " +:+ py_str_nat (length confirmed) +:+ " files..."]
                 ++ render_events (PDFSplitter.part_events (arg_verbose args) (length rs) 0
                                     confirmed rs)
                 ++ [nl +:+ check_mark +:+ " Successfully created "
                     +:+ py_str_nat (length confirmed) +:+ " PDF files"])%list).
Proof.
  intros Hsp Hyes Hden. pose proof Hsp as ((_ & _ & _ & _ & Hpps) & _ & _).
  set (outs := proposed_names args p (length pages)).
  set (w0 := with_out w (load_lines args p pages enc)).
  destruct (confirm_overwrite_yes args outs w0 Hyes)
    as (w1 & pre & E1 & Hfs1 & Hio1 & Hout1 & Hpre).
  destruct (FileManager.handle_filename_conflicts_some (w_fs w) outs) as [confirmed Ec].
  pose proof (FileManager.handle_filename_conflicts_fresh _ _ _ Ec) as [Hfresh Hlen].
  destruct (Partition.get_page_ranges_is_plan (length pages) (arg_pages args))
    as (rs & Hrs & Hplan); [lia..|].
  pose proof (Partition.get_page_ranges_length (length pages) (arg_pages args) rs
                ltac:(lia) Hrs) as Hnr.
  unfold outs, proposed_names in Hlen. rewrite length_fmap, length_seq in Hlen.
  assert (Er : resolve_names outs w1 = (POk confirmed, w1)).
  { unfold resolve_names. rewrite Hfs1. change (w_fs w0) with (w_fs w). by rewrite Ec. }
  exists confirmed, rs, (w_stdin w1), pre. split_and!; [done|done|done|lia|done|].
  rewrite (main_splittable args w p pages enc Hsp).
  unfold split_and_print. fold outs. fold w0. rewrite (st_bind_ok _ _ _ _ _ E1).
  cbn [negb]. rewrite (st_bind_ok _ _ _ _ _ Er).
  rewrite (st_bind_prints _ _ _ _ (prints_say _)).
  rewrite (st_bind_ok _ _ _ _ _ (split_step_fresh args _ p pages enc confirmed rs
             Hpps Hrs ltac:(lia) ltac:(by rewrite with_out_fs, Hfs1)
             ltac:(by rewrite with_out_fs, Hfs1))).
  cbn [negb]. rewrite (st_bind_prints _ _ _ _ (prints_say _)).
  unfold after_split. simpl. rewrite Hfs1, Hio1, Hout1. unfold with_out. simpl.
  do 2 f_equal. rewrite <- !app_assoc. reflexivity.
Qed.

(** The end of a run without [--print]: the summary, then 0. *)
Lemma after_split_no_print args p confirmed w :
  arg_print args = false ->
  exists msgs, after_split args p confirmed w = (POk 0%Z, with_out w msgs).
Proof.
  intros Hpr. unfold after_split. rewrite Hpr.
  unfold st_bind at 1. cbv beta iota delta [st_ret]. unfold show_summary. run_prints.
  by eexists.
Qed.

(** The files the split writes to the renamed names read back, in order,
    to the pages of the document. *)
Lemma split_files_read_back args w p pages enc confirmed rs :
  splittable args w p pages enc ->
  FileManager.handle_filename_conflicts (w_fs w) (proposed_names args p (length pages))
    = Some confirmed ->
  Partition.partition_plan (length pages) (arg_pages args) rs ->
  length confirmed = length rs ->
  mapM (PDFSplitter.read_pdf_pages
          (mk_fs (write_all (fs_files (w_fs w))
                    (zip confirmed (map (PDFSplitter.page_chunk pages) rs)))
                 (fs_other (w_fs w)) (fs_denied (w_fs w)))) confirmed
    = Some (map (PDFSplitter.page_chunk pages) rs) /\
  concat (map (PDFSplitter.page_chunk pages) rs) = pages.
Proof.
  intros ((_ & _ & _ & _ & Hpps) & _ & _) Ec Hplan Hlen. split.
  - apply PDFSplitter.read_back_write_all; [rewrite length_map; lia|].
    by eapply FileManager.confirmed_part_names_nodup.
  - unfold Partition.partition_plan in Hplan.
    rewrite (PDFSplitter.plan_concat_chunks pages (arg_pages args) 1 rs);
      [by rewrite drop_0 | lia | done | lia].
Qed.

(** C2 (roundtrip). A run that passes the checks, with [--force] or a yes
    to the prompt, and no [--print], exits with 0, and the files it
    creates are fresh, pairwise distinct, and read back in order, their
    pages concatenated, give the input document. *)
Theorem run_split_roundtrip args w p pages enc :
  splittable args w p pages enc -> arg_print args = false ->
  overwrite_confirmed args w -> fs_denied (w_fs w) = ∅ ->
  (run args w).1 = 0%Z /\
  exists confirmed chunks,
    Forall (fun o => fs_exists (w_fs w) o = false) confirmed /\
    NoDup confirmed /\
    mapM (PDFSplitter.read_pdf_pages (w_fs (run args w).2)) confirmed = Some chunks /\
    concat chunks = pages.
Proof.
  intros Hsp Hpr Hyes Hden.
  destruct (main_after_split args w p pages enc Hsp Hyes Hden)
    as (confirmed & rs & stdin' & pre & Ec & Hrs & Hplan & Hlen & Hpre & Hmain).
  destruct (split_files_read_back args w p pages enc confirmed rs Hsp Ec Hplan Hlen)
    as [Hread Hcat].
  unfold run. rewrite Hmain.
  match goal with |- context [after_split args p confirmed ?w0] =>
    destruct (after_split_no_print args p confirmed w0 Hpr) as [msgs ->] end.
  cbv beta iota. split; [done|]. cbn [snd]. rewrite with_out_fs. cbn [w_fs fs_files].
  exists confirmed, (map (PDFSplitter.page_chunk pages) rs). split_and!; [| |done|done].
  - by apply (FileManager.handle_filename_conflicts_fresh _ _ _ Ec).
  - by eapply FileManager.confirmed_part_names_nodup.
Qed.

(** C14 (functional). The whole output of a run that passes the checks,
    with [--force] and without [--print]: after the lines of the loading
    (the [--verbose] blocks, the suffix warning of [validate_input], the
    line of [load_pdf]), ["Splitting PDF into n files..."], for each part
    the line of [print_progress] (with [--verbose]) and the ["Created: ..."]
    line of [split_pdf], the success line, and the summary.  The program
    exits with 0. *)
Theorem run_split_output args w p pages enc :
  splittable args w p pages enc -> arg_force args = true -> arg_print args = false ->
  fs_denied (w_fs w) = ∅ ->
  exists confirmed rs,
    FileManager.handle_filename_conflicts (w_fs w) (proposed_names args p (length pages))
      = Some confirmed /\
    Partition._get_page_ranges (length pages) (arg_pages args) = POk rs /\
    (run args w).1 = 0%Z /\
    w_out (run args w).2 =
      (w_out w ++ load_lines args p pages enc
       ++ [nl +:+ "Splitting PDF into " +:+ py_str_nat (length confirmed) +:+ " files..."]
       ++ render_events (PDFSplitter.part_events (arg_verbose args) (length rs) 0 confirmed rs)
       ++ [nl +:+ check_mark +:+ " Successfully created " +:+ py_str_nat (length confirmed)
           +:+ " PDF files"]
       ++ summary_lines args p (FileManager.init p (arg_output args)) confirmed 0)%list.
Proof.
  intros Hsp Hf Hpr Hden.
  destruct (main_after_split args w p pages enc Hsp (or_introl Hf) Hden)
    as (confirmed & rs & stdin' & pre & Ec & Hrs & _ & _ & Hpre & Hmain).
  rewrite (Hpre Hf) in Hmain. exists confirmed, rs. split_and!; [done | done | |].
  all: unfold run; rewrite Hmain; unfold after_split; rewrite Hpr;
    unfold st_bind at 1; cbv beta iota delta [st_ret]; unfold show_summary; run_prints;
    unfold st_ret; cbv beta iota.
  - done.
  - cbn [snd w_out with_out]. rewrite <- ?app_assoc. reflexivity.
Qed.

(** The options the printing block passes on: the parsed ones, or none
    after the warning. *)
Definition print_options_used (o : option string) : py_dict string string :=
  match parse_print_options o with POk d => d | PErr _ => [] end.

Lemma print_options_step_ok o :
  exists msgs, forall w, print_options_step o w = (POk (print_options_used o), with_out w msgs).
Proof.
  unfold print_options_step, print_options_used.
  destruct (parse_print_options o) as [d|e] eqn:E.
  - exists []. intros w. by rewrite with_out_nil.
  - rewrite (parse_print_options_err o e E).
    exists ["Warning: Invalid print options format. Using defaults."]. intros w.
    by rewrite (st_bind_prints _ _ _ _ (prints_say _)).
Qed.

(** [print_results] prints and counts the successful jobs. *)
Lemma print_results_ok files results :
  exists msgs, forall w,
    print_results files results w =
    (POk (length (filter (fun r => r.2.1 = true) results)), with_out w msgs).
Proof.
  unfold print_results. eexists. intros w. run_prints. reflexivity.
Qed.

(** The printing block without [--printer]: [print_multiple_files] on the
    files as they are, then the count of the successful jobs; its output
    holds the lines of [print_multiple_files] between its own. *)
Lemma print_step_no_printer args files w :
  truthy (arg_printer args) = None ->
  exists pre post,
  print_step args files w =
  (POk (Some (length (filter (fun r => r.2.1 = true)
     (foldl (fun d f => py_dict_set d (path_str f)
               (file_outcome (PrinterManager.init platform_system) (w_fs w) f
                  (arg_printer args) (print_options_used (arg_print_options args))))
            [] files)))),
   mk_world (w_fs w)
     (w_calls w ++ concat (map (fun f => file_calls (PrinterManager.init platform_system)
                                           (w_fs w) f (arg_printer args)
                                           (print_options_used (arg_print_options args)))
                               files))
     (w_stdin w)
     (w_out w ++ pre
      ++ render_events (print_events (PrinterManager.init platform_system) (w_fs w)
                          (arg_printer args) (print_options_used (arg_print_options args))
                          (arg_verbose args) (length files) 0 files)
      ++ post)).
Proof.
  intros Hpn. unfold print_step. run_prints.
  destruct (print_options_step_ok (arg_print_options args)) as [m1 Hm].
  rewrite (st_bind_ok _ _ _ _ _ (Hm _)).
  unfold confirm_printer. rewrite Hpn. run_prints. cbn [negb]. run_prints.
  unfold st_bind at 1, st_get. cbv beta iota.
  match goal with |- context [st_bind (run_io (print_multiple_files ?pm ?s ?fs ?pn ?po ?pr)) _ ?w1] =>
    pose proof (print_loop_spec pm s pn po pr (length fs) 0 fs [] (mk_io_state (w_calls w1) [])) as E;
    rewrite (st_bind_ok _ _ _ _ _ (run_io_ok (print_multiple_files pm s fs pn po pr) _ _ _ E))
  end.
  match goal with |- context [print_results files ?results] =>
    destruct (print_results_ok files results) as [m2 Hr] end.
  rewrite (st_bind_ok _ _ _ _ _ (Hr _)).
  exists ([nl +:+ "Initializing printer..."] ++ m1
          ++ ["Printing " +:+ py_str_nat (length files) +:+ " files..."])%list, m2.
  unfold with_out. simpl. by simplify_list_eq.
Qed.

(** C12 (functional). With [--print] and no [--printer], a run that passes
    the checks sends the files it created, and only them, to
    [print_file] one after the other in order, with the options parsed
    from [--print-options] (none after a malformed one); it exits with 0
    whatever the outcome of the print jobs.  The files sent are the
    renamed part names, and read back in that order they hold the pages
    of the document. *)
Theorem run_prints_created_files args w p pages enc :
  splittable args w p pages enc -> arg_print args = true ->
  truthy (arg_printer args) = None ->
  overwrite_confirmed args w -> fs_denied (w_fs w) = ∅ ->
  exists confirmed chunks,
    FileManager.handle_filename_conflicts (w_fs w) (proposed_names args p (length pages))
      = Some confirmed /\
    mapM (PDFSplitter.read_pdf_pages (w_fs (run args w).2)) confirmed = Some chunks /\
    concat chunks = pages /\
    (run args w).1 = 0%Z /\
    w_calls (run args w).2 =
    (w_calls w ++
     concat (map (fun f => file_calls (PrinterManager.init platform_system)
                             (w_fs (run args w).2) f (arg_printer args)
                             (print_options_used (arg_print_options args)))
                 confirmed))%list.
Proof.
  intros Hsp Hpr Hpn Hyes Hden.
  destruct (main_after_split args w p pages enc Hsp Hyes Hden)
    as (confirmed & rs & stdin' & pre0 & Ec & Hrs & Hplan & Hlen & _ & Hmain).
  destruct (split_files_read_back args w p pages enc confirmed rs Hsp Ec Hplan Hlen)
    as [Hread Hcat].
  exists confirmed, (map (PDFSplitter.page_chunk pages) rs).
  unfold run. rewrite Hmain. unfold after_split. rewrite Hpr.
  match goal with |- context [st_bind (print_step args confirmed) _ ?w0] =>
    destruct (print_step_no_printer args confirmed w0 Hpn) as (pre & post & Hps) end.
  rewrite (st_bind_ok _ _ _ _ _ Hps). cbv beta iota. unfold show_summary. run_prints.
  by split_and!.
Qed.

(** C13 (functional). With [--print] and no [--printer], a run that passes
    the checks ends its output with the line ["Print jobs sent: k/n"] of
    the summary, where [n] is the number of files it created (the names
    the renaming confirmed) and [k] the number of them whose
    [print_file] succeeded. *)
Theorem run_reports_print_jobs args w p pages enc :
  splittable args w p pages enc -> arg_print args = true ->
  truthy (arg_printer args) = None ->
  overwrite_confirmed args w -> fs_denied (w_fs w) = ∅ ->
  exists confirmed,
    FileManager.handle_filename_conflicts (w_fs w) (proposed_names args p (length pages))
      = Some confirmed /\
    (run args w).1 = 0%Z /\
    last (w_out (run args w).2) =
    Some ("Print jobs sent: "
          +:+ py_str_nat (length (filter (fun f =>
                (file_outcome (PrinterManager.init platform_system) (w_fs (run args w).2) f
                   (arg_printer args) (print_options_used (arg_print_options args))).1 = true)
                confirmed))
          +:+ "/" +:+ py_str_nat (length confirmed)).
Proof.
  intros Hsp Hpr Hpn Hyes Hden.
  destruct (main_after_split args w p pages enc Hsp Hyes Hden)
    as (confirmed & rs & stdin' & pre0 & Ec & _ & _ & _ & _ & Hmain).
  exists confirmed. split; [done|].
  unfold run. rewrite Hmain. unfold after_split. rewrite Hpr.
  match goal with |- context [st_bind (print_step args confirmed) _ ?w0] =>
    destruct (print_step_no_printer args confirmed w0 Hpn) as (pre & post & Hps) end.
  rewrite (st_bind_ok _ _ _ _ _ Hps). cbv beta iota. unfold show_summary, summary_lines.
  rewrite Hpr. run_prints. unfold st_ret. cbv beta iota. split; [done|].
  cbn [snd w_out w_fs with_out].
  rewrite (foldl_dict_set_fresh _ _ _ _ _ []);
    [| by eapply FileManager.confirmed_part_names_str_nodup
     | apply Forall_forall; intros; simpl; set_solver].
  rewrite app_nil_l, results_success_count.
  by rewrite (app_assoc _ [_; _; _; _]), last_snoc.
Qed.

Lemma render_events_printed l evs : Printed l ∈ evs -> l ∈ render_events evs.
Proof.
  unfold render_events. induction evs as [|ev evs IH]; [set_solver|].
  simpl. rewrite elem_of_cons, elem_of_app. intros [<-|Hl]; [left; set_solver | right; auto].
Qed.

(** C15 (liveness). With [--print] and no [--printer], every file the run
    created gets its report: the output of the run holds, for each of
    them, the line ["✓ Printed: name"] or ["✗ Failed: name - message"] of
    its own outcome, also after earlier print jobs failed, since the loop
    of [print_multiple_files] goes on after a failure. *)
Theorem run_reports_every_print_job args w p pages enc :
  splittable args w p pages enc -> arg_print args = true ->
  truthy (arg_printer args) = None ->
  overwrite_confirmed args w -> fs_denied (w_fs w) = ∅ ->
  exists confirmed,
    FileManager.handle_filename_conflicts (w_fs w) (proposed_names args p (length pages))
      = Some confirmed /\
    forall f, f ∈ confirmed ->
      print_outcome_line f (file_outcome (PrinterManager.init platform_system)
                              (w_fs (run args w).2) f (arg_printer args)
                              (print_options_used (arg_print_options args)))
        ∈ w_out (run args w).2.
Proof.
  intros Hsp Hpr Hpn Hyes Hden.
  destruct (main_after_split args w p pages enc Hsp Hyes Hden)
    as (confirmed & rs & stdin' & pre0 & Ec & _ & _ & _ & _ & Hmain).
  exists confirmed. split; [done|]. intros f Hf.
  unfold run. rewrite Hmain. unfold after_split. rewrite Hpr.
  match goal with |- context [st_bind (print_step args confirmed) _ ?w0] =>
    destruct (print_step_no_printer args confirmed w0 Hpn) as (pre & post & Hps) end.
  rewrite (st_bind_ok _ _ _ _ _ Hps). cbv beta iota. unfold show_summary.
  run_prints. unfold st_ret. cbv beta iota. cbn [snd w_out w_fs with_out].
  rewrite !elem_of_app. left. right. right. left.
  by apply render_events_printed, print_events_outcome.
Qed.

(** ** Runs that stop early *)

(** The check of an unknown [--printer]: the warning, the list, the prompt,
    and [False] (or [EOFError]) without a yes. *)
Lemma confirm_printer_unknown pm printer w pn avail io' :
  truthy printer = Some pn ->
  list_printers pm (mk_io_state (w_calls w) []) = (POk avail, io') -> pn ∉ avail ->
  (forall l rest, w_stdin w = l :: rest -> answer_yes l = false) ->
  confirm_printer pm printer w =
  (if bool_decide (w_stdin w = []) then PErr EOFError else POk false,
   mk_world (w_fs w) (io_calls io') (tail (w_stdin w))
     (w_out w ++ render_events (io_events io') ++
      ["Warning: Printer '" +:+ pn +:+ "' not found.";
                  "Available printers: " +:+ py_join_str ", " avail;
                  "Continue with default printer? (y/N): "]
      ++ (if bool_decide (w_stdin w = []) then [] else ["Printing cancelled."]))).
Proof.
  intros Hpn Hlist Hnot Hno. unfold confirm_printer. rewrite Hpn.
  unfold st_bind at 1, run_io. rewrite Hlist. cbv beta iota.
  rewrite bool_decide_eq_false_2 by done. run_prints.
  unfold st_bind at 1, input_line. simpl.
  destruct (w_stdin w) as [|l rest] eqn:Hs; simpl.
  - by rewrite <- !app_assoc.
  - rewrite (Hno l rest eq_refl). run_prints. unfold with_out. simpl.
    by rewrite <- !app_assoc.
Qed.

(** C18 (functional). When [--printer] names a printer that
    [list_printers] does not report, the printing block warns, lists the
    printers it found and asks; an answer other than [y] or [yes] ends it
    with "Printing cancelled." and the end of the input with [EOFError],
    and in both cases no print job is sent: the only calls are those of
    the listing. *)
Theorem print_step_unknown_printer args files w pn avail io' :
  truthy (arg_printer args) = Some pn ->
  list_printers (PrinterManager.init platform_system) (mk_io_state (w_calls w) []) =
    (POk avail, io') ->
  pn ∉ avail ->
  (forall l rest, w_stdin w = l :: rest -> answer_yes l = false) ->
  exists pre,
    print_step args files w =
    (if bool_decide (w_stdin w = []) then PErr EOFError else POk None,
     mk_world (w_fs w) (io_calls io') (tail (w_stdin w))
       (w_out w ++ pre ++ render_events (io_events io') ++
        ["Warning: Printer '" +:+ pn +:+ "' not found.";
         "Available printers: " +:+ py_join_str ", " avail;
         "Continue with default printer? (y/N): "]
        ++ (if bool_decide (w_stdin w = []) then [] else ["Printing cancelled."]))).
Proof.
  intros Hpn Hlist Hnot Hno. unfold print_step. run_prints.
  destruct (print_options_step_ok (arg_print_options args)) as [m1 Hm].
  rewrite (st_bind_ok _ _ _ _ _ (Hm _)), with_out_app.
  pose proof (confirm_printer_unknown (PrinterManager.init platform_system) (arg_printer args)
                (with_out w ([nl +:+ "Initializing printer..."] ++ m1)%list) pn avail io'
                Hpn Hlist Hnot Hno) as Hc.
  exists ([nl +:+ "Initializing printer..."] ++ m1)%list.
  simpl in Hc. destruct (w_stdin w) as [|l rest] eqn:Hs; simpl in Hc |- *.
  - rewrite (st_bind_err _ _ _ _ _ Hc). by rewrite <- !app_assoc.
  - rewrite (st_bind_ok _ _ _ _ _ Hc). simpl. by rewrite <- !app_assoc.
Qed.

(** C34 (functional). [--preview] on a loadable document exits with 0 and
    changes nothing but the output: no directory, no file, no print job,
    no input read; it prints the preview of [preview_split] after the
    loading message. *)
Theorem run_preview args w p pages enc :
  loadable args w p pages enc -> arg_preview args = true ->
  exists lines,
    PDFSplitter.preview_split (loaded_splitter p pages enc) (arg_pages args) = POk lines /\
    run args w = (0%Z, with_out w (load_lines args p pages enc ++ lines)).
Proof.
  intros Hld Hpv. unfold run. rewrite (main_loadable args w p pages enc Hld), Hpv.
  destruct Hld as (_ & _ & _ & _ & Hpps).
  destruct (PDFSplitter.preview_split_ok (loaded_splitter p pages enc)
              (PDFSplitter.mk_reader pages enc) (arg_pages args)) as [lines Hl];
    [done | lia |].
  exists lines. split; [done|].
  unfold st_bind at 1, st_lift. rewrite Hl. run_prints. done.
Qed.

(** C17 (error). When the output directory cannot be created, a run that
    loaded its document exits with 1 and only prints: after the lines of
    the loading, the message of [create_output_directory], its own for a
    [PermissionError] and the text of the exception otherwise. *)
Theorem run_mkdir_fails args w p pages enc e :
  loadable args w p pages enc -> arg_preview args = false ->
  mkdir (FileManager.output_dir (FileManager.init p (arg_output args))) = PErr e ->
  run args w =
  (1%Z, with_out w (load_lines args p pages enc ++
     [if FileManager.is_permission_error e
      then "Error: Permission denied creating directory '"
           +:+ FileManager.output_dir (FileManager.init p (arg_output args)) +:+ "'"
      else "Error creating output directory: " +:+ py_str_exc e])).
Proof.
  intros Hld Hpv Hmk. unfold run. rewrite (main_loadable args w p pages enc Hld), Hpv.
  unfold create_and_split, FileManager.create_output_directory. rewrite Hmk.
  cbv beta iota zeta. destruct (FileManager.is_permission_error e); run_prints; done.
Qed.

(** C10 (error). A run on an input that is not a PDF with pages, or with a
    [--pages] that is not between 0 and the number of pages (both
    excluded), exits with 1 before it changes anything: it only prints. *)
Theorem run_rejects_input args w p :
  arg_list_printers args = false -> arg_input_file args = Some p ->
  ~ (exists pages enc, fs_files (w_fs w) !! p = Some (PdfFile pages enc) /\
       (p ∉ fs_other (w_fs w)) /\ (0 < arg_pages args < Z.of_nat (length pages))%Z) ->
  exists msgs, run args w = (1%Z, with_out w msgs).
Proof.
  intros Hl Hin Hnot. unfold run, main. rewrite Hl, Hin.
  unfold st_bind at 1, st_get. cbv beta iota zeta.
  destruct (fs_exists (w_fs w) p); cbn [negb]; [|run_prints; by eexists].
  rewrite (st_bind_prints _ _ _ _ (prints_if _ _ _ (prints_show_arguments _ _))).
  destruct (FileManager.validate_input (w_fs w) _) as [[] vmsgs];
    cbv beta iota zeta; run_prints; cbn [negb]; [|by eexists].
  run_prints.
  destruct (PDFSplitter.load_pdf (w_fs w) (PDFSplitter.init p)) as [[[] sp] lmsgs] eqn:Hload;
    cbv beta iota zeta; run_prints; cbn [negb]; [|by eexists].
  apply PDFSplitter.load_pdf_loaded in Hload as (pages & enc & Ho & Hf & Hne & -> & ->).
  match goal with |- context [show_pdf_info ?sp] =>
    rewrite (st_bind_prints _ _ _ _ (prints_if _ _ _
               (prints_show_pdf_info sp (PDFSplitter.mk_reader pages enc) eq_refl))) end.
  cbn [PDFSplitter.total_pages].
  unfold Partition.validate_split_parameters.
  destruct (Z.leb_spec (arg_pages args) 0); [cbn [negb]; run_prints; by eexists|].
  destruct (Z.leb_spec (Z.of_nat (length pages)) (arg_pages args));
    [cbn [negb]; run_prints; by eexists|].
  exfalso. apply Hnot. exists pages, enc. split_and!; [done|done|lia|lia].
Qed.

(** The prompt when a proposed file exists and [--force] is not given:
    the listing, then the question. *)
Lemma confirm_overwrite_prompt outs w :
  Exists (fun o => fs_exists (w_fs w) o = true) outs ->
  exists pre,
  confirm_overwrite false outs w =
  match w_stdin w with
  | [] => (PErr EOFError,
           mk_world (w_fs w) (w_calls w) []
             (w_out w ++ pre ++ [nl +:+ "Overwrite existing files? (y/N): "]))
  | l :: rest =>
      if answer_yes l
      then (POk true, mk_world (w_fs w) (w_calls w) rest
                        (w_out w ++ pre ++ [nl +:+ "Overwrite existing files? (y/N): "]))
      else (POk false, mk_world (w_fs w) (w_calls w) rest
                         (w_out w ++ pre ++ [nl +:+ "Overwrite existing files? (y/N): ";
                                             "Operation cancelled."]))
  end.
Proof.
  intros Hex. unfold confirm_overwrite, st_bind at 1, st_get. cbv beta iota zeta.
  rewrite bool_decide_eq_false_2.
  - run_prints. match goal with |- context [with_out w ?L] => exists L end.
    unfold st_bind at 1, input_line. simpl.
    destruct (w_stdin w) as [|l rest]; simpl; [by simplify_list_eq|].
    destruct (answer_yes l); simpl; [by simplify_list_eq|].
    run_prints. unfold with_out. simpl. by simplify_list_eq.
  - intros Hnil. apply Exists_exists in Hex as (o & Ho & Hoe).
    assert (Hf : o ∈ filter (fun f => fs_exists (w_fs w) f = true) outs)
      by (by apply list_elem_of_filter).
    rewrite Hnil in Hf. by apply not_elem_of_nil in Hf.
Qed.

(** C9 (functional). Without [--force], when a proposed name exists, the
    run lists the existing names and asks; an answer other than [y] or
    [yes] prints "Operation cancelled." and exits with 0, the end of the
    input exits with 1 ([EOFError] reaches the handler of [__main__], which
    prints it as an unexpected error), and in both cases nothing but the
    input read and the output changes. *)
Theorem run_overwrite_declined args w p pages enc :
  splittable args w p pages enc -> arg_force args = false ->
  Exists (fun o => fs_exists (w_fs w) o = true) (proposed_names args p (length pages)) ->
  (forall l rest, w_stdin w = l :: rest -> answer_yes l = false) ->
  exists pre,
    run args w =
    (if bool_decide (w_stdin w = []) then 1%Z else 0%Z,
     mk_world (w_fs w) (w_calls w) (tail (w_stdin w))
       (w_out w ++ pre ++ [nl +:+ "Overwrite existing files? (y/N): "]
        ++ (if bool_decide (w_stdin w = []) then [nl +:+ "Unexpected error: " +:+ py_str_exc EOFError]
            else ["Operation cancelled."]))).
Proof.
  intros Hsp Hf Hex Hno. unfold run. rewrite (main_splittable args w p pages enc Hsp).
  unfold split_and_print. rewrite Hf.
  destruct (confirm_overwrite_prompt _ (with_out w (load_lines args p pages enc)) Hex)
    as [pre Ec].
  exists (load_lines args p pages enc ++ pre)%list. simpl in Ec.
  destruct (w_stdin w) as [|l rest] eqn:Hs; simpl in Ec |- *.
  - rewrite (st_bind_err _ _ _ _ _ Ec). simpl. by simplify_list_eq.
  - rewrite (Hno l rest eq_refl) in Ec. rewrite (st_bind_ok _ _ _ _ _ Ec). simpl.
    by simplify_list_eq.
Qed.

(** C22 (roundtrip). [--print-options] written as [k1=v1,k2=v2,...], with
    distinct keys and no blank, ['='] or [','] inside keys and values, is
    read back as exactly these options, in order. *)
Theorem parse_print_options_roundtrip kv kvs :
  Forall plain_option (kv :: kvs) -> NoDup (kv :: kvs).*1 ->
  parse_print_options (Some (py_join ","%char (option_text kv) (option_text <$> kvs))) =
  POk (kv :: kvs).
Proof.
  intros Hp Hnd. unfold parse_print_options.
  rewrite py_split_join.
  - change (option_text kv :: (option_text <$> kvs)) with (option_text <$> (kv :: kvs)).
    rewrite parse_options_loop_plain; [|done|done|apply Forall_forall; set_solver].
    destruct (String.eqb_spec (py_join ","%char (option_text kv) (option_text <$> kvs)) "")
      as [E|_]; [|done].
    exfalso. revert E. apply py_join_nonempty. intros E.
    apply (f_equal String.length) in E. unfold option_text in E.
    rewrite !string_length_app in E. simpl in E. lia.
  - change (option_text kv :: (option_text <$> kvs)) with (option_text <$> (kv :: kvs)).
    apply Forall_fmap. eapply Forall_impl; [done|]. apply option_text_no_comma.
Qed.

(** C23 (error). One option that is not [key=value] with a single ['=']
    discards all the options, the well-formed ones included: the printing
    block prints a warning and goes on with no option. *)
Theorem print_options_malformed s option w :
  s <> "" -> option ∈ py_split ","%char s -> length (py_split "="%char option) <> 2%nat ->
  print_options_step (Some s) w =
  (POk [], with_out w ["Warning: Invalid print options format. Using defaults."]).
Proof.
  intros Hne Hin Hlen. unfold print_options_step, parse_print_options.
  destruct (String.eqb_spec s "") as [?|_]; [done|].
  rewrite (parse_options_loop_bad _ _ [] Hin Hlen). by run_prints.
Qed.

End Main.

Arguments world : clear implicits.

(** ** Concrete runs *)

#[local] Existing Instance sample_exc_text.

Definition demo_input : path := mk_path "in" "doc.pdf".
Definition demo_part1 : path := mk_path "out" "doc_part_001.pdf".

(** [in/doc.pdf] has five pages; [out/doc_part_001.pdf] exists already; the
    only line of input is [n]; nothing has been printed yet. *)
Definition demo_world : world nat :=
  mk_world (mk_fs (<[demo_input := PdfFile [1; 2; 3; 4; 5]%nat false]>
                    (<[demo_part1 := OtherFile]> ∅)) ∅ ∅) [] ["n"] [].

Definition mkdir_ok (d : string) : pyres unit := POk tt.

(** A document of one megabyte without metadata. *)
Definition demo_size (p : path) : Z := 1048576.
Definition demo_metadata (p : path) : pyres (option (py_dict string string)) := POk None.

#[local] Abbreviation drun := (@run nat demo_os _ "Linux" mkdir_ok demo_size demo_metadata).

(** [doc.pdf --pages P --output out --print-options copies=2]. *)
Definition demo_args (pages : Z) (force print preview : bool) : Args :=
  mk_args (Some demo_input) pages (Some "out") print None preview false
          (Some "copies=2") force false.

Lemma demo_loadable force print preview :
  loadable (demo_args 2 force print preview) demo_world demo_input [1; 2; 3; 4; 5]%nat false.
Proof. split_and!; try reflexivity. set_solver. Qed.

Lemma demo_splittable force print :
  @splittable nat mkdir_ok (demo_args 2 force print false) demo_world demo_input
    [1; 2; 3; 4; 5]%nat false.
Proof. split; [apply demo_loadable | split; reflexivity]. Qed.

Example run_writes_only_output_dir_witness :
  arg_input_file (demo_args 2 true true false) = Some demo_input /\
  path_parent demo_input <>
    FileManager.output_dir (FileManager.init demo_input (arg_output (demo_args 2 true true false))) /\
  fs_files (w_fs (drun (demo_args 2 true true false) demo_world).2) !! demo_input
  = fs_files (w_fs demo_world) !! demo_input.
Proof.
  assert (Hq : path_parent demo_input <>
    FileManager.output_dir (FileManager.init demo_input (arg_output (demo_args 2 true true false))))
    by (vm_compute; discriminate).
  split_and!; [reflexivity | exact Hq |].
  apply (@run_writes_only_output_dir nat demo_os _ "Linux" mkdir_ok demo_size demo_metadata
           _ _ demo_input _); [reflexivity | exact Hq].
Defined.

Example run_keeps_existing_files_witness :
  fs_exists (w_fs demo_world) demo_part1 = true /\
  fs_files (w_fs (drun (demo_args 2 true true false) demo_world).2) !! demo_part1
  = fs_files (w_fs demo_world) !! demo_part1.
Proof.
  split; [vm_compute; reflexivity|].
  apply run_keeps_existing_files. vm_compute. reflexivity.
Defined.

Example run_split_roundtrip_witness :
  (drun (demo_args 2 true false false) demo_world).1 = 0%Z /\
  exists confirmed chunks,
    Forall (fun o => fs_exists (w_fs demo_world) o = false) confirmed /\
    NoDup confirmed /\
    mapM (PDFSplitter.read_pdf_pages (w_fs (drun (demo_args 2 true false false) demo_world).2))
         confirmed = Some chunks /\
    concat chunks = [1; 2; 3; 4; 5]%nat.
Proof.
  apply (@run_split_roundtrip nat demo_os _ "Linux" mkdir_ok demo_size demo_metadata
           _ _ demo_input _ false);
    [apply demo_splittable | reflexivity | by left | reflexivity].
Defined.

Example run_prints_created_files_witness :
  exists confirmed chunks,
    FileManager.handle_filename_conflicts (w_fs demo_world)
      (proposed_names (demo_args 2 true true false) demo_input 5) = Some confirmed /\
    mapM (PDFSplitter.read_pdf_pages (w_fs (drun (demo_args 2 true true false) demo_world).2))
      confirmed = Some chunks /\
    concat chunks = [1; 2; 3; 4; 5]%nat /\
    (drun (demo_args 2 true true false) demo_world).1 = 0%Z /\
    w_calls (drun (demo_args 2 true true false) demo_world).2 =
    (w_calls demo_world ++
     concat (map (fun f => @file_calls demo_os nat (PrinterManager.init "Linux")
                             (w_fs (drun (demo_args 2 true true false) demo_world).2)
                             f None [("copies", "2")])
                 confirmed))%list.
Proof.
  apply (@run_prints_created_files nat demo_os _ "Linux" mkdir_ok demo_size demo_metadata
           (demo_args 2 true true false) demo_world demo_input [1; 2; 3; 4; 5]%nat false);
    [apply demo_splittable | reflexivity | reflexivity | by left | reflexivity].
Defined.

Example run_reports_print_jobs_witness :
  exists confirmed,
    FileManager.handle_filename_conflicts (w_fs demo_world)
      (proposed_names (demo_args 2 true true false) demo_input 5) = Some confirmed /\
    (drun (demo_args 2 true true false) demo_world).1 = 0%Z /\
    last (w_out (drun (demo_args 2 true true false) demo_world).2) =
    Some ("Print jobs sent: "
          +:+ py_str_nat (length (filter (fun f =>
                (@file_outcome demo_os nat (PrinterManager.init "Linux")
                   (w_fs (drun (demo_args 2 true true false) demo_world).2) f
                   None (print_options_used (Some "copies=2"))).1 = true)
                confirmed))
          +:+ "/" +:+ py_str_nat (length confirmed)).
Proof.
  apply (@run_reports_print_jobs nat demo_os _ "Linux" mkdir_ok demo_size demo_metadata
           (demo_args 2 true true false) demo_world demo_input [1; 2; 3; 4; 5]%nat false);
    [apply demo_splittable | reflexivity | reflexivity | by left | reflexivity].
Defined.

Example print_step_unknown_printer_witness :
  exists pre,
    @print_step nat demo_os _ "Linux"
      (mk_args (Some demo_input) 2 (Some "out") true (Some "HP") false false None false false)
      [demo_part1] demo_world =
    (POk None,
     mk_world (w_fs demo_world) [CallRun ["lpstat"; "-p"]] []
       (w_out demo_world ++ pre ++
        ["Warning: Printer 'HP' not found."; "Available printers: ";
         "Continue with default printer? (y/N): "; "Printing cancelled."])).
Proof.
  apply (@print_step_unknown_printer nat demo_os _ "Linux" _ [demo_part1] demo_world "HP" []
           (log_call (CallRun ["lpstat"; "-p"]) io_empty));
    [reflexivity | reflexivity | set_solver | intros l rest [= <- <-]; reflexivity].
Defined.

Example run_preview_witness :
  exists lines,
    PDFSplitter.preview_split (loaded_splitter demo_input [1; 2; 3; 4; 5]%nat false) 2
    = POk lines /\
    drun (demo_args 2 false false true) demo_world =
    (0%Z, with_out demo_world
            (@load_lines nat demo_size demo_metadata (demo_args 2 false false true)
               demo_input [1; 2; 3; 4; 5]%nat false ++ lines)).
Proof.
  apply (@run_preview nat demo_os _ "Linux" mkdir_ok demo_size demo_metadata
           (demo_args 2 false false true) demo_world demo_input [1; 2; 3; 4; 5]%nat false);
    [apply demo_loadable | reflexivity].
Defined.

Example run_mkdir_fails_witness :
  @run nat demo_os _ "Linux" (fun _ => PErr (OSError 13 "[Errno 13] Permission denied: 'out'"))
    demo_size demo_metadata (demo_args 2 true false false) demo_world =
  (1%Z, with_out demo_world
          (@load_lines nat demo_size demo_metadata (demo_args 2 true false false)
             demo_input [1; 2; 3; 4; 5]%nat false ++
           ["Error: Permission denied creating directory 'out'"])).
Proof.
  rewrite (@run_mkdir_fails nat demo_os _ "Linux" _ demo_size demo_metadata
             (demo_args 2 true false false) demo_world demo_input [1; 2; 3; 4; 5]%nat false
             (OSError 13 "[Errno 13] Permission denied: 'out'"));
    [reflexivity | apply demo_loadable | reflexivity | reflexivity].
Defined.

Example run_rejects_input_witness :
  exists msgs, drun (demo_args 5 true false false) demo_world = (1%Z, with_out demo_world msgs).
Proof.
  apply (@run_rejects_input nat demo_os _ "Linux" mkdir_ok demo_size demo_metadata
           _ _ demo_input); [reflexivity | reflexivity |].
  intros (pages & enc & Hf & _ & Hlt). vm_compute in Hf. injection Hf as <- _.
  simpl in Hlt. lia.
Defined.

Example run_overwrite_declined_witness :
  exists pre,
    drun (demo_args 2 false false false) demo_world =
    (0%Z, mk_world (w_fs demo_world) (w_calls demo_world) []
            (w_out demo_world ++ pre ++
             [nl +:+ "Overwrite existing files? (y/N): "; "Operation cancelled."])).
Proof.
  apply (@run_overwrite_declined nat demo_os _ "Linux" mkdir_ok demo_size demo_metadata
           (demo_args 2 false false false) demo_world demo_input [1; 2; 3; 4; 5]%nat false);
    [apply demo_splittable | reflexivity
    | vm_compute; apply Exists_cons_hd; reflexivity
    | intros l rest [= <- <-]; reflexivity].
Defined.

Example run_reports_every_print_job_witness :
  exists confirmed,
    FileManager.handle_filename_conflicts (w_fs demo_world)
      (proposed_names (demo_args 2 true true false) demo_input 5) = Some confirmed /\
    forall f, f ∈ confirmed ->
      print_outcome_line f (@file_outcome demo_os nat (PrinterManager.init "Linux")
                              (w_fs (drun (demo_args 2 true true false) demo_world).2) f
                              None (print_options_used (Some "copies=2")))
        ∈ w_out (drun (demo_args 2 true true false) demo_world).2.
Proof.
  apply (@run_reports_every_print_job nat demo_os _ "Linux" mkdir_ok demo_size demo_metadata
           (demo_args 2 true true false) demo_world demo_input [1; 2; 3; 4; 5]%nat false);
    [apply demo_splittable | reflexivity | reflexivity | by left | reflexivity].
Defined.

(** [doc.pdf --pages 2 --output out --force --verbose]. *)
Definition demo_verbose_args : Args :=
  mk_args (Some demo_input) 2 (Some "out") false None false false None true true.

Example run_split_output_witness :
  exists confirmed rs,
    FileManager.handle_filename_conflicts (w_fs demo_world)
      (proposed_names demo_verbose_args demo_input 5) = Some confirmed /\
    Partition._get_page_ranges 5 2 = POk rs /\
    (drun demo_verbose_args demo_world).1 = 0%Z /\
    w_out (drun demo_verbose_args demo_world).2 =
      (w_out demo_world
       ++ @load_lines nat demo_size demo_metadata demo_verbose_args demo_input [1; 2; 3; 4; 5]%nat false
       ++ [nl +:+ "Splitting PDF into " +:+ py_str_nat (length confirmed) +:+ " files..."]
       ++ render_events (PDFSplitter.part_events true (length rs) 0 confirmed rs)
       ++ [nl +:+ check_mark +:+ " Successfully created " +:+ py_str_nat (length confirmed)
           +:+ " PDF files"]
       ++ summary_lines demo_verbose_args demo_input
            (FileManager.init demo_input (Some "out")) confirmed 0)%list.
Proof.
  apply (@run_split_output nat demo_os _ "Linux" mkdir_ok demo_size demo_metadata
           demo_verbose_args demo_world demo_input [1; 2; 3; 4; 5]%nat false);
    [| reflexivity | reflexivity | reflexivity].
  split; [split_and!; try reflexivity; set_solver | split; reflexivity].
Defined.

(** The lines of a verbose split of five pages in three parts: the
    percentages of [print_progress] in binary floating point. *)
Example verbose_split_lines :
  render_events (PDFSplitter.part_events true 3 0
                   [mk_path "out" "doc_part_001_1.pdf"; mk_path "out" "doc_part_002.pdf";
                    mk_path "out" "doc_part_003.pdf"] [(1, 2); (3, 4); (5, 5)]%Z) =
  ["[1/3] (33.3%) Creating part 1"; "Created: out/doc_part_001_1.pdf (pages 1-2)";
   "[2/3] (66.7%) Creating part 2"; "Created: out/doc_part_002.pdf (pages 3-4)";
   "[3/3] (100.0%) Creating part 3"; "Created: out/doc_part_003.pdf (pages 5-5)"].
Proof. vm_compute. reflexivity. Qed.

Example parse_print_options_roundtrip_witness :
  parse_print_options
    (Some (py_join ","%char (option_text ("sides", "two-sided"))
             (option_text <$> [("copies", "2")]))) =
  POk [("sides", "two-sided"); ("copies", "2")].
Proof.
  apply parse_print_options_roundtrip;
    [repeat constructor | apply (bool_decide_unpack _); vm_compute; reflexivity].
Defined.

Example print_options_malformed_witness :
  @print_options_step nat (Some "sides=two-sided,copies") demo_world =
  (POk [], with_out demo_world ["Warning: Invalid print options format. Using defaults."]).
Proof.
  apply (print_options_malformed _ "copies");
    [discriminate | vm_compute; right; left | vm_compute; discriminate].
Defined.

End Main.
